(** * Verification of the sm6250-common device shims

    Two components of the device tree are embedded here:

    - [Libinit]: the variant property resolver of
      [libinit/libinit_variant.cpp] ([search_variant], [set_variant_props]);
    - [Tas2562]: the TAS2562 smart-PA amplifier HAL of
      [amplifier/tas2562.c] (profile selection and feedback capture).

    Both are thin sequences of calls into subsystems owned by other
    projects (property store, tinyalsa, the audio HAL).  Those collaborators
    are kept abstract: every call into them is recorded, with its arguments
    and its result, in a call log, and its effect on the collaborator is a
    transition of an abstract state.  The usecase list of the audio HAL,
    which the amplifier edits itself, and the usecase records it allocates
    are modelled as memory.  The logging macros (ALOGE/ALOGI) and the
    library getter [pcm_get_error], called for a log line only, are not
    modelled; the read of the table of profile names that builds the
    argument of the log line of [tas2562_set_mode] is. *)

From Stdlib Require Import ZArith.
From stdpp Require Import gmap strings list fin_maps.

Open Scope Z_scope.

(* ===================================================================== *)
(** * libinit: variant property resolver *)
(* ===================================================================== *)

Module Libinit.

(** [variant_info_t] (libinit_variant.h), restricted to the members that
    libinit_variant.cpp reads. *)
Record variant_info_t := {
  hwc_value : string;
  brand : string;
  device : string;
  model : string;
  build_fingerprint : string;
}.

Definition HWC_PROP : string := "ro.boot.hwc".
Definition HWNAME_PROP : string := "ro.boot.hwname".

(** Calls into libinit_utils.  [set_ro_build_prop] is called both with and
    without its third argument; [None] stands for the omitted argument. *)
Inductive utils_call :=
| Call_set_ro_build_prop (prop value : string) (product : option bool)
| Call_property_override (prop value : string).

#[global] Instance utils_call_eq_dec : EqDecision utils_call.
Proof. solve_decision. Defined.

(** The helpers of libinit_utils, which this file only calls.  Each one is a
    transformer of the system property store. *)
Class libinit_utils := {
  utils_set_ro_build_prop :
    string → string → option bool → gmap string string → gmap string string;
  utils_property_override :
    string → string → gmap string string → gmap string string;
  fingerprint_to_description : string → string;
}.

(** State of the init process: the system property store and the log of
    helper calls issued so far. *)
Record init_state := InitState {
  props : gmap string string;
  calls : list utils_call;
}.

(** [android::base::GetProperty]: the value of [key], or [default_value]
    when the property is unset or empty. *)
Definition GetProperty (key default_value : string) (st : init_state) : string :=
  match props st !! key with
  | Some v => if bool_decide (v = "") then default_value else v
  | None => default_value
  end.

Section Resolver.
Context `{libinit_utils}.

Definition set_ro_build_prop (prop value : string) (product : option bool)
    (st : init_state) : init_state :=
  {| props := utils_set_ro_build_prop prop value product (props st);
     calls := calls st ++ [Call_set_ro_build_prop prop value product] |}.

Definition property_override (prop value : string) (st : init_state) : init_state :=
  {| props := utils_property_override prop value (props st);
     calls := calls st ++ [Call_property_override prop value] |}.

Definition set_variant_props (variant : variant_info_t) (st : init_state) : init_state :=
  let st := set_ro_build_prop "brand" (brand variant) (Some true) st in
  let st := set_ro_build_prop "device" (device variant) (Some true) st in
  let st := set_ro_build_prop "model" (model variant) (Some true) st in
  let st := set_ro_build_prop "fingerprint" (build_fingerprint variant) None st in
  let st := property_override "ro.bootimage.build.fingerprint"
              (build_fingerprint variant) st in
  property_override "ro.build.description"
    (fingerprint_to_description (build_fingerprint variant)) st.

(** The range-for loop of [search_variant] with its [break]. *)
Fixpoint search_variant_loop (hwc_value' hwname_value : string)
    (variants : list variant_info_t) (st : init_state) : init_state :=
  match variants with
  | [] => st
  | variant :: rest =>
      if (bool_decide (hwc_value variant = "")
          || bool_decide (hwc_value variant = hwc_value'))
         && bool_decide (device variant = hwname_value)
      then set_variant_props variant st
      else search_variant_loop hwc_value' hwname_value rest st
  end.

Definition search_variant (variants : list variant_info_t) (st : init_state)
    : init_state :=
  let hwc_value' := GetProperty HWC_PROP "" st in
  let hwname_value := GetProperty HWNAME_PROP "" st in
  search_variant_loop hwc_value' hwname_value variants st.

(** The selection criterion in the words of the specification: the entry's
    hardware code is empty or equals the one read, and its hardware name
    (the [device] member) equals the one read. *)
Definition selects (hwc hwname : string) (v : variant_info_t) : Prop :=
  (hwc_value v = "" ∨ hwc_value v = hwc) ∧ device v = hwname.

(** The helper calls that apply one entry. *)
Definition variant_calls (v : variant_info_t) : list utils_call :=
  [ Call_set_ro_build_prop "brand" (brand v) (Some true);
    Call_set_ro_build_prop "device" (device v) (Some true);
    Call_set_ro_build_prop "model" (model v) (Some true);
    Call_set_ro_build_prop "fingerprint" (build_fingerprint v) None;
    Call_property_override "ro.bootimage.build.fingerprint" (build_fingerprint v);
    Call_property_override "ro.build.description"
      (fingerprint_to_description (build_fingerprint v)) ].

(** The property store after the six overrides of one entry, in the order
    in which [set_variant_props] issues them. *)
Definition variant_store (v : variant_info_t) (store : gmap string string)
    : gmap string string :=
  utils_property_override "ro.build.description"
    (fingerprint_to_description (build_fingerprint v))
    (utils_property_override "ro.bootimage.build.fingerprint" (build_fingerprint v)
       (utils_set_ro_build_prop "fingerprint" (build_fingerprint v) None
          (utils_set_ro_build_prop "model" (model v) (Some true)
             (utils_set_ro_build_prop "device" (device v) (Some true)
                (utils_set_ro_build_prop "brand" (brand v) (Some true) store))))).

(** Modelled from the spec: the effect of the helpers [set_ro_build_prop]
    and [property_override] of libinit_utils, which are not under src/, on
    the property store.  The spec gives the store the operation
    [setProperty(key, value)] and calls the helpers overrides of it: an
    override writes its value under the name of its property.  [key] gives
    the name of the property that [set_ro_build_prop] writes for a build
    property and its [product] argument. *)
Definition overrides_write (key : string → option bool → string) : Prop :=
  (∀ prop value product store,
     utils_set_ro_build_prop prop value product store
     = <[key prop product := value]> store)
  ∧ (∀ prop value store,
       utils_property_override prop value store = <[prop := value]> store).

(** The names of the six properties that the overrides of an entry write. *)
Definition variant_keys (key : string → option bool → string) : list string :=
  [ key "brand" (Some true); key "device" (Some true); key "model" (Some true);
    key "fingerprint" None;
    "ro.bootimage.build.fingerprint"; "ro.build.description" ].

(** The properties of entry [v] are all set in the store [after], and the
    rest of the store is that of [before]. *)
Definition variant_props_set (key : string → option bool → string)
    (v : variant_info_t) (before after : gmap string string) : Prop :=
  after !! key "brand" (Some true) = Some (brand v)
  ∧ after !! key "device" (Some true) = Some (device v)
  ∧ after !! key "model" (Some true) = Some (model v)
  ∧ after !! key "fingerprint" None = Some (build_fingerprint v)
  ∧ after !! "ro.bootimage.build.fingerprint" = Some (build_fingerprint v)
  ∧ after !! "ro.build.description"
    = Some (fingerprint_to_description (build_fingerprint v))
  ∧ ∀ k, k ∉ variant_keys key → after !! k = before !! k.

End Resolver.

(** A sample implementation of the helpers, for running the resolver on
    concrete tables: every override is a plain write to the store. *)
Definition sample_utils : libinit_utils := {|
  utils_set_ro_build_prop prop value product store :=
    <[ (if default false product then "ro.product." else "ro.build.") +:+ prop
       := value ]> store;
  utils_property_override prop value store := <[ prop := value ]> store;
  fingerprint_to_description fingerprint := fingerprint;
|}.

(** The name of the property that the sample [set_ro_build_prop] writes. *)
Definition sample_key (prop : string) (product : option bool) : string :=
  (if default false product then "ro.product." else "ro.build.") +:+ prop.

Definition curtana_india : variant_info_t := {|
  hwc_value := "India";
  brand := "Redmi";
  device := "curtana";
  model := "Redmi Note 9 Pro";
  build_fingerprint := "Redmi/curtana_in/curtana:12/RKQ1/V14:user/release-keys";
|}.

Definition curtana_global : variant_info_t := {|
  hwc_value := "";
  brand := "Redmi";
  device := "curtana";
  model := "Redmi Note 9S";
  build_fingerprint := "Redmi/curtana_global/curtana:12/RKQ1/V14:user/release-keys";
|}.

Definition joyeuse : variant_info_t := {|
  hwc_value := "";
  brand := "Redmi";
  device := "joyeuse";
  model := "Redmi Note 9 Pro";
  build_fingerprint := "Redmi/joyeuse_global/joyeuse:12/RKQ1/V14:user/release-keys";
|}.

(** An Indian curtana at boot. *)
Definition boot_curtana_india : init_state :=
  {| props := {[ "ro.boot.hwc" := "India"; "ro.boot.hwname" := "curtana" ]};
     calls := [] |}.

(** A curtana whose boot properties carry no hardware code. *)
Definition boot_curtana_no_hwc : init_state :=
  {| props := {[ "ro.boot.hwname" := "curtana" ]}; calls := [] |}.

End Libinit.

(* ===================================================================== *)
(** * amplifier: TAS2562 smart-PA HAL *)
(* ===================================================================== *)

Module Tas2562.

(** Pointers are addresses; a nullable pointer is an [option]. *)
Abbreviation addr := positive.

(** errno.h *)
Definition EIO : Z := 5.
Definition ENOMEM : Z := 12.
Definition ENODEV : Z := 19.
Definition EINVAL : Z := 22.
(** limits.h *)
Definition INT_MAX : Z := 2147483647.

(** Conversion to [uint32_t]. *)
Definition to_uint32 (z : Z) : Z := z mod 2 ^ 32.

Definition TAS2562_ALGO_PROFILE : string := "TAS2562_ALGO_PROFILE".
Definition TAS2562_SMARTPA_ENABLE : string := "TAS2562_SMARTPA_ENABLE".
Definition TAS2562_SET_SPKID_LEFT : string := "TAS2562_SET_SPKID_LEFT".

Inductive tas2562_profile_t :=
| PROFILE_NONE
| PROFILE_MUSIC
| PROFILE_RING
| PROFILE_VOICE.

Definition PROFILE_MAX : tas2562_profile_t := PROFILE_VOICE.

#[global] Instance tas2562_profile_eq_dec : EqDecision tas2562_profile_t.
Proof. solve_decision. Defined.

(** The integer value of each enumerator. *)
Definition profile_value (p : tas2562_profile_t) : Z :=
  match p with
  | PROFILE_NONE => -1
  | PROFILE_MUSIC => 0
  | PROFILE_RING => 1
  | PROFILE_VOICE => 2
  end.

(** [tas2562_profile_names]: designated initialisers at indices
    [PROFILE_MUSIC], [PROFILE_RING], [PROFILE_VOICE]. *)
Definition tas2562_profile_names : list string := ["MUSIC"; "RING"; "VOICE"].

(** [tas2562_profile_names[p]]; [None] is an access outside the array. *)
Definition profile_name (p : tas2562_profile_t) : option string :=
  if profile_value p <? 0 then None
  else tas2562_profile_names !! Z.to_nat (profile_value p).

(** Constants of headers that belong to other projects: system/audio.h
    ([audio_mode_t]), the audio HAL's platform.h ([snd_device_t]) and
    audio_hw.h, tinyalsa's asoundlib.h and hardware/audio_amplifier.h.
    Their values are platform-specific and are taken as parameters. *)
Class hal_headers := {
  AUDIO_MODE_NORMAL : Z;
  AUDIO_MODE_RINGTONE : Z;
  AUDIO_MODE_IN_CALL : Z;
  AUDIO_MODE_IN_COMMUNICATION : Z;
  SND_DEVICE_NONE : Z;
  SND_DEVICE_OUT_SPEAKER : Z;
  SND_DEVICE_OUT_SPEAKER_AND_ANC_HEADSET : Z;
  SND_DEVICE_OUT_SPEAKER_AND_BT_A2DP : Z;
  SND_DEVICE_OUT_SPEAKER_AND_BT_SCO : Z;
  SND_DEVICE_OUT_SPEAKER_AND_BT_SCO_WB : Z;
  SND_DEVICE_OUT_SPEAKER_AND_DISPLAY_PORT : Z;
  SND_DEVICE_OUT_SPEAKER_AND_HDMI : Z;
  SND_DEVICE_OUT_SPEAKER_AND_HEADPHONES : Z;
  SND_DEVICE_OUT_SPEAKER_AND_LINE : Z;
  SND_DEVICE_OUT_SPEAKER_REVERSE : Z;
  SND_DEVICE_OUT_VOICE_SPEAKER : Z;
  SND_DEVICE_OUT_VOICE_SPEAKER_AND_VOICE_ANC_HEADSET : Z;
  SND_DEVICE_OUT_VOICE_SPEAKER_AND_VOICE_HEADPHONES : Z;
  SND_DEVICE_OUT_VOICE_SPEAKER_2 : Z;
  SND_DEVICE_IN_CAPTURE_VI_FEEDBACK : Z;
  USECASE_AUDIO_SPKR_CALIB_TX : Z;
  PCM_CAPTURE : Z;
  PCM_IN : Z;
  PCM_FORMAT_S24_LE : Z;
  AMPLIFIER_HARDWARE_INTERFACE : string;
}.

(** [struct pcm_config], the members initialised by this file. *)
Record pcm_config := {
  channels : Z;
  rate : Z;
  period_size : Z;
  period_count : Z;
  format : Z;
  start_threshold : Z;
  stop_threshold : Z;
  avail_min : Z;
}.

#[global] Instance pcm_config_eq_dec : EqDecision pcm_config.
Proof. solve_decision. Defined.

(** [struct audio_usecase], the members written by this file.  The [list]
    member (the intrusive list node) is the record's address in
    [usecase_list]. *)
Record audio_usecase := {
  id : Z;
  type : Z;
  in_snd_device : Z;
  out_snd_device : Z;
  device_list : list addr;
}.

#[global] Instance audio_usecase_eq_dec : EqDecision audio_usecase.
Proof. solve_decision. Defined.

(** [struct audio_device], the members read or written by this file. *)
Record audio_device := {
  mixer : addr;
  snd_card : Z;
  usecase_list : list addr;
}.

(** [tas2562_amp_t].  The [amp_dev] member (the HAL function table) holds no
    data that the functions below read and is left out. *)
Record tas2562_amp_t := {
  profile : tas2562_profile_t;
  adev : option addr;
  pcm : option addr;
}.

Definition set_profile (p : tas2562_profile_t) (t : tas2562_amp_t) : tas2562_amp_t :=
  {| profile := p; adev := adev t; pcm := pcm t |}.
Definition set_adev (a : option addr) (t : tas2562_amp_t) : tas2562_amp_t :=
  {| profile := profile t; adev := a; pcm := pcm t |}.
Definition set_pcm (p : option addr) (t : tas2562_amp_t) : tas2562_amp_t :=
  {| profile := profile t; adev := adev t; pcm := p |}.

(** One entry of the call log: a call into tinyalsa, the audio HAL or the
    list API on the HAL's usecase list, with its arguments and, where the
    caller uses one, its result.  A route call also records the usecase
    record that its pointer argument refers to at the time of the call. *)
Inductive call :=
| Call_list_add_head (adev' : addr) (usecase : addr)
| Call_list_remove (usecase : addr)
| Call_get_usecase_from_list (adev' : addr) (uc_id : Z) (ret : option addr)
| Call_mixer_get_ctl_by_name (mixer' : addr) (name : string) (ret : option addr)
| Call_mixer_ctl_set_enum_by_string (ctl : addr) (value : string) (ret : Z)
| Call_mixer_ctl_set_value (ctl : addr) (index value : Z) (ret : Z)
| Call_enable_snd_device (adev' : addr) (snd_device : Z)
| Call_disable_snd_device (adev' : addr) (snd_device : Z)
| Call_enable_audio_route (adev' : addr) (usecase : addr) (u : audio_usecase)
| Call_disable_audio_route (adev' : addr) (usecase : addr) (u : audio_usecase)
| Call_platform_get_pcm_device_id (usecase_id device_type : Z) (ret : Z)
| Call_pcm_open (card device : Z) (flags : Z) (config : pcm_config) (ret : option addr)
| Call_pcm_is_ready (pcm' : addr) (ret : bool)
| Call_pcm_start (pcm' : addr) (ret : Z)
| Call_pcm_close (pcm' : addr).

#[global] Instance call_eq_dec : EqDecision call.
Proof. solve_decision. Defined.

(** The collaborators (mixer, routing subsystem, capture streams, the
    allocator), as transitions of an abstract state [E].  Every answer may
    depend on everything that happened before. *)
Class audio_platform (E : Type) := {
  ext_calloc : E → bool * E;
  ext_mixer_get_ctl_by_name : addr → string → E → option addr * E;
  ext_mixer_ctl_set_enum_by_string : addr → string → E → Z * E;
  ext_mixer_ctl_set_value : addr → Z → Z → E → Z * E;
  ext_enable_snd_device : addr → Z → E → E;
  ext_disable_snd_device : addr → Z → E → E;
  ext_enable_audio_route : addr → addr → audio_usecase → E → E;
  ext_disable_audio_route : addr → addr → audio_usecase → E → E;
  ext_platform_get_pcm_device_id : Z → Z → E → Z * E;
  ext_pcm_open : Z → Z → Z → pcm_config → E → option addr * E;
  ext_pcm_is_ready : addr → E → bool * E;
  ext_pcm_start : addr → E → Z * E;
  ext_pcm_close : addr → E → E;
}.

(** The world: the usecase records and audio devices in memory, the call
    log, and the state of the collaborators. *)
Record world (E : Type) := World {
  usecases : gmap addr audio_usecase;
  adevs : gmap addr audio_device;
  trace : list call;
  ext : E;
}.
Arguments World {E} _ _ _ _.
Arguments usecases {E} _.
Arguments adevs {E} _.
Arguments trace {E} _.
Arguments ext {E} _.

(** Computations over the world; [None] is undefined behaviour (a null or
    dangling pointer is dereferenced, an array is read out of bounds). *)
Definition M (E A : Type) : Type := world E → option (A * world E).

#[global] Instance M_ret {E} : MRet (M E) := λ A a w, Some (a, w).
#[global] Instance M_bind {E} : MBind (M E) := λ A B f m w,
  match m w with
  | Some (a, w') => f a w'
  | None => None
  end.

Definition undefined {E A} : M E A := λ _, None.

(** A call with a result, and a call whose result (if any) is dropped. *)
Definition external {E R} (f : E → R * E) (ev : R → call) : M E R := λ w,
  let r := f (ext w) in
  Some (r.1, World (usecases w) (adevs w) (trace w ++ [ev r.1]) r.2).

Definition external_ {E} (f : E → E) (ev : call) : M E unit := λ w,
  Some (tt, World (usecases w) (adevs w) (trace w ++ [ev]) (f (ext w))).

(** Removes the first occurrence of a node from a list of nodes. *)
Fixpoint remove_node (a : addr) (l : list addr) : list addr :=
  match l with
  | [] => []
  | b :: l' => if decide (a = b) then l' else b :: remove_node a l'
  end.

(** The attempt to set a mixer control by name: the control is looked up,
    and set when it exists. *)
Inductive set_enum_attempt (mixer' : addr) (name value : string) : list call → Prop :=
| set_enum_no_ctl :
    set_enum_attempt mixer' name value
      [Call_mixer_get_ctl_by_name mixer' name None]
| set_enum_issued ctl ret :
    set_enum_attempt mixer' name value
      [Call_mixer_get_ctl_by_name mixer' name (Some ctl);
       Call_mixer_ctl_set_enum_by_string ctl value ret].

Inductive set_value_attempt (mixer' : addr) (name : string) (value : Z) : list call → Prop :=
| set_value_no_ctl :
    set_value_attempt mixer' name value
      [Call_mixer_get_ctl_by_name mixer' name None]
| set_value_issued ctl ret :
    set_value_attempt mixer' name value
      [Call_mixer_get_ctl_by_name mixer' name (Some ctl);
       Call_mixer_ctl_set_value ctl 0 value ret].

(** The failures of capture setup and the status each one makes
    [tas2562_start_feedback] return: no PCM device id (ENODEV), a stream that
    is not opened or not ready (EIO), a stream that does not start (the
    status of [pcm_start]). *)
Definition capture_error (c : call) : option Z :=
  match c with
  | Call_platform_get_pcm_device_id _ _ ret =>
      if ret <? 0 then Some (- ENODEV) else None
  | Call_pcm_open _ _ _ _ None => Some (- EIO)
  | Call_pcm_is_ready _ false => Some (- EIO)
  | Call_pcm_start _ ret => if ret <? 0 then Some ret else None
  | _ => None
  end.

Section Amplifier.
Context {E : Type} `{hal_headers} `{audio_platform E}.

(** ** Memory *)

(** [*adev] *)
Definition load_adev (adev' : addr) : M E audio_device := λ w,
  match adevs w !! adev' with
  | Some d => Some (d, w)
  | None => None
  end.

(** [*usecase] *)
Definition load_usecase (usecase : addr) : M E audio_usecase := λ w,
  match usecases w !! usecase with
  | Some u => Some (u, w)
  | None => None
  end.

(** [calloc(1, sizeof(struct audio_usecase))]: a fresh, zeroed record, or
    NULL. *)
Definition calloc_usecase : M E (option addr) := λ w,
  let r := ext_calloc (ext w) in
  if r.1 then
    let a := fresh (dom (usecases w)) in
    let zero := {| id := 0; type := 0; in_snd_device := 0;
                   out_snd_device := 0; device_list := [] |} in
    Some (Some a, World (<[a := zero]> (usecases w)) (adevs w) (trace w) r.2)
  else Some (None, World (usecases w) (adevs w) (trace w) r.2).

(** [*usecase = u] *)
Definition store_usecase (usecase : addr) (u : audio_usecase) : M E unit := λ w,
  match usecases w !! usecase with
  | Some _ => Some (tt, World (<[usecase := u]> (usecases w)) (adevs w) (trace w) (ext w))
  | None => None
  end.

(** [free(usecase)] *)
Definition free_usecase (usecase : addr) : M E unit := λ w,
  match usecases w !! usecase with
  | Some _ => Some (tt, World (delete usecase (usecases w)) (adevs w) (trace w) (ext w))
  | None => None
  end.

(** [list_add_head(&adev->usecase_list, &usecase->list)] *)
Definition list_add_head (adev' usecase : addr) : M E unit := λ w,
  match adevs w !! adev' with
  | Some d =>
      let d' := {| mixer := mixer d; snd_card := snd_card d;
                   usecase_list := usecase :: usecase_list d |} in
      Some (tt, World (usecases w) (<[adev' := d']> (adevs w))
                      (trace w ++ [Call_list_add_head adev' usecase]) (ext w))
  | None => None
  end.

(** [list_remove(&usecase->list)], for a node that is on the usecase list of
    [adev']. *)
Definition list_remove (adev' usecase : addr) : M E unit := λ w,
  match adevs w !! adev' with
  | Some d =>
      let d' := {| mixer := mixer d; snd_card := snd_card d;
                   usecase_list := remove_node usecase (usecase_list d) |} in
      Some (tt, World (usecases w) (<[adev' := d']> (adevs w))
                      (trace w ++ [Call_list_remove usecase]) (ext w))
  | None => None
  end.

(** The audio HAL's [get_usecase_from_list]: walks the usecase list from its
    head and returns the first record whose [id] is [uc_id], NULL when there
    is none. *)
Fixpoint find_usecase (uc_id : Z) (nodes : list addr) : M E (option addr) :=
  match nodes with
  | [] => mret None
  | node :: rest =>
      usecase ← load_usecase node;
      if bool_decide (id usecase = uc_id) then mret (Some node)
      else find_usecase uc_id rest
  end.

Definition get_usecase_from_list (adev' : addr) (uc_id : Z) : M E (option addr) :=
  d ← load_adev adev';
  usecase ← find_usecase uc_id (usecase_list d);
  external_ (λ e, e) (Call_get_usecase_from_list adev' uc_id usecase);;
  mret usecase.

(** ** Calls into tinyalsa and the audio HAL *)

Definition mixer_get_ctl_by_name (mixer' : addr) (name : string) : M E (option addr) :=
  external (ext_mixer_get_ctl_by_name mixer' name)
           (Call_mixer_get_ctl_by_name mixer' name).

Definition mixer_ctl_set_enum_by_string (ctl : addr) (value : string) : M E Z :=
  external (ext_mixer_ctl_set_enum_by_string ctl value)
           (Call_mixer_ctl_set_enum_by_string ctl value).

Definition mixer_ctl_set_value (ctl : addr) (index value : Z) : M E Z :=
  external (ext_mixer_ctl_set_value ctl index value)
           (Call_mixer_ctl_set_value ctl index value).

Definition enable_snd_device (adev' : addr) (snd_device : Z) : M E unit :=
  external_ (ext_enable_snd_device adev' snd_device)
            (Call_enable_snd_device adev' snd_device).

Definition disable_snd_device (adev' : addr) (snd_device : Z) : M E unit :=
  external_ (ext_disable_snd_device adev' snd_device)
            (Call_disable_snd_device adev' snd_device).

Definition enable_audio_route (adev' usecase : addr) : M E unit :=
  u ← load_usecase usecase;
  external_ (ext_enable_audio_route adev' usecase u)
            (Call_enable_audio_route adev' usecase u).

Definition disable_audio_route (adev' usecase : addr) : M E unit :=
  u ← load_usecase usecase;
  external_ (ext_disable_audio_route adev' usecase u)
            (Call_disable_audio_route adev' usecase u).

Definition platform_get_pcm_device_id (usecase_id device_type : Z) : M E Z :=
  external (ext_platform_get_pcm_device_id usecase_id device_type)
           (Call_platform_get_pcm_device_id usecase_id device_type).

Definition pcm_open (card device flags : Z) (config : pcm_config) : M E (option addr) :=
  external (ext_pcm_open card device flags config)
           (Call_pcm_open card device flags config).

Definition pcm_is_ready (pcm' : addr) : M E bool :=
  external (ext_pcm_is_ready pcm') (Call_pcm_is_ready pcm').

Definition pcm_start (pcm' : addr) : M E Z :=
  external (ext_pcm_start pcm') (Call_pcm_start pcm').

Definition pcm_close (pcm' : addr) : M E unit :=
  external_ (ext_pcm_close pcm') (Call_pcm_close pcm').

(** ** tas2562.c *)

Definition tas2562_pcm_config : pcm_config := {|
  channels := 2;
  rate := 48000;
  period_size := 256;
  period_count := 4;
  format := PCM_FORMAT_S24_LE;
  start_threshold := 0;
  stop_threshold := INT_MAX;
  avail_min := 40;
|}.

Definition tas2562_mixer_set_enum_by_string (mixer' : addr) (name value : string)
    : M E Z :=
  ctl ← mixer_get_ctl_by_name mixer' name;
  match ctl with
  | None => mret (- EINVAL)
  | Some ctl =>
      ret ← mixer_ctl_set_enum_by_string ctl value;
      if ret <? 0 then mret ret else mret ret
  end.

Definition tas2562_mixer_set_value (mixer' : addr) (name : string) (value : Z)
    : M E Z :=
  ctl ← mixer_get_ctl_by_name mixer' name;
  match ctl with
  | None => mret (- EINVAL)
  | Some ctl =>
      ret ← mixer_ctl_set_value ctl 0 value;
      if ret <? 0 then mret ret else mret ret
  end.

(** The case labels of the switch in [tas2562_is_speaker], as written. *)
Definition speaker_cases : list Z :=
  [ SND_DEVICE_OUT_SPEAKER;
    SND_DEVICE_OUT_SPEAKER_AND_ANC_HEADSET;
    SND_DEVICE_OUT_SPEAKER_AND_BT_A2DP;
    SND_DEVICE_OUT_SPEAKER_AND_BT_SCO;
    SND_DEVICE_OUT_SPEAKER_AND_BT_SCO_WB;
    SND_DEVICE_OUT_SPEAKER_AND_DISPLAY_PORT;
    SND_DEVICE_OUT_SPEAKER_AND_HDMI;
    SND_DEVICE_OUT_SPEAKER_AND_HEADPHONES;
    SND_DEVICE_OUT_SPEAKER_AND_LINE;
    SND_DEVICE_OUT_SPEAKER_REVERSE;
    SND_DEVICE_OUT_VOICE_SPEAKER;
    SND_DEVICE_OUT_VOICE_SPEAKER_AND_VOICE_ANC_HEADSET;
    SND_DEVICE_OUT_VOICE_SPEAKER_AND_VOICE_HEADPHONES;
    SND_DEVICE_OUT_VOICE_SPEAKER_2 ].

(** The speaker devices: the labels converted to the type of the operand of
    the switch, [uint32_t]. *)
Definition speaker_devices : list Z := to_uint32 <$> speaker_cases.

Definition tas2562_is_speaker (device : Z) : bool :=
  if bool_decide (device ∈ speaker_devices) then true else false.

(** [device] is the handle: [None] is a null pointer, [Some t] the record it
    points to.  The record after the call is returned with the status.  The
    result [None] is undefined behaviour: the argument of the log line,
    [tas2562_profile_names[tas2562->profile]], is read outside the array. *)
Definition tas2562_set_mode (device : option tas2562_amp_t) (mode : Z)
    : option (Z * option tas2562_amp_t) :=
  match device with
  | None => Some (- EINVAL, None)
  | Some tas2562 =>
      let tas2562 :=
        if bool_decide (mode = AUDIO_MODE_NORMAL) then
          set_profile PROFILE_MUSIC tas2562
        else if bool_decide (mode = AUDIO_MODE_RINGTONE) then
          set_profile PROFILE_RING tas2562
        else if bool_decide (mode = AUDIO_MODE_IN_CALL)
                || bool_decide (mode = AUDIO_MODE_IN_COMMUNICATION) then
          set_profile PROFILE_VOICE tas2562
        else tas2562 in
      match profile_name (profile tas2562) with
      | None => None
      | Some _ => Some (0, Some tas2562)
      end
  end.

(** The profile that the switch of [tas2562_set_mode] leaves in the record,
    given the mode and the profile of before. *)
Definition switched_profile (mode : Z) (old : tas2562_profile_t)
    : tas2562_profile_t :=
  if bool_decide (mode = AUDIO_MODE_NORMAL) then PROFILE_MUSIC
  else if bool_decide (mode = AUDIO_MODE_RINGTONE) then PROFILE_RING
  else if bool_decide (mode = AUDIO_MODE_IN_CALL)
          || bool_decide (mode = AUDIO_MODE_IN_COMMUNICATION) then PROFILE_VOICE
  else old.

(** Label [err_no_pcm] of [tas2562_start_feedback]. *)
Definition err_no_pcm (tas2562 : tas2562_amp_t) (adev' mixer' usecase : addr)
    (rc : Z) : M E (Z * tas2562_amp_t) :=
  _ ← tas2562_mixer_set_enum_by_string mixer' TAS2562_SMARTPA_ENABLE "DISABLE";
  disable_audio_route adev' usecase;;
  disable_snd_device adev' SND_DEVICE_IN_CAPTURE_VI_FEEDBACK;;
  list_remove adev' usecase;;
  free_usecase usecase;;
  mret (rc, tas2562).

(** Label [err_pcm_start] of [tas2562_start_feedback], which falls through to
    [err_no_pcm]. *)
Definition err_pcm_start (tas2562 : tas2562_amp_t) (adev' mixer' usecase : addr)
    (pcm' : option addr) (rc : Z) : M E (Z * tas2562_amp_t) :=
  match pcm' with
  | Some p => pcm_close p
  | None => mret tt
  end;;
  err_no_pcm tas2562 adev' mixer' usecase rc.

Definition tas2562_start_feedback (tas2562 : tas2562_amp_t) (device : Z)
    : M E (Z * tas2562_amp_t) :=
  let pcm_config' := tas2562_pcm_config in
  match adev tas2562 with
  | None => undefined
  | Some adev' =>
  d ← load_adev adev';
  let mixer' := mixer d in
  if negb (tas2562_is_speaker device) then mret (0, tas2562) else
  match pcm tas2562 with
  | Some _ => mret (- EINVAL, tas2562)
  | None =>
  usecase ← calloc_usecase;
  match usecase with
  | None => mret (- ENOMEM, tas2562)
  | Some usecase =>
  store_usecase usecase
    {| id := USECASE_AUDIO_SPKR_CALIB_TX;
       type := PCM_CAPTURE;
       in_snd_device := SND_DEVICE_IN_CAPTURE_VI_FEEDBACK;
       out_snd_device := SND_DEVICE_NONE;
       device_list := [] |};;
  list_add_head adev' usecase;;
  enable_snd_device adev' SND_DEVICE_IN_CAPTURE_VI_FEEDBACK;;
  enable_audio_route adev' usecase;;
  _ ← tas2562_mixer_set_value mixer' TAS2562_SET_SPKID_LEFT 0;
  match profile_name (profile tas2562) with
  | None => undefined
  | Some profile' =>
  _ ← tas2562_mixer_set_enum_by_string mixer' TAS2562_ALGO_PROFILE profile';
  _ ← tas2562_mixer_set_enum_by_string mixer' TAS2562_SMARTPA_ENABLE "ENABLE";
  u ← load_usecase usecase;
  pcm_id ← platform_get_pcm_device_id (id u) PCM_CAPTURE;
  if pcm_id <? 0 then
    err_no_pcm tas2562 adev' mixer' usecase (- ENODEV)
  else
  d ← load_adev adev';
  pcm' ← pcm_open (snd_card d) pcm_id PCM_IN pcm_config';
  match pcm' with
  | None => err_no_pcm tas2562 adev' mixer' usecase (- EIO)
  | Some p =>
  ready ← pcm_is_ready p;
  if negb ready then
    err_no_pcm tas2562 adev' mixer' usecase (- EIO)
  else
  rc ← pcm_start p;
  if rc <? 0 then
    err_pcm_start tas2562 adev' mixer' usecase (Some p) rc
  else
  mret (0, set_pcm (Some p) tas2562)
  end end end end end.

Definition tas2562_stop_feedback (tas2562 : tas2562_amp_t) (device : Z)
    : M E (Z * tas2562_amp_t) :=
  match adev tas2562 with
  | None => undefined
  | Some adev' =>
  d ← load_adev adev';
  let mixer' := mixer d in
  if negb (tas2562_is_speaker device) then mret (0, tas2562) else
  match pcm tas2562 with
  | None => mret (- EINVAL, tas2562)
  | Some p =>
  pcm_close p;;
  let tas2562 := set_pcm None tas2562 in
  _ ← tas2562_mixer_set_enum_by_string mixer' TAS2562_SMARTPA_ENABLE "DISABLE";
  disable_snd_device adev' SND_DEVICE_IN_CAPTURE_VI_FEEDBACK;;
  usecase ← get_usecase_from_list adev' USECASE_AUDIO_SPKR_CALIB_TX;
  match usecase with
  | Some usecase =>
      disable_audio_route adev' usecase;;
      list_remove adev' usecase;;
      free_usecase usecase
  | None => mret tt
  end;;
  mret (0, tas2562)
  end end.

Definition tas2562_set_feedback (device : option tas2562_amp_t)
    (adev' : option addr) (devices : Z) (enable : bool)
    : M E (Z * option tas2562_amp_t) :=
  match adev', device with
  | Some a, Some tas2562 =>
      let tas2562 := set_adev (Some a) tas2562 in
      '(rc, tas2562) ←
        (if enable then tas2562_start_feedback tas2562 devices
         else tas2562_stop_feedback tas2562 devices);
      mret (rc, Some tas2562)
  | _, _ => mret (- EINVAL, device)
  end.

(** [free(device)] when the handle is not null. *)
Definition tas2562_dev_close (device : option tas2562_amp_t)
    : Z * option tas2562_amp_t :=
  (0, None).

(** The device handle written to [*device] is returned with the status;
    [strcmp] is non-zero exactly when the strings differ. *)
Definition tas2562_module_open (name : string) : M E (Z * option tas2562_amp_t) := λ w,
  if negb (bool_decide (name = AMPLIFIER_HARDWARE_INTERFACE)) then
    Some ((- ENODEV, None), w)
  else
    let r := ext_calloc (ext w) in
    let w := World (usecases w) (adevs w) (trace w) r.2 in
    if negb r.1 then Some ((- ENOMEM, None), w)
    else
      (* calloc: every member is zero; the enumerator of value 0 is
         PROFILE_MUSIC *)
      let tas2562 := {| profile := PROFILE_MUSIC; adev := None; pcm := None |} in
      let tas2562 := set_profile PROFILE_MUSIC tas2562 in
      Some ((0, Some tas2562), w).

(** ** The framework's use of the device *)

(** One call through the function table of an opened device. *)
Inductive op :=
| Op_set_mode (mode : Z)
| Op_set_feedback (adev' : option addr) (devices : Z) (enable : bool).

Definition run_op (o : op) (device : option tas2562_amp_t)
    : M E (option tas2562_amp_t) :=
  match o with
  | Op_set_mode mode =>
      match tas2562_set_mode device mode with
      | Some r => mret r.2
      | None => undefined
      end
  | Op_set_feedback adev' devices enable =>
      r ← tas2562_set_feedback device adev' devices enable;
      mret r.2
  end.

Fixpoint run_ops (ops : list op) (device : option tas2562_amp_t)
    : M E (option tas2562_amp_t) :=
  match ops with
  | [] => mret device
  | o :: ops => device ← run_op o device; run_ops ops device
  end.

(** The profile of a device, if there is one, is one of the three named
    profiles. *)
Definition profile_valid (device : option tas2562_amp_t) : Prop :=
  match device with
  | Some tas2562 => profile tas2562 ∈ [PROFILE_MUSIC; PROFILE_RING; PROFILE_VOICE]
  | None => True
  end.

(** The case labels of the switch in [tas2562_set_mode]. *)
Definition profile_modes : list Z :=
  [ AUDIO_MODE_NORMAL; AUDIO_MODE_RINGTONE; AUDIO_MODE_IN_CALL;
    AUDIO_MODE_IN_COMMUNICATION ].

(** ** Reading the call log *)

(** The usecase record registered for feedback capture. *)
Definition feedback_usecase : audio_usecase :=
  {| id := USECASE_AUDIO_SPKR_CALIB_TX;
     type := PCM_CAPTURE;
     in_snd_device := SND_DEVICE_IN_CAPTURE_VI_FEEDBACK;
     out_snd_device := SND_DEVICE_NONE;
     device_list := [] |}.

(** Registration and routing of the feedback usecase at [usecase]. *)
Definition setup_calls (adev' usecase : addr) : list call :=
  [ Call_list_add_head adev' usecase;
    Call_enable_snd_device adev' SND_DEVICE_IN_CAPTURE_VI_FEEDBACK;
    Call_enable_audio_route adev' usecase feedback_usecase ].

(** The calls that undo it, after the attempt [off] to switch the smart PA
    off. *)
Definition rollback_calls (adev' usecase : addr) (off : list call) : list call :=
  off ++
  [ Call_disable_audio_route adev' usecase feedback_usecase;
    Call_disable_snd_device adev' SND_DEVICE_IN_CAPTURE_VI_FEEDBACK;
    Call_list_remove usecase ].

(** Net number of times the routing device [snd_device] of [adev'] was
    enabled in a log, and net number of times the route of [usecase] was
    applied: an enable counts 1, a disable -1. *)
Definition snd_device_ref (adev' : addr) (snd_device : Z) (c : call) : Z :=
  match c with
  | Call_enable_snd_device a s =>
      if bool_decide (a = adev' ∧ s = snd_device) then 1 else 0
  | Call_disable_snd_device a s =>
      if bool_decide (a = adev' ∧ s = snd_device) then -1 else 0
  | _ => 0
  end.

Definition snd_device_refs (adev' : addr) (snd_device : Z) (log : list call) : Z :=
  foldr (λ c n, snd_device_ref adev' snd_device c + n) 0 log.

Definition audio_route_ref (adev' usecase : addr) (c : call) : Z :=
  match c with
  | Call_enable_audio_route a u _ =>
      if bool_decide (a = adev' ∧ u = usecase) then 1 else 0
  | Call_disable_audio_route a u _ =>
      if bool_decide (a = adev' ∧ u = usecase) then -1 else 0
  | _ => 0
  end.

Definition audio_route_refs (adev' usecase : addr) (log : list call) : Z :=
  foldr (λ c n, audio_route_ref adev' usecase c + n) 0 log.

(** Every node of the usecase list of [d] points to a record in memory. *)
Definition usecase_list_live (us : gmap addr audio_usecase) (d : audio_device) : Prop :=
  Forall (λ node, is_Some (us !! node)) (usecase_list d).

(** No record on the usecase list of [d] has the id [uc_id]. *)
Definition usecase_absent (us : gmap addr audio_usecase) (d : audio_device)
    (uc_id : Z) : Prop :=
  ∀ node u, node ∈ usecase_list d → us !! node = Some u → id u ≠ uc_id.

(** The capture part of the enable path for the usecase record at
    [usecase], from the request for the PCM device id on: the calls made,
    the status returned, and the stream that becomes the session. *)
Inductive capture_run (adev' : addr) (d : audio_device) (usecase : addr)
    : list call → Z → option addr → Prop :=
| capture_no_pcm_id pcm_id off :
    pcm_id < 0 →
    set_enum_attempt (mixer d) TAS2562_SMARTPA_ENABLE "DISABLE" off →
    capture_run adev' d usecase
      (Call_platform_get_pcm_device_id USECASE_AUDIO_SPKR_CALIB_TX PCM_CAPTURE pcm_id
       :: rollback_calls adev' usecase off)
      (- ENODEV) None
| capture_no_pcm pcm_id off :
    0 ≤ pcm_id →
    set_enum_attempt (mixer d) TAS2562_SMARTPA_ENABLE "DISABLE" off →
    capture_run adev' d usecase
      (Call_platform_get_pcm_device_id USECASE_AUDIO_SPKR_CALIB_TX PCM_CAPTURE pcm_id
       :: Call_pcm_open (snd_card d) pcm_id PCM_IN tas2562_pcm_config None
       :: rollback_calls adev' usecase off)
      (- EIO) None
| capture_not_ready pcm_id p off :
    0 ≤ pcm_id →
    set_enum_attempt (mixer d) TAS2562_SMARTPA_ENABLE "DISABLE" off →
    capture_run adev' d usecase
      (Call_platform_get_pcm_device_id USECASE_AUDIO_SPKR_CALIB_TX PCM_CAPTURE pcm_id
       :: Call_pcm_open (snd_card d) pcm_id PCM_IN tas2562_pcm_config (Some p)
       :: Call_pcm_is_ready p false
       :: rollback_calls adev' usecase off)
      (- EIO) None
| capture_not_started pcm_id p rc off :
    0 ≤ pcm_id → rc < 0 →
    set_enum_attempt (mixer d) TAS2562_SMARTPA_ENABLE "DISABLE" off →
    capture_run adev' d usecase
      (Call_platform_get_pcm_device_id USECASE_AUDIO_SPKR_CALIB_TX PCM_CAPTURE pcm_id
       :: Call_pcm_open (snd_card d) pcm_id PCM_IN tas2562_pcm_config (Some p)
       :: Call_pcm_is_ready p true
       :: Call_pcm_start p rc
       :: Call_pcm_close p
       :: rollback_calls adev' usecase off)
      rc None
| capture_started pcm_id p rc :
    0 ≤ pcm_id → 0 ≤ rc →
    capture_run adev' d usecase
      [ Call_platform_get_pcm_device_id USECASE_AUDIO_SPKR_CALIB_TX PCM_CAPTURE pcm_id;
        Call_pcm_open (snd_card d) pcm_id PCM_IN tas2562_pcm_config (Some p);
        Call_pcm_is_ready p true;
        Call_pcm_start p rc ]
      0 (Some p).

(** The memory in which a session is open on the record at [uc]. *)
Definition session_usecases (uc : addr) (session : option addr)
    (us : gmap addr audio_usecase) : gmap addr audio_usecase :=
  match session with
  | Some _ => <[uc := feedback_usecase]> us
  | None => us
  end.

Definition session_adevs (a : addr) (d : audio_device) (uc : addr) (session : option addr)
    (ads : gmap addr audio_device) : gmap addr audio_device :=
  match session with
  | Some _ => <[a := {| mixer := mixer d; snd_card := snd_card d;
                        usecase_list := uc :: usecase_list d |}]> ads
  | None => ads
  end.

(** The first node of [nodes] whose record has the id [uc_id]. *)
Fixpoint first_usecase (us : gmap addr audio_usecase) (uc_id : Z)
    (nodes : list addr) : option addr :=
  match nodes with
  | [] => None
  | node :: rest =>
      match us !! node with
      | Some u =>
          if bool_decide (id u = uc_id) then Some node
          else first_usecase us uc_id rest
      | None => None
      end
  end.

(** The end of the disable path: what is done with the feedback usecase
    record of [d], the calls made and the memory left. *)
Inductive stop_cleanup (adev' : addr) (d : audio_device)
    (us : gmap addr audio_usecase) (ads : gmap addr audio_device)
    : list call → gmap addr audio_usecase → gmap addr audio_device → Prop :=
| cleanup_absent :
    first_usecase us USECASE_AUDIO_SPKR_CALIB_TX (usecase_list d) = None →
    stop_cleanup adev' d us ads
      [ Call_get_usecase_from_list adev' USECASE_AUDIO_SPKR_CALIB_TX None ]
      us ads
| cleanup_found usecase u :
    first_usecase us USECASE_AUDIO_SPKR_CALIB_TX (usecase_list d) = Some usecase →
    us !! usecase = Some u →
    stop_cleanup adev' d us ads
      [ Call_get_usecase_from_list adev' USECASE_AUDIO_SPKR_CALIB_TX (Some usecase);
        Call_disable_audio_route adev' usecase u;
        Call_list_remove usecase ]
      (delete usecase us)
      (<[adev' := {| mixer := mixer d; snd_card := snd_card d;
                     usecase_list := remove_node usecase (usecase_list d) |}]> ads).

(** The steps of the enable path, in their order, as observed on a run from
    [w] to [w'] with status [rc] and device record [t']:
    (1) a fresh usecase record, the feedback capture record, is put at the
    head of the usecase list; (2) the feedback routing device is enabled and
    the route of the record applied; (3)-(5) the speaker id, the profile
    name and "ENABLE" are sent to their mixer controls; (6)-(7) the capture
    part [capture_run].  With a session, the stream is the stored handle,
    and the record is in memory at the head of the list. *)
Definition enable_steps (tas2562 : tas2562_amp_t) (adev' : addr)
    (d : audio_device) (w : world E) (rc : Z) (t' : tas2562_amp_t)
    (w' : world E) : Prop :=
  ∃ usecase name s3 s4 s5 cap session,
    usecases w !! usecase = None
    ∧ profile_name (profile tas2562) = Some name
    ∧ trace w' = trace w ++ setup_calls adev' usecase ++ s3 ++ s4 ++ s5 ++ cap
    ∧ set_value_attempt (mixer d) TAS2562_SET_SPKID_LEFT 0 s3
    ∧ set_enum_attempt (mixer d) TAS2562_ALGO_PROFILE name s4
    ∧ set_enum_attempt (mixer d) TAS2562_SMARTPA_ENABLE "ENABLE" s5
    ∧ capture_run adev' d usecase cap rc session
    ∧ pcm t' = session
    ∧ (is_Some session →
       usecases w' !! usecase = Some feedback_usecase
       ∧ ∃ d', adevs w' !! adev' = Some d'
               ∧ usecase_list d' = usecase :: usecase_list d).

End Amplifier.

(** ** Two platforms that differ in the mixer only

    [R] relates the states of two platforms.  Outside the mixer, related
    states give the same answer and stay related; a mixer call on either
    side keeps the states related, whatever it answers. *)
Section Blind.
Context {E1 E2 : Type} (R : E1 → E2 → Prop).

Definition same_answer {A} (f1 : E1 → A * E1) (f2 : E2 → A * E2) : Prop :=
  ∀ e1 e2, R e1 e2 → (f1 e1).1 = (f2 e2).1 ∧ R (f1 e1).2 (f2 e2).2.

Definition same_effect (f1 : E1 → E1) (f2 : E2 → E2) : Prop :=
  ∀ e1 e2, R e1 e2 → R (f1 e1) (f2 e2).

Definition unobserved {A B} (f1 : E1 → A * E1) (f2 : E2 → B * E2) : Prop :=
  ∀ e1 e2, R e1 e2 → R (f1 e1).2 e2 ∧ R e1 (f2 e2).2.

Record mixer_blind (P1 : audio_platform E1) (P2 : audio_platform E2) : Prop := {
  blind_calloc :
    same_answer (@ext_calloc _ P1) (@ext_calloc _ P2);
  blind_get_ctl m1 name1 m2 name2 :
    unobserved (@ext_mixer_get_ctl_by_name _ P1 m1 name1)
               (@ext_mixer_get_ctl_by_name _ P2 m2 name2);
  blind_set_enum ctl1 value1 ctl2 value2 :
    unobserved (@ext_mixer_ctl_set_enum_by_string _ P1 ctl1 value1)
               (@ext_mixer_ctl_set_enum_by_string _ P2 ctl2 value2);
  blind_set_value ctl1 index1 value1 ctl2 index2 value2 :
    unobserved (@ext_mixer_ctl_set_value _ P1 ctl1 index1 value1)
               (@ext_mixer_ctl_set_value _ P2 ctl2 index2 value2);
  blind_enable_snd_device a s :
    same_effect (@ext_enable_snd_device _ P1 a s)
                (@ext_enable_snd_device _ P2 a s);
  blind_disable_snd_device a s :
    same_effect (@ext_disable_snd_device _ P1 a s)
                (@ext_disable_snd_device _ P2 a s);
  blind_enable_audio_route a uc u :
    same_effect (@ext_enable_audio_route _ P1 a uc u)
                (@ext_enable_audio_route _ P2 a uc u);
  blind_disable_audio_route a uc u :
    same_effect (@ext_disable_audio_route _ P1 a uc u)
                (@ext_disable_audio_route _ P2 a uc u);
  blind_pcm_device_id uc_id device_type :
    same_answer (@ext_platform_get_pcm_device_id _ P1 uc_id device_type)
                (@ext_platform_get_pcm_device_id _ P2 uc_id device_type);
  blind_pcm_open card device flags config :
    same_answer (@ext_pcm_open _ P1 card device flags config)
                (@ext_pcm_open _ P2 card device flags config);
  blind_pcm_is_ready p :
    same_answer (@ext_pcm_is_ready _ P1 p) (@ext_pcm_is_ready _ P2 p);
  blind_pcm_start p :
    same_answer (@ext_pcm_start _ P1 p) (@ext_pcm_start _ P2 p);
  blind_pcm_close p :
    same_effect (@ext_pcm_close _ P1 p) (@ext_pcm_close _ P2 p);
}.

(** Worlds with the same memory and related platforms; the logs may differ. *)
Definition world_rel (w1 : world E1) (w2 : world E2) : Prop :=
  usecases w1 = usecases w2 ∧ adevs w1 = adevs w2 ∧ R (ext w1) (ext w2).

(** Two runs with the same result in related worlds, or both undefined. *)
Definition same_outcome {A} (r1 : option (A * world E1))
    (r2 : option (A * world E2)) : Prop :=
  match r1, r2 with
  | Some (x1, w1), Some (x2, w2) => x1 = x2 ∧ world_rel w1 w2
  | None, None => True
  | _, _ => False
  end.

End Blind.

(** ** Capture streams in the call log *)

(** Net number of capture streams started in a log: a call of [pcm_start]
    counts 1, a call of [pcm_close] -1. *)
Definition stream_ref (c : call) : Z :=
  match c with
  | Call_pcm_start _ _ => 1
  | Call_pcm_close _ => -1
  | _ => 0
  end.

Definition started_streams (log : list call) : Z :=
  foldr (λ c n, stream_ref c + n) 0 log.

(** The calls into the mixer. *)
Definition mixer_call (c : call) : bool :=
  match c with
  | Call_mixer_get_ctl_by_name _ _ _
  | Call_mixer_ctl_set_enum_by_string _ _ _
  | Call_mixer_ctl_set_value _ _ _ _ => true
  | _ => false
  end.

(** The number of sessions a device handle holds: 1 when its [pcm] member is
    set, 0 when it is null or the handle is null. *)
Definition session_count (device : option tas2562_amp_t) : Z :=
  match device with
  | Some tas2562 => match pcm tas2562 with Some _ => 1 | None => 0 end
  | None => 0
  end.

(** ** A scripted platform

    A platform whose answers are fixed in advance, used to run the code on
    concrete inputs. *)
Record script := {
  script_calloc : bool;
  script_ctl : string → option addr;
  script_set : Z;
  script_pcm_id : Z;
  script_pcm : option addr;
  script_ready : bool;
  script_start : Z;
}.

Definition scripted (s : script) : audio_platform unit := {|
  ext_calloc e := (script_calloc s, e);
  ext_mixer_get_ctl_by_name _ name e := (script_ctl s name, e);
  ext_mixer_ctl_set_enum_by_string _ _ e := (script_set s, e);
  ext_mixer_ctl_set_value _ _ _ e := (script_set s, e);
  ext_enable_snd_device _ _ e := e;
  ext_disable_snd_device _ _ e := e;
  ext_enable_audio_route _ _ _ e := e;
  ext_disable_audio_route _ _ _ e := e;
  ext_platform_get_pcm_device_id _ _ e := (script_pcm_id s, e);
  ext_pcm_open _ _ _ _ e := (script_pcm s, e);
  ext_pcm_is_ready _ e := (script_ready s, e);
  ext_pcm_start _ e := (script_start s, e);
  ext_pcm_close _ e := e;
|}.

(** Sample values for the header constants. *)
Definition sample_headers : hal_headers := {|
  AUDIO_MODE_NORMAL := 0;
  AUDIO_MODE_RINGTONE := 1;
  AUDIO_MODE_IN_CALL := 2;
  AUDIO_MODE_IN_COMMUNICATION := 3;
  SND_DEVICE_NONE := 0;
  SND_DEVICE_OUT_SPEAKER := 2;
  SND_DEVICE_OUT_SPEAKER_AND_ANC_HEADSET := 11;
  SND_DEVICE_OUT_SPEAKER_AND_BT_A2DP := 12;
  SND_DEVICE_OUT_SPEAKER_AND_BT_SCO := 13;
  SND_DEVICE_OUT_SPEAKER_AND_BT_SCO_WB := 14;
  SND_DEVICE_OUT_SPEAKER_AND_DISPLAY_PORT := 15;
  SND_DEVICE_OUT_SPEAKER_AND_HDMI := 16;
  SND_DEVICE_OUT_SPEAKER_AND_HEADPHONES := 17;
  SND_DEVICE_OUT_SPEAKER_AND_LINE := 18;
  SND_DEVICE_OUT_SPEAKER_REVERSE := 3;
  SND_DEVICE_OUT_VOICE_SPEAKER := 20;
  SND_DEVICE_OUT_VOICE_SPEAKER_AND_VOICE_ANC_HEADSET := 21;
  SND_DEVICE_OUT_VOICE_SPEAKER_AND_VOICE_HEADPHONES := 22;
  SND_DEVICE_OUT_VOICE_SPEAKER_2 := 23;
  SND_DEVICE_IN_CAPTURE_VI_FEEDBACK := 100;
  USECASE_AUDIO_SPKR_CALIB_TX := 40;
  PCM_CAPTURE := 1;
  PCM_IN := 268435456;
  PCM_FORMAT_S24_LE := 3;
  AMPLIFIER_HARDWARE_INTERFACE := "amplifier_hw_if";
|}.

(** A world with one audio device at address 1, mixer at address 7, sound
    card 0 and an empty usecase list. *)
Definition sample_device : audio_device :=
  {| mixer := 7%positive; snd_card := 0; usecase_list := [] |}.

Definition sample_world : world unit :=
  World ∅ {[ 1%positive := sample_device ]} [] tt.

(** A world in which the usecase list of the audio device holds one record,
    at address 3, of another usecase (id 7). *)
Definition busy_device : audio_device :=
  {| mixer := 7%positive; snd_card := 0; usecase_list := [3%positive] |}.

Definition busy_world : world unit :=
  World {[ 3%positive := {| id := 7; type := 0; in_snd_device := 0;
                            out_snd_device := 2; device_list := [] |} ]}
        {[ 1%positive := busy_device ]} [] tt.

(** An opened amplifier with no session. *)
Definition sample_amp : tas2562_amp_t :=
  {| profile := PROFILE_MUSIC; adev := None; pcm := None |}.

(** An amplifier on which a session is open on stream 5. *)
Definition sample_amp_open : tas2562_amp_t :=
  {| profile := PROFILE_VOICE; adev := Some 1%positive; pcm := Some 5%positive |}.

(** A platform on which everything succeeds, with every control present. *)
Definition script_ok : script := {|
  script_calloc := true;
  script_ctl name := Some 9%positive;
  script_set := 0;
  script_pcm_id := 35;
  script_pcm := Some 5%positive;
  script_ready := true;
  script_start := 0;
|}.

(** The same platform out of memory. *)
Definition script_no_memory : script := {|
  script_calloc := false;
  script_ctl name := Some 9%positive;
  script_set := 0;
  script_pcm_id := 35;
  script_pcm := Some 5%positive;
  script_ready := true;
  script_start := 0;
|}.

(** The same platform with no mixer control at all. *)
Definition script_no_ctl : script := {|
  script_calloc := true;
  script_ctl name := None;
  script_set := 0;
  script_pcm_id := 35;
  script_pcm := Some 5%positive;
  script_ready := true;
  script_start := 0;
|}.

(** The same platform with a capture stream that opens but is not ready. *)
Definition script_not_ready : script := {|
  script_calloc := true;
  script_ctl name := Some 9%positive;
  script_set := 0;
  script_pcm_id := 35;
  script_pcm := Some 5%positive;
  script_ready := false;
  script_start := 0;
|}.

(** The same platform with a capture stream that refuses to start. *)
Definition script_no_start : script := {|
  script_calloc := true;
  script_ctl name := Some 9%positive;
  script_set := 0;
  script_pcm_id := 35;
  script_pcm := Some 5%positive;
  script_ready := true;
  script_start := -32;
|}.

(** The same platform with a [pcm_start] that answers a positive status. *)
Definition script_start_positive : script := {|
  script_calloc := true;
  script_ctl name := Some 9%positive;
  script_set := 0;
  script_pcm_id := 35;
  script_pcm := Some 5%positive;
  script_ready := true;
  script_start := 3;
|}.

(** The world that a sample run leaves. *)
Definition world_after {A} (r : option (A * world unit)) : world unit :=
  match r with
  | Some (_, w) => w
  | None => sample_world
  end.

(** [sample_world] after an enable call whose stream is not ready. *)
Definition not_ready_world : world unit :=
  world_after (@tas2562_set_feedback unit sample_headers (scripted script_not_ready)
                 (Some sample_amp) (Some 1%positive) 2 true sample_world).

(** [busy_world] after a successful enable call, and the amplifier then. *)
Definition session_world : world unit :=
  world_after (@tas2562_set_feedback unit sample_headers (scripted script_ok)
                 (Some sample_amp) (Some 1%positive) 2 true busy_world).

Definition session_device : audio_device :=
  {| mixer := 7%positive; snd_card := 0; usecase_list := [4%positive; 3%positive] |}.

Definition sample_amp_started : tas2562_amp_t :=
  {| profile := PROFILE_MUSIC; adev := Some 1%positive; pcm := Some 5%positive |}.

(** A sequence of calls of the framework: ringtone mode, feedback on,
    feedback on again, feedback off, call mode, feedback on. *)
Definition sample_ops : list op :=
  [ Op_set_mode 1;
    Op_set_feedback (Some 1%positive) 2 true;
    Op_set_feedback (Some 1%positive) 2 true;
    Op_set_feedback (Some 1%positive) 2 false;
    Op_set_mode 2;
    Op_set_feedback (Some 1%positive) 2 true ].

Definition sample_ops_world : world unit :=
  world_after (@run_ops unit sample_headers (scripted script_ok) sample_ops
                 (Some sample_amp) sample_world).

End Tas2562.


(* ===================================================================== *)
(** * Properties of the variant resolver *)
(* ===================================================================== *)

Module LibinitFacts.
Import Libinit.

Section Resolver.
Context `{libinit_utils}.

Lemma set_variant_props_calls (v : variant_info_t) (st : init_state) :
  calls (set_variant_props v st) = calls st ++ variant_calls v.
Proof.
  unfold set_variant_props, variant_calls, set_ro_build_prop, property_override.
  cbn [calls props]. by rewrite <- !app_assoc.
Qed.

Lemma loop_condition_selects (hwc hwname : string) (v : variant_info_t) :
  (bool_decide (hwc_value v = "") || bool_decide (hwc_value v = hwc))
  && bool_decide (device v = hwname) = true ↔ selects hwc hwname v.
Proof.
  unfold selects.
  rewrite andb_true_iff, orb_true_iff, !bool_decide_eq_true. tauto.
Qed.

Lemma search_variant_loop_skip (hwc hwname : string)
    (pre rest : list variant_info_t) (st : init_state) :
  Forall (λ u, ¬ selects hwc hwname u) pre →
  search_variant_loop hwc hwname (pre ++ rest) st
  = search_variant_loop hwc hwname rest st.
Proof.
  induction 1 as [|u pre Hu _ IH]; [done|].
  cbn [app search_variant_loop].
  destruct (_ && _) eqn:Hc; [|exact IH].
  by apply loop_condition_selects in Hc.
Qed.

Lemma search_variant_loop_hit (hwc hwname : string) (v : variant_info_t)
    (rest : list variant_info_t) (st : init_state) :
  selects hwc hwname v →
  search_variant_loop hwc hwname (v :: rest) st = set_variant_props v st.
Proof.
  intros Hv. cbn [search_variant_loop].
  apply loop_condition_selects in Hv. by rewrite Hv.
Qed.

Lemma set_variant_props_store (v : variant_info_t) (st : init_state) :
  props (set_variant_props v st) = variant_store v (props st).
Proof. reflexivity. Qed.

(** When the helpers write the store as the spec says and the six property
    names are distinct, the store after the overrides of an entry holds the
    six values of the entry, and nothing else has changed. *)
Lemma variant_store_set (key : string → option bool → string)
    (v : variant_info_t) (store : gmap string string) :
  overrides_write key →
  NoDup (variant_keys key) →
  variant_props_set key v store (variant_store v store).
Proof.
  intros [Hset Hover]. unfold variant_keys.
  rewrite !NoDup_cons, !not_elem_of_cons.
  intros ((Hbd & Hbm & Hbf & Hbb & Hbr & _) & (Hdm & Hdf & Hdb & Hdr & _)
          & (Hmf & Hmb & Hmr & _) & (Hfb & Hfr & _) & (Hbr' & _) & _).
  unfold variant_store, variant_props_set. rewrite !Hset, !Hover.
  repeat split.
  - by rewrite !lookup_insert_ne, lookup_insert_eq by done.
  - by rewrite !lookup_insert_ne, lookup_insert_eq by done.
  - by rewrite !lookup_insert_ne, lookup_insert_eq by done.
  - by rewrite !lookup_insert_ne, lookup_insert_eq by done.
  - by rewrite !lookup_insert_ne, lookup_insert_eq by done.
  - by rewrite lookup_insert_eq.
  - intros k. unfold variant_keys. rewrite !not_elem_of_cons.
    intros (? & ? & ? & ? & ? & ? & _).
    by rewrite !lookup_insert_ne by done.
Qed.

(** C2. [search_variant] applies the first entry of the table, in table
    order, whose hardware code is empty or equals the one read at boot and
    whose hardware name equals the one read, and nothing else: its six
    overrides (brand, device, model, fingerprint, boot-image fingerprint,
    description) are the only helper calls added to the log, once each, and
    the property store is the store of before taken through these six
    overrides, in this order.  With helpers that write the store as the spec
    says, the store then holds the brand, device, model and fingerprint of
    that entry, and its other properties are those of before.  When no entry
    is selected the state, store included, is unchanged.  In particular, of
    a wildcard entry and a specific entry that both match, the one that
    comes first in the table is the one applied, and its properties are the
    ones set. *)
Theorem search_variant_first_match (variants : list variant_info_t)
    (st : init_state) :
  let hwc := GetProperty HWC_PROP "" st in
  let hwname := GetProperty HWNAME_PROP "" st in
  (∀ pre v post,
     variants = pre ++ v :: post →
     Forall (λ u, ¬ selects hwc hwname u) pre →
     selects hwc hwname v →
     search_variant variants st = set_variant_props v st
     ∧ calls (search_variant variants st) = calls st ++ variant_calls v
     ∧ props (search_variant variants st) = variant_store v (props st)
     ∧ ∀ key, overrides_write key → NoDup (variant_keys key) →
         variant_props_set key v (props st) (props (search_variant variants st)))
  ∧ (Forall (λ u, ¬ selects hwc hwname u) variants →
     search_variant variants st = st)
  ∧ (∀ specific wildcard,
       hwc_value wildcard = "" → hwc_value specific = hwc →
       device wildcard = hwname → device specific = hwname →
       calls (search_variant [specific; wildcard] st)
         = calls st ++ variant_calls specific
       ∧ calls (search_variant [wildcard; specific] st)
         = calls st ++ variant_calls wildcard
       ∧ props (search_variant [specific; wildcard] st)
         = variant_store specific (props st)
       ∧ props (search_variant [wildcard; specific] st)
         = variant_store wildcard (props st)
       ∧ ∀ key, overrides_write key → NoDup (variant_keys key) →
           variant_props_set key specific (props st)
             (props (search_variant [specific; wildcard] st))
           ∧ variant_props_set key wildcard (props st)
               (props (search_variant [wildcard; specific] st))).
Proof.
  intros hwc hwname. split; [|split].
  - intros pre v post -> Hpre Hv. unfold search_variant.
    fold hwc hwname.
    rewrite search_variant_loop_skip, search_variant_loop_hit by done.
    split; [done|]. split; [apply set_variant_props_calls|].
    split; [apply set_variant_props_store|].
    intros key Hkey Hdup. rewrite set_variant_props_store.
    by apply variant_store_set.
  - intros Hnone. unfold search_variant. fold hwc hwname.
    rewrite <- (app_nil_r variants).
    by rewrite search_variant_loop_skip.
  - intros specific wildcard Hw Hs Hdw Hds.
    unfold search_variant. fold hwc hwname.
    rewrite !search_variant_loop_hit by (unfold selects; auto).
    rewrite !set_variant_props_calls, !set_variant_props_store.
    do 4 (split; [done|]). intros key Hkey Hdup.
    split; by apply variant_store_set.
Qed.

(** ** Tables in two parts and missing boot properties *)

Lemma search_variant_loop_found (hwc hwname : string)
    (first second : list variant_info_t) (st : init_state) :
  Exists (selects hwc hwname) first →
  search_variant_loop hwc hwname (first ++ second) st
  = search_variant_loop hwc hwname first st.
Proof.
  induction 1 as [v first Hv|v first _ IH]; cbn [app search_variant_loop].
  - apply loop_condition_selects in Hv. by rewrite Hv.
  - by destruct (_ && _).
Qed.

(** The outcome of the loop: the state of before, or one selected entry of
    the table applied to it. *)
Lemma search_variant_loop_outcome (hwc hwname : string)
    (variants : list variant_info_t) (st : init_state) :
  search_variant_loop hwc hwname variants st = st
  ∨ ∃ v, v ∈ variants ∧ selects hwc hwname v
         ∧ search_variant_loop hwc hwname variants st = set_variant_props v st.
Proof.
  induction variants as [|u variants IH]; [by left|].
  cbn [search_variant_loop]. destruct (_ && _) eqn:Hc.
  - right. exists u. apply loop_condition_selects in Hc.
    split; [left|done].
  - destruct IH as [IH|(v & Hin & Hv & IH)]; [by left|right].
    exists v. split; [by right|done].
Qed.

(** A table in two parts behaves as its first part on every board that the
    first part describes, and as its second part on every other board: what
    follows a selected entry is never looked at. *)
Theorem search_variant_append (first second : list variant_info_t)
    (st : init_state) :
  let hwc := GetProperty HWC_PROP "" st in
  let hwname := GetProperty HWNAME_PROP "" st in
  (Exists (selects hwc hwname) first →
   search_variant (first ++ second) st = search_variant first st)
  ∧ (Forall (λ u, ¬ selects hwc hwname u) first →
     search_variant (first ++ second) st = search_variant second st).
Proof.
  intros hwc hwname. unfold search_variant. fold hwc hwname. split.
  - apply search_variant_loop_found.
  - apply search_variant_loop_skip.
Qed.

(** [search_variant] never writes a device name other than the one the board
    booted with: a "device" override that it adds to the log carries the
    value of ro.boot.hwname and addresses the product partitions. *)
Theorem search_variant_device_is_hwname (variants : list variant_info_t)
    (st : init_state) (value : string) (product : option bool) :
  Call_set_ro_build_prop "device" value product ∈ calls (search_variant variants st) →
  Call_set_ro_build_prop "device" value product ∉ calls st →
  value = GetProperty HWNAME_PROP "" st ∧ product = Some true.
Proof.
  unfold search_variant. intros Hin Hnew.
  destruct (search_variant_loop_outcome (GetProperty HWC_PROP "" st)
              (GetProperty HWNAME_PROP "" st) variants st)
    as [Heq|(v & _ & [_ Hdev] & Heq)]; rewrite Heq in Hin; [done|].
  rewrite set_variant_props_calls, elem_of_app in Hin.
  destruct Hin as [Hin|Hin]; [done|]. unfold variant_calls in Hin.
  repeat (apply elem_of_cons in Hin as [Hc|Hin]; [by simplify_eq|]).
  by apply elem_of_nil in Hin.
Qed.

(** Boot properties that are missing.  When ro.boot.hwc is unset or empty,
    the entries with a hardware code take no part: the table behaves as the
    table of its wildcard entries.  When ro.boot.hwname is unset or empty
    and every entry names a device, nothing is overridden. *)
Theorem search_variant_missing_props (variants : list variant_info_t)
    (st : init_state) :
  (props st !! HWC_PROP = None ∨ props st !! HWC_PROP = Some "" →
   search_variant variants st
   = search_variant (filter (λ v, hwc_value v = "") variants) st)
  ∧ (props st !! HWNAME_PROP = None ∨ props st !! HWNAME_PROP = Some "" →
     Forall (λ v, device v ≠ "") variants →
     search_variant variants st = st).
Proof.
  split.
  - intros Hunset.
    assert (Hwc : GetProperty HWC_PROP "" st = "").
    { unfold GetProperty. by destruct Hunset as [->| ->]. }
    unfold search_variant. rewrite Hwc.
    generalize (GetProperty HWNAME_PROP "" st). intros hwname.
    induction variants as [|u variants IH]; [done|].
    cbn [search_variant_loop].
    destruct (decide (hwc_value u = "")) as [Hu|Hu].
    + rewrite filter_cons_True by done. cbn [search_variant_loop].
      by destruct (_ && _).
    + rewrite filter_cons_False by done.
      by rewrite (bool_decide_eq_false_2 _ Hu).
  - intros Hunset Hdev.
    assert (Hname : GetProperty HWNAME_PROP "" st = "").
    { unfold GetProperty. by destruct Hunset as [->| ->]. }
    unfold search_variant. rewrite Hname.
    rewrite <- (app_nil_r variants).
    rewrite search_variant_loop_skip; [done|].
    eapply Forall_impl; [exact Hdev|]. intros v Hv [_ Hsel]. done.
Qed.

End Resolver.

(** On an Indian curtana, a table that lists the Indian entry before the
    wildcard curtana entry applies the Indian entry, and the store then
    holds its brand, device, model and fingerprint. *)
Lemma search_variant_first_match_witness :
  @search_variant sample_utils [joyeuse; curtana_india; curtana_global]
     boot_curtana_india
   = @set_variant_props sample_utils curtana_india boot_curtana_india
  ∧ calls (@search_variant sample_utils [joyeuse; curtana_india; curtana_global]
             boot_curtana_india)
    = calls boot_curtana_india ++ @variant_calls sample_utils curtana_india
  ∧ props (@search_variant sample_utils [joyeuse; curtana_india; curtana_global]
             boot_curtana_india)
    = @variant_store sample_utils curtana_india (props boot_curtana_india)
  ∧ @variant_props_set sample_utils sample_key curtana_india
      (props boot_curtana_india)
      (props (@search_variant sample_utils [joyeuse; curtana_india; curtana_global]
                boot_curtana_india)).
Proof.
  destruct (proj1 (@search_variant_first_match sample_utils
                     [joyeuse; curtana_india; curtana_global] boot_curtana_india)
              [joyeuse] curtana_india [curtana_global])
    as (Happlied & Hcalls & Hstore & Hset).
  - reflexivity.
  - repeat constructor. unfold selects. vm_compute. intros [_ [=]].
  - unfold selects. vm_compute. auto.
  - do 3 (split; [assumption|]).
    apply Hset.
    + split; reflexivity.
    + apply (bool_decide_unpack _). vm_compute. exact I.
Defined.

(** The store of the Indian curtana after the resolver has run. *)
Example search_variant_store_run :
  let store := props (@search_variant sample_utils
                        [joyeuse; curtana_india; curtana_global]
                        boot_curtana_india) in
  store !! "ro.product.brand" = Some "Redmi"
  ∧ store !! "ro.product.device" = Some "curtana"
  ∧ store !! "ro.product.model" = Some "Redmi Note 9 Pro"
  ∧ store !! "ro.build.fingerprint"
    = Some "Redmi/curtana_in/curtana:12/RKQ1/V14:user/release-keys"
  ∧ store !! "ro.boot.hwc" = Some "India".
Proof. vm_compute. by repeat split. Qed.

(** On a board that no entry describes, nothing is overridden. *)
Example search_variant_no_match :
  @search_variant sample_utils [joyeuse; curtana_global]
    {| props := {[ "ro.boot.hwname" := "excalibur" ]}; calls := [] |}
  = {| props := {[ "ro.boot.hwname" := "excalibur" ]}; calls := [] |}.
Proof. reflexivity. Qed.

(** On an Indian curtana the wildcard entry that follows the Indian entry is
    never looked at. *)
Lemma search_variant_append_witness :
  @search_variant sample_utils ([joyeuse; curtana_india] ++ [curtana_global])
    boot_curtana_india
  = @search_variant sample_utils [joyeuse; curtana_india] boot_curtana_india.
Proof.
  apply (proj1 (@search_variant_append sample_utils [joyeuse; curtana_india]
                  [curtana_global] boot_curtana_india)).
  apply Exists_cons_tl, Exists_cons_hd. unfold selects. vm_compute. auto.
Defined.

(** The device name written on an Indian curtana is curtana. *)
Lemma search_variant_device_is_hwname_witness :
  "curtana" = GetProperty HWNAME_PROP "" boot_curtana_india
  ∧ Some true = Some true.
Proof.
  apply (@search_variant_device_is_hwname sample_utils
           [joyeuse; curtana_india; curtana_global] boot_curtana_india).
  - apply (bool_decide_unpack _). vm_compute. exact I.
  - apply (bool_decide_unpack _). vm_compute. exact I.
Defined.

(** Without a hardware code the Indian entry is skipped and the wildcard
    entry is applied; without a hardware name nothing is. *)
Lemma search_variant_missing_props_witness :
  @search_variant sample_utils [curtana_india; curtana_global] boot_curtana_no_hwc
  = @search_variant sample_utils
      (filter (λ v, hwc_value v = "") [curtana_india; curtana_global])
      boot_curtana_no_hwc
  ∧ @search_variant sample_utils [curtana_india; curtana_global; joyeuse]
      {| props := {[ "ro.boot.hwc" := "India" ]}; calls := [] |}
    = {| props := {[ "ro.boot.hwc" := "India" ]}; calls := [] |}.
Proof.
  split.
  - apply (proj1 (@search_variant_missing_props sample_utils
                    [curtana_india; curtana_global] boot_curtana_no_hwc)).
    left. reflexivity.
  - apply (proj2 (@search_variant_missing_props sample_utils
                    [curtana_india; curtana_global; joyeuse]
                    {| props := {[ "ro.boot.hwc" := "India" ]}; calls := [] |})).
    + left. reflexivity.
    + repeat constructor; discriminate.
Defined.

Example search_variant_no_hwc_run :
  calls (@search_variant sample_utils [curtana_india; curtana_global]
           boot_curtana_no_hwc)
  = @variant_calls sample_utils curtana_global.
Proof. reflexivity. Qed.

End LibinitFacts.

(* ===================================================================== *)
(** * Properties of the amplifier HAL *)
(* ===================================================================== *)

Module Tas2562Facts.
Import Tas2562.

Section Amplifier.
Context {E : Type} `{hal_headers} `{audio_platform E}.

Implicit Types (w : world E) (d : audio_device) (uc : addr).

(** ** Running the monad *)

Lemma bind_run {A B} (m : M E A) (f : A → M E B) w a w' :
  m w = Some (a, w') → (m ≫= f) w = f a w'.
Proof. unfold mbind, M_bind. by intros ->. Qed.

Lemma load_adev_run (a : addr) d w :
  adevs w !! a = Some d → load_adev a w = Some (d, w).
Proof. unfold load_adev. by intros ->. Qed.

Lemma load_usecase_run uc u w :
  usecases w !! uc = Some u → load_usecase uc w = Some (u, w).
Proof. unfold load_usecase. by intros ->. Qed.

Lemma store_usecase_run uc u0 u w :
  usecases w !! uc = Some u0 →
  store_usecase uc u w
  = Some (tt, World (<[uc := u]> (usecases w)) (adevs w) (trace w) (ext w)).
Proof. unfold store_usecase. by intros ->. Qed.

Lemma free_usecase_run uc u w :
  usecases w !! uc = Some u →
  free_usecase uc w
  = Some (tt, World (delete uc (usecases w)) (adevs w) (trace w) (ext w)).
Proof. unfold free_usecase. by intros ->. Qed.

Lemma list_add_head_run (a : addr) uc d w :
  adevs w !! a = Some d →
  list_add_head a uc w
  = Some (tt, World (usecases w)
                (<[a := {| mixer := mixer d; snd_card := snd_card d;
                           usecase_list := uc :: usecase_list d |}]> (adevs w))
                (trace w ++ [Call_list_add_head a uc]) (ext w)).
Proof. unfold list_add_head. by intros ->. Qed.

Lemma list_remove_run (a : addr) uc d w :
  adevs w !! a = Some d →
  list_remove a uc w
  = Some (tt, World (usecases w)
                (<[a := {| mixer := mixer d; snd_card := snd_card d;
                           usecase_list := remove_node uc (usecase_list d) |}]>
                   (adevs w))
                (trace w ++ [Call_list_remove uc]) (ext w)).
Proof. unfold list_remove. by intros ->. Qed.

Lemma enable_audio_route_run (a : addr) uc u w :
  usecases w !! uc = Some u →
  enable_audio_route a uc w
  = Some (tt, World (usecases w) (adevs w)
                (trace w ++ [Call_enable_audio_route a uc u])
                (ext_enable_audio_route a uc u (ext w))).
Proof.
  intros Hu. unfold enable_audio_route.
  by rewrite (bind_run _ _ _ _ _ (load_usecase_run _ _ _ Hu)).
Qed.

Lemma disable_audio_route_run (a : addr) uc u w :
  usecases w !! uc = Some u →
  disable_audio_route a uc w
  = Some (tt, World (usecases w) (adevs w)
                (trace w ++ [Call_disable_audio_route a uc u])
                (ext_disable_audio_route a uc u (ext w))).
Proof.
  intros Hu. unfold disable_audio_route.
  by rewrite (bind_run _ _ _ _ _ (load_usecase_run _ _ _ Hu)).
Qed.

(** The mixer helpers change nothing but the log and the platform, and log
    one attempt. *)
Lemma tas2562_mixer_set_enum_by_string_run (m : addr) name value w :
  ∃ r log e,
    tas2562_mixer_set_enum_by_string m name value w
    = Some (r, World (usecases w) (adevs w) (trace w ++ log) e)
    ∧ set_enum_attempt m name value log.
Proof.
  unfold tas2562_mixer_set_enum_by_string, mixer_get_ctl_by_name,
    mixer_ctl_set_enum_by_string, external, mbind, M_bind, mret, M_ret.
  destruct (ext_mixer_get_ctl_by_name m name (ext w)) as [[ctl|] e]; cbn.
  - destruct (ext_mixer_ctl_set_enum_by_string ctl value e) as [ret e'].
    cbn. eexists ret, _, e'. split; [|apply (set_enum_issued _ _ _ ctl ret)].
    rewrite <- app_assoc. cbn. by destruct (ret <? 0).
  - eexists _, _, e. split; [done|constructor].
Qed.

Lemma tas2562_mixer_set_value_run (m : addr) name value w :
  ∃ r log e,
    tas2562_mixer_set_value m name value w
    = Some (r, World (usecases w) (adevs w) (trace w ++ log) e)
    ∧ set_value_attempt m name value log.
Proof.
  unfold tas2562_mixer_set_value, mixer_get_ctl_by_name,
    mixer_ctl_set_value, external, mbind, M_bind, mret, M_ret.
  destruct (ext_mixer_get_ctl_by_name m name (ext w)) as [[ctl|] e]; cbn.
  - destruct (ext_mixer_ctl_set_value ctl 0 value e) as [ret e'].
    cbn. eexists ret, _, e'. split; [|apply (set_value_issued _ _ _ ctl ret)].
    rewrite <- app_assoc. cbn. by destruct (ret <? 0).
  - eexists _, _, e. split; [done|constructor].
Qed.

(** ** Memory after rollback *)

Lemma audio_device_eta d :
  {| mixer := mixer d; snd_card := snd_card d; usecase_list := usecase_list d |} = d.
Proof. by destruct d. Qed.

Lemma remove_node_head uc (l : list addr) : remove_node uc (uc :: l) = l.
Proof. cbn. by rewrite decide_True. Qed.

Lemma fresh_usecase_unused (us : gmap addr audio_usecase) :
  us !! fresh (dom us) = None.
Proof. apply not_elem_of_dom, is_fresh. Qed.

Lemma rollback_usecases (us : gmap addr audio_usecase) u :
  delete (fresh (dom us)) (<[fresh (dom us) := u]> us) = us.
Proof. rewrite delete_insert_eq. apply delete_id, fresh_usecase_unused. Qed.

Lemma rollback_adevs (ads : gmap addr audio_device) (a : addr) d d' uc :
  ads !! a = Some d →
  <[a := {| mixer := mixer d; snd_card := snd_card d;
            usecase_list := remove_node uc (uc :: usecase_list d) |}]>
    (<[a := d']> ads) = ads.
Proof.
  intros Hd. rewrite insert_insert_eq, remove_node_head, audio_device_eta.
  by apply insert_id.
Qed.

(** Label [err_no_pcm]: the smart PA is switched off, route and routing
    device are released, the record is unlinked and freed. *)
Lemma err_no_pcm_run tas2562 (a : addr) uc rc d u w :
  adevs w !! a = Some d →
  usecases w !! uc = Some u →
  ∃ off e,
    err_no_pcm tas2562 a (mixer d) uc rc w
    = Some ((rc, tas2562),
            World (delete uc (usecases w))
                  (<[a := {| mixer := mixer d; snd_card := snd_card d;
                             usecase_list := remove_node uc (usecase_list d) |}]>
                     (adevs w))
                  (trace w ++ off
                     ++ [ Call_disable_audio_route a uc u;
                          Call_disable_snd_device a SND_DEVICE_IN_CAPTURE_VI_FEEDBACK;
                          Call_list_remove uc ])
                  e)
    ∧ set_enum_attempt (mixer d) TAS2562_SMARTPA_ENABLE "DISABLE" off.
Proof.
  intros Hd Hu. unfold err_no_pcm.
  destruct (tas2562_mixer_set_enum_by_string_run (mixer d)
              TAS2562_SMARTPA_ENABLE "DISABLE" w) as (r & off & e & Heq & Hoff).
  rewrite (bind_run _ _ _ _ _ Heq).
  erewrite bind_run; [|by apply disable_audio_route_run].
  erewrite bind_run; [|reflexivity].
  erewrite bind_run; [|by apply list_remove_run].
  erewrite bind_run; [|by eapply free_usecase_run].
  eexists off, _. split; [|done].
  cbn. by rewrite <- !app_assoc.
Qed.

Lemma is_speaker_true devices :
  devices ∈ speaker_devices → tas2562_is_speaker devices = true.
Proof. intros Hin. unfold tas2562_is_speaker. by rewrite bool_decide_eq_true_2. Qed.

Lemma is_speaker_false devices :
  devices ∉ speaker_devices → tas2562_is_speaker devices = false.
Proof. intros Hin. unfold tas2562_is_speaker. by rewrite bool_decide_eq_false_2. Qed.

Ltac reduce_world := cbv beta iota; cbn [usecases adevs trace ext fst snd].

Tactic Notation "run" "by" tactic3(tac) :=
  erewrite bind_run; [|tac]; reduce_world.

Ltac run_mixer_value :=
  match goal with
  | |- context [mbind _ (tas2562_mixer_set_value ?m ?n ?v) ?w] =>
      let r := fresh "r" in let s := fresh "s" in let e := fresh "e" in
      let Heq := fresh "Heq" in let Hs := fresh "Hs" in
      destruct (tas2562_mixer_set_value_run m n v w) as (r & s & e & Heq & Hs);
      rewrite (bind_run _ _ _ _ _ Heq); clear Heq; reduce_world
  end.

Ltac run_mixer_enum :=
  match goal with
  | |- context [mbind _ (tas2562_mixer_set_enum_by_string ?m ?n ?v) ?w] =>
      let r := fresh "r" in let s := fresh "s" in let e := fresh "e" in
      let Heq := fresh "Heq" in let Hs := fresh "Hs" in
      destruct (tas2562_mixer_set_enum_by_string_run m n v w)
        as (r & s & e & Heq & Hs);
      rewrite (bind_run _ _ _ _ _ Heq); clear Heq; reduce_world
  end.

Ltac run_rollback :=
  match goal with
  | |- context [err_no_pcm ?t ?a _ ?uc ?rc
                  (World (<[_ := ?u]> ?us) (<[_ := ?d']> ?ads) ?tr ?e0)] =>
      let off := fresh "off" in let e := fresh "e" in
      let Heq := fresh "Heq" in let Hoff := fresh "Hoff" in
      destruct (err_no_pcm_run t a uc rc d' u
                  (World (<[uc := u]> us) (<[a := d']> ads) tr e0))
        as (off & e & Heq & Hoff);
      [ cbn [adevs]; apply lookup_insert_eq
      | cbn [usecases]; apply lookup_insert_eq
      | cbn [mixer snd_card usecase_list usecases adevs trace] in Heq;
        cbn [mixer] in Hoff; rewrite Heq; clear Heq ]
  end.

Ltac rolled_back :=
  match goal with
  | Hd : adevs ?w !! ?a = Some ?d |- _ =>
      rewrite rollback_usecases, (rollback_adevs _ _ _ _ _ Hd);
      rewrite <- !app_assoc;
      do 4 eexists; eexists _, None, _;
      split; [reflexivity | repeat split; try done; solve [econstructor; eauto] ]
  end.

(** The enable path once the usecase record is allocated: registration and
    routing, three mixer attempts, then the capture part. *)
Lemma tas2562_start_feedback_run tas2562 (a : addr) d devices name w :
  adev tas2562 = Some a →
  adevs w !! a = Some d →
  devices ∈ speaker_devices →
  pcm tas2562 = None →
  profile_name (profile tas2562) = Some name →
  (ext_calloc (ext w)).1 = true →
  let uc := fresh (dom (usecases w)) in
  ∃ s3 s4 s5 cap rc session e,
    tas2562_start_feedback tas2562 devices w
    = Some ((rc, match session with
                 | Some p => set_pcm (Some p) tas2562
                 | None => tas2562
                 end),
            World (session_usecases uc session (usecases w))
                  (session_adevs a d uc session (adevs w))
                  (trace w ++ setup_calls a uc ++ s3 ++ s4 ++ s5 ++ cap) e)
    ∧ set_value_attempt (mixer d) TAS2562_SET_SPKID_LEFT 0 s3
    ∧ set_enum_attempt (mixer d) TAS2562_ALGO_PROFILE name s4
    ∧ set_enum_attempt (mixer d) TAS2562_SMARTPA_ENABLE "ENABLE" s5
    ∧ capture_run a d uc cap rc session.
Proof.
  intros Ha Hd Hsp Hpcm Hname Hok uc. subst uc.
  unfold tas2562_start_feedback. rewrite Ha.
  run by (by apply load_adev_run).
  rewrite (is_speaker_true _ Hsp), Hpcm. cbn [negb].
  run by (unfold calloc_usecase; rewrite Hok; reflexivity).
  run by (eapply store_usecase_run; cbn [usecases]; apply lookup_insert_eq).
  rewrite insert_insert_eq.
  run by (by apply list_add_head_run).
  run by reflexivity.
  run by (eapply enable_audio_route_run; cbn [usecases]; apply lookup_insert_eq).
  run_mixer_value. rewrite Hname. run_mixer_enum. run_mixer_enum.
  run by (eapply load_usecase_run; cbn [usecases]; apply lookup_insert_eq).
  run by reflexivity.
  cbn [id]. fold feedback_usecase.
  set (q := ext_platform_get_pcm_device_id _ _ _).
  destruct (Z.ltb_spec q.1 0) as [Hid|Hid].
  { run_rollback. rolled_back. }
  run by (apply load_adev_run; cbn [adevs]; apply lookup_insert_eq).
  cbn [snd_card].
  run by reflexivity.
  set (o := ext_pcm_open _ _ _ _ _).
  destruct o.1 as [p|] eqn:Hopen.
  2:{ run_rollback. rolled_back. }
  run by reflexivity.
  set (rdy := ext_pcm_is_ready _ _).
  destruct rdy.1 eqn:Hready; cbn [negb].
  2:{ run_rollback. rolled_back. }
  run by reflexivity.
  set (st := ext_pcm_start _ _).
  destruct (Z.ltb_spec st.1 0) as [Hst|Hst].
  { unfold err_pcm_start.
    run by reflexivity.
    run_rollback. rolled_back. }
  unfold mret, M_ret. rewrite <- !app_assoc.
  eexists s, s0, s1, _, _, (Some p), _.
  split; [reflexivity | repeat split; try done; solve [econstructor; eauto] ].
Qed.


(** ** The disable path *)

Lemma find_usecase_run uc_id (nodes : list addr) w :
  Forall (λ node, is_Some (usecases w !! node)) nodes →
  find_usecase uc_id nodes w = Some (first_usecase (usecases w) uc_id nodes, w).
Proof.
  induction 1 as [|node nodes [u Hu] _ IH]; [done|].
  cbn [find_usecase first_usecase].
  run by (by apply load_usecase_run).
  rewrite Hu. by destruct (bool_decide _).
Qed.

Lemma first_usecase_absent us d uc_id :
  usecase_list_live us d → usecase_absent us d uc_id →
  first_usecase us uc_id (usecase_list d) = None.
Proof.
  unfold usecase_list_live, usecase_absent.
  induction 1 as [|node nodes [u Hu] _ IH]; intros Habs; [done|].
  cbn [first_usecase]. rewrite Hu.
  rewrite bool_decide_eq_false_2 by (eapply Habs; [left|done]).
  apply IH. intros n' u' Hin. apply Habs. by right.
Qed.

Lemma first_usecase_found us uc_id (nodes : list addr) uc :
  first_usecase us uc_id nodes = Some uc →
  uc ∈ nodes ∧ ∃ u, us !! uc = Some u ∧ id u = uc_id.
Proof.
  induction nodes as [|node nodes IH]; [done|].
  cbn [first_usecase]. destruct (us !! node) as [u|] eqn:Hu; [|done].
  case_bool_decide as Hid.
  - intros [= <-]. split; [left|eauto].
  - intros [Hin Hrec]%IH. split; [by right|done].
Qed.

Lemma tas2562_stop_feedback_run tas2562 (a : addr) d devices p w :
  adev tas2562 = Some a →
  adevs w !! a = Some d →
  usecase_list_live (usecases w) d →
  devices ∈ speaker_devices →
  pcm tas2562 = Some p →
  ∃ off tail us' ads' e,
    tas2562_stop_feedback tas2562 devices w
    = Some ((0, set_pcm None tas2562),
            World us' ads'
              (trace w ++ Call_pcm_close p :: off
                 ++ Call_disable_snd_device a SND_DEVICE_IN_CAPTURE_VI_FEEDBACK
                 :: tail) e)
    ∧ set_enum_attempt (mixer d) TAS2562_SMARTPA_ENABLE "DISABLE" off
    ∧ stop_cleanup a d (usecases w) (adevs w) tail us' ads'.
Proof.
  intros Ha Hd Hlive Hsp Hpcm.
  unfold tas2562_stop_feedback. rewrite Ha.
  run by (by apply load_adev_run).
  rewrite (is_speaker_true _ Hsp), Hpcm. cbn [negb].
  run by reflexivity.
  run_mixer_enum.
  run by reflexivity.
  unfold get_usecase_from_list.
  erewrite bind_run;
    [|erewrite bind_run; [|by apply load_adev_run];
      erewrite bind_run; [|by apply find_usecase_run];
      erewrite bind_run; reflexivity].
  reduce_world.
  destruct (first_usecase _ _ _) as [uc|] eqn:Hfirst.
  - destruct (first_usecase_found _ _ _ _ Hfirst) as (_ & u & Hu & _).
    erewrite bind_run;
      [|erewrite bind_run; [|by apply disable_audio_route_run];
        erewrite bind_run; [|by apply list_remove_run];
        by eapply free_usecase_run].
    reduce_world. unfold mret, M_ret. rewrite <- !app_assoc.
    eexists s, _, _, _, _.
    split; [reflexivity | split; [done|] ]. by econstructor.
  - erewrite bind_run; [|reflexivity].
    reduce_world. unfold mret, M_ret. rewrite <- !app_assoc.
    eexists s, _, _, _, _.
    split; [reflexivity | split; [done|] ]. by econstructor.
Qed.

(** ** The entry point *)

Lemma tas2562_set_feedback_unfold tas2562 (a : addr) devices enable w :
  tas2562_set_feedback (Some tas2562) (Some a) devices enable w
  = match (if enable
           then tas2562_start_feedback (set_adev (Some a) tas2562) devices w
           else tas2562_stop_feedback (set_adev (Some a) tas2562) devices w) with
    | Some ((rc, t'), w') => Some ((rc, Some t'), w')
    | None => None
    end.
Proof.
  unfold tas2562_set_feedback, mbind, M_bind.
  destruct enable.
  - by destruct (tas2562_start_feedback _ _ _) as [[[??]?]|].
  - by destruct (tas2562_stop_feedback _ _ _) as [[[??]?]|].
Qed.

Lemma set_adev_idemp (a : option addr) tas2562 :
  adev tas2562 = a → set_adev a tas2562 = tas2562.
Proof. destruct tas2562. cbn. by intros ->. Qed.

(** C6. For a routing mask outside the set of speaker devices, and either
    value of [enable], [tas2562_set_feedback] on a device and an audio
    device that exist returns 0 and leaves the world as it was: no call is
    logged, memory is untouched, and the session handle and the profile are
    those of before.  The record of the device is the one of before with its
    audio-device pointer bound to the argument, hence the same record when
    the call passes the audio device it already points to. *)
Theorem set_feedback_non_speaker tas2562 (a : addr) d devices enable w :
  adevs w !! a = Some d →
  devices ∉ speaker_devices →
  ∃ t',
    tas2562_set_feedback (Some tas2562) (Some a) devices enable w
    = Some ((0, Some t'), w)
    ∧ t' = set_adev (Some a) tas2562
    ∧ pcm t' = pcm tas2562
    ∧ profile t' = profile tas2562
    ∧ (adev tas2562 = Some a → t' = tas2562).
Proof.
  intros Hd Hns. exists (set_adev (Some a) tas2562).
  split; [|by eauto using set_adev_idemp].
  rewrite tas2562_set_feedback_unfold.
  unfold tas2562_start_feedback, tas2562_stop_feedback.
  cbn [adev set_adev].
  rewrite !(bind_run _ _ _ _ _ (load_adev_run _ _ _ Hd)).
  rewrite (is_speaker_false _ Hns). cbn [negb]. by destruct enable.
Qed.

(** C4. With a session open, enabling feedback on a speaker device returns
    -EINVAL; the session handle and the profile are kept, no call is logged,
    and the world is unchanged.  The record of the device is the one of
    before with its audio-device pointer bound to the argument, hence the
    same record when the call passes the audio device it already points
    to, as a second enable call in succession does. *)
Theorem set_feedback_enable_twice tas2562 (a : addr) d devices p w :
  adevs w !! a = Some d →
  devices ∈ speaker_devices →
  pcm tas2562 = Some p →
  ∃ t',
    tas2562_set_feedback (Some tas2562) (Some a) devices true w
    = Some ((- EINVAL, Some t'), w)
    ∧ t' = set_adev (Some a) tas2562
    ∧ pcm t' = Some p
    ∧ profile t' = profile tas2562
    ∧ (adev tas2562 = Some a → t' = tas2562).
Proof.
  intros Hd Hsp Hpcm. exists (set_adev (Some a) tas2562).
  split; [|by eauto using set_adev_idemp].
  rewrite tas2562_set_feedback_unfold. unfold tas2562_start_feedback.
  cbn [adev set_adev pcm].
  rewrite (bind_run _ _ _ _ _ (load_adev_run _ _ _ Hd)).
  by rewrite (is_speaker_true _ Hsp), Hpcm.
Qed.

Lemma set_feedback_disable_closed tas2562 (a : addr) d devices w :
  adevs w !! a = Some d →
  devices ∈ speaker_devices →
  pcm tas2562 = None →
  tas2562_set_feedback (Some tas2562) (Some a) devices false w
  = Some ((- EINVAL, Some (set_adev (Some a) tas2562)), w).
Proof.
  intros Hd Hsp Hpcm.
  rewrite tas2562_set_feedback_unfold. unfold tas2562_stop_feedback.
  cbn [adev set_adev pcm].
  rewrite (bind_run _ _ _ _ _ (load_adev_run _ _ _ Hd)).
  by rewrite (is_speaker_true _ Hsp), Hpcm.
Qed.

(** The disable path keeps the audio device in memory. *)
Lemma stop_cleanup_keeps_adev (a : addr) d us ads tail us' ads' :
  ads !! a = Some d →
  stop_cleanup a d us ads tail us' ads' → is_Some (ads' !! a).
Proof.
  intros Hd [?|???]; [by eauto|]. rewrite lookup_insert_eq. by eauto.
Qed.

(** C5. With no session open, disabling feedback on a speaker device returns
    -EINVAL, logs no call and leaves the world unchanged; the record of the
    device is the one of before with its audio-device pointer bound to the
    argument.  Hence two disable calls in a row are safe: whatever the first
    one does, the second returns -EINVAL and changes nothing, neither the
    device record nor the world. *)
Theorem set_feedback_disable_twice tas2562 (a : addr) d devices w :
  adevs w !! a = Some d →
  devices ∈ speaker_devices →
  (pcm tas2562 = None →
   ∃ t',
     tas2562_set_feedback (Some tas2562) (Some a) devices false w
     = Some ((- EINVAL, Some t'), w)
     ∧ t' = set_adev (Some a) tas2562
     ∧ pcm t' = None
     ∧ profile t' = profile tas2562
     ∧ (adev tas2562 = Some a → t' = tas2562))
  ∧ (usecase_list_live (usecases w) d →
     ∃ rc t1 w1,
       tas2562_set_feedback (Some tas2562) (Some a) devices false w
       = Some ((rc, Some t1), w1)
       ∧ tas2562_set_feedback (Some t1) (Some a) devices false w1
         = Some ((- EINVAL, Some t1), w1)).
Proof.
  intros Hd Hsp. split.
  - intros Hpcm. exists (set_adev (Some a) tas2562).
    split; [by eapply set_feedback_disable_closed|].
    by eauto using set_adev_idemp.
  - intros Hlive. destruct (pcm tas2562) as [p|] eqn:Hpcm.
    + destruct (tas2562_stop_feedback_run (set_adev (Some a) tas2562)
                  a d devices p w)
        as (off & tail & us' & ads' & e & Hrun & _ & Hclean); try done.
      destruct (stop_cleanup_keeps_adev _ _ _ _ _ _ _ Hd Hclean) as [d' Hd'].
      eexists 0, _, _. split.
      * rewrite tas2562_set_feedback_unfold. by rewrite Hrun.
      * erewrite set_feedback_disable_closed; [|exact Hd'|done|done].
        by rewrite set_adev_idemp.
    + eexists _, _, _. split; [by eapply set_feedback_disable_closed|].
      erewrite set_feedback_disable_closed; [|done..].
      by rewrite set_adev_idemp.
Qed.

(** C9. With a session open, disabling feedback on a speaker device returns
    0 whether or not a feedback usecase record is on the usecase list: the
    stream is closed, the session handle is cleared, the smart PA is
    switched off and the routing device is disabled in every case.  When no
    record with the feedback usecase id is on the list, the lookup returns
    NULL and nothing more is done: no route is reverted, and the list and
    the records are left as they are. *)
Theorem set_feedback_disable_lenient tas2562 (a : addr) d devices p w :
  adevs w !! a = Some d →
  usecase_list_live (usecases w) d →
  devices ∈ speaker_devices →
  pcm tas2562 = Some p →
  ∃ t' w' off tail,
    tas2562_set_feedback (Some tas2562) (Some a) devices false w
    = Some ((0, Some t'), w')
    ∧ pcm t' = None
    ∧ trace w'
      = trace w ++ Call_pcm_close p :: off
          ++ Call_disable_snd_device a SND_DEVICE_IN_CAPTURE_VI_FEEDBACK :: tail
    ∧ set_enum_attempt (mixer d) TAS2562_SMARTPA_ENABLE "DISABLE" off
    ∧ (usecase_absent (usecases w) d USECASE_AUDIO_SPKR_CALIB_TX →
       tail = [Call_get_usecase_from_list a USECASE_AUDIO_SPKR_CALIB_TX None]
       ∧ usecases w' = usecases w ∧ adevs w' = adevs w).
Proof.
  intros Hd Hlive Hsp Hpcm.
  destruct (tas2562_stop_feedback_run (set_adev (Some a) tas2562)
              a d devices p w)
    as (off & tail & us' & ads' & e & Hrun & Hoff & Hclean); try done.
  eexists _, _, off, tail. split; [|split; [|split; [|split] ] ].
  - rewrite tas2562_set_feedback_unfold. by rewrite Hrun.
  - done.
  - done.
  - done.
  - intros Habs. apply (first_usecase_absent _ _ _ Hlive) in Habs.
    destruct Hclean as [?|uc u Hfound ?]; [done|]. congruence.
Qed.

(** ** Profiles *)

Lemma named_profile (p : tas2562_profile_t) :
  p ≠ PROFILE_NONE → is_Some (profile_name p).
Proof. destruct p; [done|..]; intros _; by eexists. Qed.

Lemma unnamed_profile (p : tas2562_profile_t) :
  profile_name p = None → p = PROFILE_NONE.
Proof. by destruct p. Qed.

Lemma profile_valid_named tas2562 :
  profile_valid (Some tas2562) ↔ profile tas2562 ≠ PROFILE_NONE.
Proof.
  unfold profile_valid. rewrite !elem_of_cons, elem_of_nil.
  destruct (profile tas2562); split; try done; auto.
  intros [?|[?|[?|[]]]]; done.
Qed.

Lemma switched_profile_named (mode : Z) (p : tas2562_profile_t) :
  p ≠ PROFILE_NONE → switched_profile mode p ≠ PROFILE_NONE.
Proof. intros Hp. unfold switched_profile. by repeat case_bool_decide. Qed.

(** [tas2562_set_mode] on a device that exists: the switch, then the read of
    the name of the profile it left. *)
Lemma tas2562_set_mode_unfold tas2562 (mode : Z) :
  tas2562_set_mode (Some tas2562) mode
  = match profile_name (switched_profile mode (profile tas2562)) with
    | Some _ =>
        Some (0, Some (set_profile (switched_profile mode (profile tas2562))
                         tas2562))
    | None => None
    end.
Proof.
  destruct tas2562 as [pr ad pc].
  unfold tas2562_set_mode, switched_profile.
  by repeat case_bool_decide.
Qed.

Lemma tas2562_set_mode_run tas2562 (mode : Z) :
  profile tas2562 ≠ PROFILE_NONE →
  tas2562_set_mode (Some tas2562) mode
  = Some (0, Some (set_profile (switched_profile mode (profile tas2562)) tas2562)).
Proof.
  intros Hp. rewrite tas2562_set_mode_unfold.
  by destruct (named_profile _ (switched_profile_named mode _ Hp)) as [name ->].
Qed.

(** C7. On a device that exists and whose profile is one of the three named
    ones (as it always is, C8), [tas2562_set_mode] returns 0 for every mode,
    stores MUSIC for NORMAL, RING for RINGTONE, VOICE for IN_CALL and for
    IN_COMMUNICATION, and keeps the stored profile for every other mode; the
    other members of the device are not touched.  The four mode constants
    are distinct, as case labels are. *)
Theorem set_mode_mapping tas2562 (mode : Z) :
  NoDup profile_modes →
  profile tas2562 ≠ PROFILE_NONE →
  ∃ t',
    tas2562_set_mode (Some tas2562) mode = Some (0, Some t')
    ∧ adev t' = adev tas2562
    ∧ pcm t' = pcm tas2562
    ∧ (mode = AUDIO_MODE_NORMAL → profile t' = PROFILE_MUSIC)
    ∧ (mode = AUDIO_MODE_RINGTONE → profile t' = PROFILE_RING)
    ∧ (mode = AUDIO_MODE_IN_CALL ∨ mode = AUDIO_MODE_IN_COMMUNICATION →
       profile t' = PROFILE_VOICE)
    ∧ (mode ∉ profile_modes → profile t' = profile tas2562).
Proof.
  unfold profile_modes. rewrite !NoDup_cons, !not_elem_of_cons.
  intros ((Hnr & Hnc & Hnm & _) & (Hrc & Hrm & _) & _) Hp.
  eexists. split; [by apply tas2562_set_mode_run|].
  cbn [set_profile adev pcm profile]. do 2 (split; [done|]).
  rewrite !not_elem_of_cons. unfold switched_profile.
  repeat case_bool_decide; cbn [orb];
    repeat split; try done; try congruence; try tauto.
  all: intros [?|?]; congruence.
Qed.

(** The read of the profile name is what can go wrong: with no named
    profile in the record and a mode that is no case label, the call is
    undefined; a mode that is a case label stores a named profile first. *)
Lemma set_mode_unnamed_profile tas2562 (mode : Z) :
  profile tas2562 = PROFILE_NONE →
  (mode ∉ profile_modes → tas2562_set_mode (Some tas2562) mode = None)
  ∧ (mode ∈ profile_modes → is_Some (tas2562_set_mode (Some tas2562) mode)).
Proof.
  intros Hp. rewrite tas2562_set_mode_unfold, Hp. unfold profile_modes.
  rewrite !not_elem_of_cons, !elem_of_cons, elem_of_nil. unfold switched_profile.
  split.
  - intros (Hn & Hr & Hc & Hm & _).
    by rewrite !bool_decide_eq_false_2 by done.
  - intros Hin. repeat case_bool_decide; cbn [orb]; try by eexists.
    destruct Hin as [?|[?|[?|[?|[]]]]]; congruence.
Qed.

Lemma set_mode_profile_valid device (mode : Z) :
  profile_valid device →
  ∃ r, tas2562_set_mode device mode = Some r ∧ profile_valid r.2.
Proof.
  destruct device as [t|]; [|by eexists].
  intros Hp%profile_valid_named. eexists.
  split; [by apply tas2562_set_mode_run|].
  apply profile_valid_named. cbn [snd set_profile profile].
  by apply switched_profile_named.
Qed.

Lemma bind_inv {A B} (m : M E A) (f : A → M E B) w r :
  (m ≫= f) w = Some r → ∃ x w1, m w = Some (x, w1) ∧ f x w1 = Some r.
Proof.
  unfold mbind, M_bind. destruct (m w) as [[x w1]|]; [|done]. by eauto.
Qed.

Ltac invert_run :=
  repeat match goal with
    | H : (_ ≫= _) _ = Some _ |- _ =>
        apply bind_inv in H; destruct H as (? & ? & _ & H)
    | H : mret _ _ = Some _ |- _ =>
        unfold mret, M_ret in H; injection H as [= <- <-] || injection H as [= <-]
    | H : undefined _ = Some _ |- _ => discriminate H
    | H : (if ?b then _ else _) _ = Some _ |- _ => destruct b
    | H : match ?x with _ => _ end _ = Some _ |- _ => destruct x
    end.

Lemma err_no_pcm_device tas2562 (a m uc : addr) rc w r w' :
  err_no_pcm tas2562 a m uc rc w = Some (r, w') → r.2 = tas2562.
Proof. unfold err_no_pcm. intros Hrun. invert_run. by simplify_eq. Qed.

Lemma tas2562_start_feedback_profile tas2562 devices w r w' :
  tas2562_start_feedback tas2562 devices w = Some (r, w') →
  profile r.2 = profile tas2562.
Proof.
  unfold tas2562_start_feedback, err_pcm_start. intros Hrun.
  invert_run; simplify_eq; try done;
    by match goal with
       | H : err_no_pcm _ _ _ _ _ _ = Some _ |- _ =>
           apply err_no_pcm_device in H; rewrite H
       end.
Qed.

Lemma tas2562_stop_feedback_profile tas2562 devices w r w' :
  tas2562_stop_feedback tas2562 devices w = Some (r, w') →
  profile r.2 = profile tas2562.
Proof.
  unfold tas2562_stop_feedback. intros Hrun.
  invert_run; by simplify_eq.
Qed.

Lemma set_feedback_profile_valid device (adev' : option addr) devices enable
    w r w' :
  profile_valid device →
  tas2562_set_feedback device adev' devices enable w = Some (r, w') →
  profile_valid r.2.
Proof.
  intros Hv. destruct adev' as [a|], device as [t|];
    try (intros [= <- <-]; done).
  rewrite tas2562_set_feedback_unfold.
  destruct enable.
  - destruct (tas2562_start_feedback _ _ _) as [[[rc t'] w1]|] eqn:Hrun; [|done].
    intros [= <- <-]. apply tas2562_start_feedback_profile in Hrun.
    cbn in *. by rewrite Hrun.
  - destruct (tas2562_stop_feedback _ _ _) as [[[rc t'] w1]|] eqn:Hrun; [|done].
    intros [= <- <-]. apply tas2562_stop_feedback_profile in Hrun.
    cbn in *. by rewrite Hrun.
Qed.

Lemma module_open_profile name w r w' :
  tas2562_module_open name w = Some (r, w') →
  profile_valid r.2 ∧ (r.1 = 0 → ∃ t, r.2 = Some t ∧ profile t = PROFILE_MUSIC).
Proof.
  unfold tas2562_module_open.
  destruct (negb (bool_decide _)); [by intros [= <- <-]|].
  destruct (negb _); intros [= <- <-]; cbn; [done|].
  split; [set_solver|by eauto].
Qed.

Lemma run_ops_profile_valid ops device w device' w' :
  profile_valid device →
  run_ops ops device w = Some (device', w') →
  profile_valid device'.
Proof.
  revert device w. induction ops as [|o ops IH]; intros device w Hv.
  { by intros [= <- <-]. }
  cbn [run_ops]. intros (dev1 & w1 & Hop & Hrest)%bind_inv.
  eapply IH; [|exact Hrest].
  destruct o as [mode|adev' devices enable]; cbn [run_op] in Hop.
  - destruct (set_mode_profile_valid device mode Hv) as (r & Hr & Hv').
    rewrite Hr in Hop. by injection Hop as [= <- <-].
  - apply bind_inv in Hop as (r & w2 & Hrun & [= <- <-]).
    by eapply set_feedback_profile_valid.
Qed.

(** C8. The stored profile is always MUSIC, RING or VOICE.  Opening the
    module with the amplifier interface name, when memory is available,
    yields a device whose profile is MUSIC, and whenever the open reports
    success the profile is MUSIC; [tas2562_set_mode] (any mode) is defined
    on a valid profile and keeps it valid, and [tas2562_set_feedback] (any
    arguments) keeps a valid profile valid; so
    after any sequence of calls on an opened device the profile is valid. *)
Theorem profile_always_valid :
  (∀ w, (ext_calloc (ext w)).1 = true →
     ∃ t w', tas2562_module_open AMPLIFIER_HARDWARE_INTERFACE w
             = Some ((0, Some t), w')
             ∧ profile t = PROFILE_MUSIC)
  ∧ (∀ name w rc device w',
       tas2562_module_open name w = Some ((rc, device), w') →
       rc = 0 → ∃ t, device = Some t ∧ profile t = PROFILE_MUSIC)
  ∧ (∀ device mode,
       profile_valid device →
       ∃ r, tas2562_set_mode device mode = Some r ∧ profile_valid r.2)
  ∧ (∀ device adev' devices enable w rc device' w',
       profile_valid device →
       tas2562_set_feedback device adev' devices enable w
         = Some ((rc, device'), w') →
       profile_valid device')
  ∧ (∀ name ops w rc device w1 device' w2,
       tas2562_module_open name w = Some ((rc, device), w1) →
       run_ops ops device w1 = Some (device', w2) →
       profile_valid device').
Proof.
  split; [|split; [|split; [|split] ] ].
  - intros w Hok. unfold tas2562_module_open.
    rewrite bool_decide_eq_true_2 by done. rewrite Hok. cbn. by eauto.
  - intros name w rc device w' Hopen.
    by apply module_open_profile in Hopen as [_ ?].
  - apply set_mode_profile_valid.
  - intros device adev' devices enable w rc device' w' Hv Hrun.
    by apply (set_feedback_profile_valid _ _ _ _ _ _ _ Hv Hrun).
  - intros name ops w rc device w1 device' w2 Hopen Hrun.
    apply module_open_profile in Hopen as [Hv _].
    by eapply run_ops_profile_valid.
Qed.

(** ** The enable path: rollback *)

Lemma profile_name_valid p :
  p ≠ PROFILE_NONE →
  ∃ name, profile_name p = Some name
          ∧ name = match p with
                   | PROFILE_RING => "RING"
                   | PROFILE_VOICE => "VOICE"
                   | _ => "MUSIC"
                   end.
Proof. destruct p; [done|..]; intros _; by eexists. Qed.

Lemma tas2562_start_feedback_no_memory tas2562 (a : addr) d devices w :
  adev tas2562 = Some a →
  adevs w !! a = Some d →
  devices ∈ speaker_devices →
  pcm tas2562 = None →
  (ext_calloc (ext w)).1 = false →
  tas2562_start_feedback tas2562 devices w
  = Some ((- ENOMEM, tas2562),
          World (usecases w) (adevs w) (trace w) (ext_calloc (ext w)).2).
Proof.
  intros Ha Hd Hsp Hpcm Hok. unfold tas2562_start_feedback. rewrite Ha.
  run by (by apply load_adev_run).
  rewrite (is_speaker_true _ Hsp), Hpcm. cbn [negb].
  run by (unfold calloc_usecase; rewrite Hok; reflexivity).
  done.
Qed.

Lemma snd_device_refs_app (a : addr) s (l1 l2 : list call) :
  snd_device_refs a s (l1 ++ l2) = snd_device_refs a s l1 + snd_device_refs a s l2.
Proof.
  unfold snd_device_refs.
  induction l1 as [|c l1 IH]; cbn [app foldr]; [done|]. rewrite IH. lia.
Qed.

Lemma audio_route_refs_app (a uc : addr) (l1 l2 : list call) :
  audio_route_refs a uc (l1 ++ l2)
  = audio_route_refs a uc l1 + audio_route_refs a uc l2.
Proof.
  unfold audio_route_refs.
  induction l1 as [|c l1 IH]; cbn [app foldr]; [done|]. rewrite IH. lia.
Qed.

(** A mixer attempt is neither a routing call nor a capture failure. *)
Lemma set_enum_attempt_inert (m : addr) name value log :
  set_enum_attempt m name value log →
  (∀ a s, snd_device_refs a s log = 0)
  ∧ (∀ a uc, audio_route_refs a uc log = 0)
  ∧ (∀ c, c ∈ log → capture_error c = None).
Proof.
  intros [|ctl ret]; (split; [done|split; [done|] ]);
    intros c Hin; repeat (apply elem_of_cons in Hin as [->|Hin]); try done;
    by apply elem_of_nil in Hin.
Qed.

Lemma set_value_attempt_inert (m : addr) name value log :
  set_value_attempt m name value log →
  (∀ a s, snd_device_refs a s log = 0)
  ∧ (∀ a uc, audio_route_refs a uc log = 0)
  ∧ (∀ c, c ∈ log → capture_error c = None).
Proof.
  intros [|ctl ret]; (split; [done|split; [done|] ]);
    intros c Hin; repeat (apply elem_of_cons in Hin as [->|Hin]); try done;
    by apply elem_of_nil in Hin.
Qed.

(** A capture part without a session ends with the rollback, and its only
    capture failure is the one whose status is returned. *)
Lemma capture_run_failure (a : addr) d uc cap rc session c err :
  capture_run a d uc cap rc session →
  c ∈ cap → capture_error c = Some err →
  rc = err ∧ rc < 0 ∧ session = None
  ∧ ∃ before off,
      cap = before ++ rollback_calls a uc off
      ∧ set_enum_attempt (mixer d) TAS2562_SMARTPA_ENABLE "DISABLE" off.
Proof.
  intros Hcap Hin Herr.
  assert (Hroll : ∀ off,
    set_enum_attempt (mixer d) TAS2562_SMARTPA_ENABLE "DISABLE" off →
    c ∈ rollback_calls a uc off → False).
  { intros off Hoff. unfold rollback_calls.
    rewrite elem_of_app, !elem_of_cons, elem_of_nil.
    destruct (set_enum_attempt_inert _ _ _ _ Hoff) as (_ & _ & Hnone).
    intros [Hc|[->|[->|[->|[]]]]]; [|done..].
    apply Hnone in Hc. congruence. }
  destruct Hcap as [pcm_id off Hid Hoff|pcm_id off Hid Hoff
                   |pcm_id p off Hid Hoff|pcm_id p rc off Hid Hrc Hoff
                   |pcm_id p rc Hid Hrc];
    try specialize (Hroll _ Hoff);
    repeat (apply elem_of_cons in Hin as [->|Hin]);
    try (exfalso; by apply Hroll);
    try (apply elem_of_nil in Hin; done);
    cbn in Herr;
    repeat match type of Herr with
      | context [?x <? 0] => destruct (Z.ltb_spec x 0); try lia
      end;
    try discriminate Herr; injection Herr as [= <-];
    (split; [done|split; [unfold ENODEV, EIO; lia|split; [done|] ] ]).
  - by exists [Call_platform_get_pcm_device_id
                 USECASE_AUDIO_SPKR_CALIB_TX PCM_CAPTURE pcm_id], off.
  - by eexists [_; _], off.
  - by eexists [_; _; _], off.
  - by eexists [_; _; _; _; _], off.
Qed.

Lemma capture_run_balanced (a : addr) d uc cap rc :
  capture_run a d uc cap rc None →
  (∀ s, snd_device_refs a s (setup_calls a uc ++ cap) = 0)
  ∧ (∀ uc', audio_route_refs a uc' (setup_calls a uc ++ cap) = 0).
Proof.
  inversion 1; subst;
    match goal with
    | H : set_enum_attempt _ _ _ _ |- _ =>
        apply set_enum_attempt_inert in H as (Hs & Hr & _)
    end;
    (split; intros x;
     rewrite ?snd_device_refs_app, ?audio_route_refs_app;
     unfold rollback_calls;
     repeat match goal with
       | |- context [snd_device_refs ?a ?s (?c :: ?l)] =>
           change (snd_device_refs a s (c :: l))
             with (snd_device_ref a s c + snd_device_refs a s l)
       | |- context [audio_route_refs ?a ?u (?c :: ?l)] =>
           change (audio_route_refs a u (c :: l))
             with (audio_route_ref a u c + audio_route_refs a u l)
       end;
     rewrite ?snd_device_refs_app, ?audio_route_refs_app, ?Hs, ?Hr;
     cbn; destruct (bool_decide _); lia).
Qed.

(** Read off the call log, for every platform: when the log of an enable
    call on a speaker device holds a failure of the capture part (no PCM
    device id, or a capture stream that is not opened, not ready or not
    started), the status returned is that of the failure, the last calls of
    the log are the attempt to set the smart-PA control to "DISABLE", the
    revert of the audio route, the disabling of the feedback routing device
    and the removal of the record from the usecase list, the record is
    freed, the session handle is null, and every enable of a routing device
    and every applied route is matched by its inverse. *)
Lemma capture_failure_in_log tas2562 (a : addr) d devices w :
  adevs w !! a = Some d →
  devices ∈ speaker_devices →
  profile tas2562 ≠ PROFILE_NONE →
  ∃ rc t' w' log,
    tas2562_set_feedback (Some tas2562) (Some a) devices true w
    = Some ((rc, Some t'), w')
    ∧ trace w' = trace w ++ log
    ∧ ∀ c err,
        c ∈ log → capture_error c = Some err →
        rc = err ∧ rc < 0
        ∧ pcm t' = None
        ∧ usecases w' = usecases w
        ∧ adevs w' = adevs w
        ∧ (∃ uc before off,
             usecases w !! uc = None
             ∧ log = before ++ rollback_calls a uc off
             ∧ set_enum_attempt (mixer d) TAS2562_SMARTPA_ENABLE "DISABLE" off)
        ∧ (∀ s, snd_device_refs a s log = 0)
        ∧ (∀ uc, audio_route_refs a uc log = 0).
Proof.
  intros Hd Hsp (name & Hname & _)%profile_name_valid.
  rewrite tas2562_set_feedback_unfold.
  destruct (pcm tas2562) as [p|] eqn:Hpcm.
  { unfold tas2562_start_feedback. cbn [adev set_adev pcm].
    rewrite (bind_run _ _ _ _ _ (load_adev_run _ _ _ Hd)).
    rewrite (is_speaker_true _ Hsp), Hpcm. cbn [negb].
    eexists _, _, _, []. split; [reflexivity|].
    split; [by rewrite app_nil_r|]. by intros c err ?%elem_of_nil. }
  destruct (ext_calloc (ext w)).1 eqn:Hok.
  2:{ rewrite (tas2562_start_feedback_no_memory _ a d) by done.
      eexists _, _, _, []. split; [reflexivity|].
      split; [by rewrite app_nil_r|]. by intros c err ?%elem_of_nil. }
  destruct (tas2562_start_feedback_run (set_adev (Some a) tas2562)
              a d devices name w)
    as (s3 & s4 & s5 & cap & rc & session & e & Hrun & H3 & H4 & H5 & Hcap);
    try done.
  rewrite Hrun. eexists _, _, _, _. split; [reflexivity|].
  split; [reflexivity|]. intros c err Hin Herr.
  destruct (set_value_attempt_inert _ _ _ _ H3) as (Hs3 & Hr3 & Hn3).
  destruct (set_enum_attempt_inert _ _ _ _ H4) as (Hs4 & Hr4 & Hn4).
  destruct (set_enum_attempt_inert _ _ _ _ H5) as (Hs5 & Hr5 & Hn5).
  assert (Hc : c ∈ cap).
  { unfold setup_calls in Hin.
    rewrite !elem_of_app, !elem_of_cons, elem_of_nil in Hin.
    destruct Hin as [[->|[->|[->|[]]]]|[Hc|[Hc|[Hc|Hc]]]]; try done;
      [apply Hn3 in Hc|apply Hn4 in Hc|apply Hn5 in Hc]; congruence. }
  destruct (capture_run_failure _ _ _ _ _ _ _ _ Hcap Hc Herr)
    as (-> & Hneg & -> & before & off & -> & Hoff).
  cbn [session_usecases session_adevs usecases adevs].
  repeat split; try done.
  - exists (fresh (dom (usecases w))),
      (setup_calls a (fresh (dom (usecases w))) ++ s3 ++ s4 ++ s5 ++ before), off.
    split; [apply fresh_usecase_unused|]. split; [|done].
    by rewrite <- !app_assoc.
  - intros s. destruct (capture_run_balanced _ _ _ _ _ Hcap) as [Hs _].
    specialize (Hs s). rewrite !snd_device_refs_app in Hs.
    rewrite !snd_device_refs_app, Hs3, Hs4, Hs5. lia.
  - intros uc. destruct (capture_run_balanced _ _ _ _ _ Hcap) as [_ Hr].
    specialize (Hr uc). rewrite !audio_route_refs_app in Hr.
    rewrite !audio_route_refs_app, Hr3, Hr4, Hr5. lia.
Qed.

(** ** The enable path: order of the steps *)

(** When memory, the PCM device id and the capture stream are available,
    the enable path opens the session, whatever the mixer answers. *)
Lemma tas2562_start_feedback_succeeds tas2562 (a : addr) d devices name w :
  adev tas2562 = Some a →
  adevs w !! a = Some d →
  devices ∈ speaker_devices →
  pcm tas2562 = None →
  profile_name (profile tas2562) = Some name →
  (ext_calloc (ext w)).1 = true →
  (∀ uc_id device_type e,
     0 ≤ (ext_platform_get_pcm_device_id uc_id device_type e).1) →
  (∀ card device flags config e,
     is_Some (ext_pcm_open card device flags config e).1) →
  (∀ p e, (ext_pcm_is_ready p e).1 = true) →
  (∀ p e, 0 ≤ (ext_pcm_start p e).1) →
  ∃ p w',
    tas2562_start_feedback tas2562 devices w
    = Some ((0, set_pcm (Some p) tas2562), w').
Proof.
  intros Ha Hd Hsp Hpcm Hname Hok Hid Hopen Hready Hstart.
  unfold tas2562_start_feedback. rewrite Ha.
  run by (by apply load_adev_run).
  rewrite (is_speaker_true _ Hsp), Hpcm. cbn [negb].
  run by (unfold calloc_usecase; rewrite Hok; reflexivity).
  run by (eapply store_usecase_run; cbn [usecases]; apply lookup_insert_eq).
  run by (by apply list_add_head_run).
  run by reflexivity.
  run by (eapply enable_audio_route_run; cbn [usecases];
          rewrite insert_insert_eq; apply lookup_insert_eq).
  run_mixer_value. rewrite Hname. run_mixer_enum. run_mixer_enum.
  run by (eapply load_usecase_run; cbn [usecases];
          rewrite insert_insert_eq; apply lookup_insert_eq).
  run by reflexivity.
  rewrite (proj2 (Z.ltb_ge _ _) (Hid _ _ _)).
  run by (apply load_adev_run; cbn [adevs]; apply lookup_insert_eq).
  run by reflexivity.
  match goal with
  | |- context [ext_pcm_open ?c ?dv ?f ?cfg ?e0] =>
      destruct (Hopen c dv f cfg e0) as [p Hp]; rewrite Hp
  end.
  run by reflexivity.
  rewrite Hready. cbn [negb].
  run by reflexivity.
  rewrite (proj2 (Z.ltb_ge _ _) (Hstart _ _)).
  by eexists p, _.
Qed.

(** C3, as amended.  On an enable call for a speaker device with no session
    open, once the usecase record is allocated, [tas2562_set_feedback]
    performs in this order: registration of the feedback capture record at
    the head of the usecase list; enabling of the feedback routing device
    and of the route of the record; the three mixer attempts (speaker id 0
    on the speaker-id control, the name of the current profile on the
    profile control, "ENABLE" on the smart-PA control); the request for the
    capture PCM device id, with status -ENODEV when it is negative;
    opening, readiness check and start of a capture stream on that id with
    the fixed configuration (2 channels, 48000 Hz, S24_LE, periods of 256
    frames, 4 periods, avail_min 40).  When all succeed the status is 0 and
    the stream is the stored session.  When the record cannot be allocated
    the call returns -ENOMEM and performs none of the steps. *)
Theorem enable_steps_in_order tas2562 (a : addr) d devices w :
  adevs w !! a = Some d →
  devices ∈ speaker_devices →
  pcm tas2562 = None →
  profile tas2562 ≠ PROFILE_NONE →
  ((ext_calloc (ext w)).1 = true →
   ∃ rc t' w',
     tas2562_set_feedback (Some tas2562) (Some a) devices true w
     = Some ((rc, Some t'), w')
     ∧ enable_steps tas2562 a d w rc t' w')
  ∧ ((ext_calloc (ext w)).1 = false →
     ∃ t' w',
       tas2562_set_feedback (Some tas2562) (Some a) devices true w
       = Some ((- ENOMEM, Some t'), w')
       ∧ pcm t' = None
       ∧ trace w' = trace w
       ∧ usecases w' = usecases w
       ∧ adevs w' = adevs w)
  ∧ tas2562_pcm_config
    = {| channels := 2; rate := 48000; period_size := 256; period_count := 4;
         format := PCM_FORMAT_S24_LE; start_threshold := 0;
         stop_threshold := INT_MAX; avail_min := 40 |}.
Proof.
  intros Hd Hsp Hpcm (name & Hname & _)%profile_name_valid.
  split; [|split; [|done] ].
  - intros Hok.
    destruct (tas2562_start_feedback_run (set_adev (Some a) tas2562)
                a d devices name w)
      as (s3 & s4 & s5 & cap & rc & session & e & Hrun & H3 & H4 & H5 & Hcap);
      try done.
    rewrite tas2562_set_feedback_unfold, Hrun.
    eexists _, _, _. split; [reflexivity|].
    exists (fresh (dom (usecases w))), name, s3, s4, s5, cap, session.
    split; [apply fresh_usecase_unused|].
    do 6 (split; [done|]).
    split; [by destruct session|].
    intros [p ->]. cbn [session_usecases session_adevs usecases adevs].
    split; [apply lookup_insert_eq|].
    eexists. split; [apply lookup_insert_eq|done].
  - intros Hok.
    rewrite tas2562_set_feedback_unfold.
    rewrite (tas2562_start_feedback_no_memory _ a d) by done.
    by eexists _, _.
Qed.

(** ** Every run of the two paths *)

Lemma find_usecase_inv uc_id (nodes : list addr) w r w' :
  find_usecase uc_id nodes w = Some (r, w') →
  w' = w ∧ r = first_usecase (usecases w) uc_id nodes
  ∧ ∀ w0 : world E, usecases w0 = usecases w →
      find_usecase uc_id nodes w0 = Some (r, w0).
Proof.
  induction nodes as [|node nodes IH]; cbn [find_usecase first_usecase].
  { by intros [= <- <-]. }
  unfold mbind, M_bind, load_usecase.
  destruct (usecases w !! node) as [u|] eqn:Hu; [|done].
  case_bool_decide as Hid.
  - intros [= <- <-]. do 2 (split; [done|]). intros w0 Hw0.
    cbn [find_usecase]. unfold mbind, M_bind, load_usecase.
    by rewrite Hw0, Hu, bool_decide_eq_true_2.
  - intros (-> & -> & Hrest)%IH. do 2 (split; [done|]). intros w0 Hw0.
    cbn [find_usecase]. unfold mbind, M_bind, load_usecase.
    rewrite Hw0, Hu, bool_decide_eq_false_2 by done. by apply Hrest.
Qed.

Lemma find_usecase_lost uc_id (nodes : list addr) w :
  find_usecase uc_id nodes w = None →
  ∀ w0 : world E, usecases w0 = usecases w → find_usecase uc_id nodes w0 = None.
Proof.
  induction nodes as [|node nodes IH]; cbn [find_usecase]; [done|].
  unfold mbind, M_bind, load_usecase.
  destruct (usecases w !! node) as [u|] eqn:Hu.
  - case_bool_decide as Hid; [done|]. intros Hrest w0 Hw0.
    cbn [find_usecase]. unfold mbind, M_bind, load_usecase.
    rewrite Hw0, Hu, bool_decide_eq_false_2 by done. by apply IH.
  - intros _ w0 Hw0. cbn [find_usecase]. unfold mbind, M_bind, load_usecase.
    by rewrite Hw0, Hu.
Qed.

Lemma tas2562_start_feedback_dangling tas2562 devices w :
  (∀ a : addr, adev tas2562 = Some a → adevs w !! a = None) →
  tas2562_start_feedback tas2562 devices w = None.
Proof.
  intros Hd. unfold tas2562_start_feedback.
  destruct (adev tas2562) as [a|]; [|done].
  unfold mbind, M_bind, load_adev. by rewrite (Hd a).
Qed.

Lemma tas2562_stop_feedback_dangling tas2562 devices w :
  (∀ a : addr, adev tas2562 = Some a → adevs w !! a = None) →
  tas2562_stop_feedback tas2562 devices w = None.
Proof.
  intros Hd. unfold tas2562_stop_feedback.
  destruct (adev tas2562) as [a|]; [|done].
  unfold mbind, M_bind, load_adev. by rewrite (Hd a).
Qed.

Lemma tas2562_start_feedback_other tas2562 (a : addr) d devices w :
  adev tas2562 = Some a →
  adevs w !! a = Some d →
  devices ∉ speaker_devices →
  tas2562_start_feedback tas2562 devices w = Some ((0, tas2562), w).
Proof.
  intros Ha Hd Hns. unfold tas2562_start_feedback. rewrite Ha.
  run by (by apply load_adev_run).
  by rewrite (is_speaker_false _ Hns).
Qed.

Lemma tas2562_stop_feedback_other tas2562 (a : addr) d devices w :
  adev tas2562 = Some a →
  adevs w !! a = Some d →
  devices ∉ speaker_devices →
  tas2562_stop_feedback tas2562 devices w = Some ((0, tas2562), w).
Proof.
  intros Ha Hd Hns. unfold tas2562_stop_feedback. rewrite Ha.
  run by (by apply load_adev_run).
  by rewrite (is_speaker_false _ Hns).
Qed.

Lemma tas2562_start_feedback_busy tas2562 (a : addr) d devices p w :
  adev tas2562 = Some a →
  adevs w !! a = Some d →
  devices ∈ speaker_devices →
  pcm tas2562 = Some p →
  tas2562_start_feedback tas2562 devices w = Some ((- EINVAL, tas2562), w).
Proof.
  intros Ha Hd Hsp Hpcm. unfold tas2562_start_feedback. rewrite Ha.
  run by (by apply load_adev_run).
  by rewrite (is_speaker_true _ Hsp), Hpcm.
Qed.

Lemma tas2562_stop_feedback_closed tas2562 (a : addr) d devices w :
  adev tas2562 = Some a →
  adevs w !! a = Some d →
  devices ∈ speaker_devices →
  pcm tas2562 = None →
  tas2562_stop_feedback tas2562 devices w = Some ((- EINVAL, tas2562), w).
Proof.
  intros Ha Hd Hsp Hpcm. unfold tas2562_stop_feedback. rewrite Ha.
  run by (by apply load_adev_run).
  by rewrite (is_speaker_true _ Hsp), Hpcm.
Qed.

(** Reading [tas2562_profile_names] outside its bounds is undefined. *)
Lemma tas2562_start_feedback_no_name tas2562 (a : addr) d devices w :
  adev tas2562 = Some a →
  adevs w !! a = Some d →
  devices ∈ speaker_devices →
  pcm tas2562 = None →
  (ext_calloc (ext w)).1 = true →
  profile_name (profile tas2562) = None →
  tas2562_start_feedback tas2562 devices w = None.
Proof.
  intros Ha Hd Hsp Hpcm Hok Hname.
  unfold tas2562_start_feedback. rewrite Ha.
  run by (by apply load_adev_run).
  rewrite (is_speaker_true _ Hsp), Hpcm. cbn [negb].
  run by (unfold calloc_usecase; rewrite Hok; reflexivity).
  run by (eapply store_usecase_run; cbn [usecases]; apply lookup_insert_eq).
  run by (by apply list_add_head_run).
  run by reflexivity.
  run by (eapply enable_audio_route_run; cbn [usecases];
          rewrite insert_insert_eq; apply lookup_insert_eq).
  run_mixer_value. by rewrite Hname.
Qed.

(** The disable path with a session, for a usecase list that is walked up
    to the feedback record or to its end. *)
Lemma tas2562_stop_feedback_walk tas2562 (a : addr) d devices p r w :
  adev tas2562 = Some a →
  adevs w !! a = Some d →
  devices ∈ speaker_devices →
  pcm tas2562 = Some p →
  find_usecase USECASE_AUDIO_SPKR_CALIB_TX (usecase_list d) w = Some (r, w) →
  ∃ off tail us' ads' e,
    tas2562_stop_feedback tas2562 devices w
    = Some ((0, set_pcm None tas2562),
            World us' ads'
              (trace w ++ Call_pcm_close p :: off
                 ++ Call_disable_snd_device a SND_DEVICE_IN_CAPTURE_VI_FEEDBACK
                 :: tail) e)
    ∧ set_enum_attempt (mixer d) TAS2562_SMARTPA_ENABLE "DISABLE" off
    ∧ stop_cleanup a d (usecases w) (adevs w) tail us' ads'.
Proof.
  intros Ha Hd Hsp Hpcm (_ & -> & Hfind)%find_usecase_inv.
  unfold tas2562_stop_feedback. rewrite Ha.
  run by (by apply load_adev_run).
  rewrite (is_speaker_true _ Hsp), Hpcm. cbn [negb].
  run by reflexivity.
  run_mixer_enum.
  run by reflexivity.
  unfold get_usecase_from_list.
  erewrite bind_run;
    [|erewrite bind_run; [|by apply load_adev_run];
      erewrite bind_run; [|by apply Hfind];
      erewrite bind_run; reflexivity].
  reduce_world.
  destruct (first_usecase _ _ _) as [uc|] eqn:Hfirst.
  - destruct (first_usecase_found _ _ _ _ Hfirst) as (_ & u & Hu & _).
    erewrite bind_run;
      [|erewrite bind_run; [|by apply disable_audio_route_run];
        erewrite bind_run; [|by apply list_remove_run];
        by eapply free_usecase_run].
    reduce_world. unfold mret, M_ret. rewrite <- !app_assoc.
    eexists s, _, _, _, _.
    split; [reflexivity | split; [done|] ]. by econstructor.
  - erewrite bind_run; [|reflexivity].
    reduce_world. unfold mret, M_ret. rewrite <- !app_assoc.
    eexists s, _, _, _, _.
    split; [reflexivity | split; [done|] ]. by econstructor.
Qed.

(** A node that points to no record, met before the feedback record, makes
    the disable path undefined. *)
Lemma tas2562_stop_feedback_lost tas2562 (a : addr) d devices p w :
  adev tas2562 = Some a →
  adevs w !! a = Some d →
  devices ∈ speaker_devices →
  pcm tas2562 = Some p →
  find_usecase USECASE_AUDIO_SPKR_CALIB_TX (usecase_list d) w = None →
  tas2562_stop_feedback tas2562 devices w = None.
Proof.
  intros Ha Hd Hsp Hpcm Hfind.
  unfold tas2562_stop_feedback. rewrite Ha.
  run by (by apply load_adev_run).
  rewrite (is_speaker_true _ Hsp), Hpcm. cbn [negb].
  run by reflexivity.
  run_mixer_enum.
  run by reflexivity.
  unfold get_usecase_from_list.
  unfold mbind at 1, M_bind at 1. unfold mbind at 1, M_bind at 1.
  rewrite (load_adev_run a d) by done.
  unfold mbind at 1, M_bind at 1.
  by rewrite (find_usecase_lost _ _ _ Hfind).
Qed.

(** Whenever [tas2562_start_feedback] returns, it has taken one of four
    ways: the device is no speaker, a session is open, the record cannot be
    allocated, or the setup has run. *)
Lemma tas2562_start_feedback_inv tas2562 devices w rc t' w' :
  tas2562_start_feedback tas2562 devices w = Some ((rc, t'), w') →
  ∃ (a : addr) d,
    adev tas2562 = Some a ∧ adevs w !! a = Some d
    ∧ ((t' = tas2562 ∧ usecases w' = usecases w ∧ adevs w' = adevs w
        ∧ trace w' = trace w
        ∧ ((devices ∉ speaker_devices) ∧ rc = 0
           ∨ devices ∈ speaker_devices ∧ is_Some (pcm tas2562) ∧ rc = - EINVAL
           ∨ devices ∈ speaker_devices ∧ pcm tas2562 = None
             ∧ (ext_calloc (ext w)).1 = false ∧ rc = - ENOMEM))
       ∨ (devices ∈ speaker_devices ∧ pcm tas2562 = None
          ∧ (ext_calloc (ext w)).1 = true
          ∧ ∃ name s3 s4 s5 cap session,
              profile_name (profile tas2562) = Some name
              ∧ t' = match session with
                     | Some p => set_pcm (Some p) tas2562
                     | None => tas2562
                     end
              ∧ usecases w'
                = session_usecases (fresh (dom (usecases w))) session (usecases w)
              ∧ adevs w'
                = session_adevs a d (fresh (dom (usecases w))) session (adevs w)
              ∧ trace w'
                = trace w ++ setup_calls a (fresh (dom (usecases w)))
                    ++ s3 ++ s4 ++ s5 ++ cap
              ∧ set_value_attempt (mixer d) TAS2562_SET_SPKID_LEFT 0 s3
              ∧ set_enum_attempt (mixer d) TAS2562_ALGO_PROFILE name s4
              ∧ set_enum_attempt (mixer d) TAS2562_SMARTPA_ENABLE "ENABLE" s5
              ∧ capture_run a d (fresh (dom (usecases w))) cap rc session)).
Proof.
  intros Hrun.
  destruct (adev tas2562) as [a|] eqn:Ha;
    [|by rewrite tas2562_start_feedback_dangling in Hrun by congruence].
  destruct (adevs w !! a) as [d|] eqn:Hd;
    [|by rewrite tas2562_start_feedback_dangling in Hrun by congruence].
  exists a, d. do 2 (split; [done|]).
  destruct (decide (devices ∈ speaker_devices)) as [Hsp|Hns].
  2:{ rewrite (tas2562_start_feedback_other _ a d) in Hrun by done.
      injection Hrun as [= <- <- <-]. left. by eauto 10. }
  destruct (pcm tas2562) as [p|] eqn:Hpcm.
  { rewrite (tas2562_start_feedback_busy _ a d _ p) in Hrun by done.
    injection Hrun as [= <- <- <-]. left. by eauto 10. }
  destruct (ext_calloc (ext w)).1 eqn:Hok.
  2:{ rewrite (tas2562_start_feedback_no_memory _ a d) in Hrun by done.
      injection Hrun as [= <- <- <-]. left. by eauto 10. }
  destruct (profile_name (profile tas2562)) as [name|] eqn:Hname;
    [|by rewrite (tas2562_start_feedback_no_name _ a d) in Hrun].
  destruct (tas2562_start_feedback_run tas2562 a d devices name w)
    as (s3 & s4 & s5 & cap & rc' & session & e & Heq & H3 & H4 & H5 & Hcap);
    try done.
  rewrite Heq in Hrun. injection Hrun as [= <- <- <-].
  right. do 3 (split; [done|]).
  by exists name, s3, s4, s5, cap, session.
Qed.

(** Whenever [tas2562_stop_feedback] returns, it has taken one of three
    ways: the device is no speaker, no session is open, or the session has
    been closed and the feedback record looked for. *)
Lemma tas2562_stop_feedback_inv tas2562 devices w rc t' w' :
  tas2562_stop_feedback tas2562 devices w = Some ((rc, t'), w') →
  ∃ (a : addr) d,
    adev tas2562 = Some a ∧ adevs w !! a = Some d
    ∧ ((t' = tas2562 ∧ usecases w' = usecases w ∧ adevs w' = adevs w
        ∧ trace w' = trace w
        ∧ ((devices ∉ speaker_devices) ∧ rc = 0
           ∨ devices ∈ speaker_devices ∧ pcm tas2562 = None ∧ rc = - EINVAL))
       ∨ (devices ∈ speaker_devices
          ∧ ∃ p off tail,
              pcm tas2562 = Some p ∧ rc = 0 ∧ t' = set_pcm None tas2562
              ∧ trace w'
                = trace w ++ Call_pcm_close p :: off
                    ++ Call_disable_snd_device a SND_DEVICE_IN_CAPTURE_VI_FEEDBACK
                    :: tail
              ∧ set_enum_attempt (mixer d) TAS2562_SMARTPA_ENABLE "DISABLE" off
              ∧ stop_cleanup a d (usecases w) (adevs w) tail
                  (usecases w') (adevs w'))).
Proof.
  intros Hrun.
  destruct (adev tas2562) as [a|] eqn:Ha;
    [|by rewrite tas2562_stop_feedback_dangling in Hrun by congruence].
  destruct (adevs w !! a) as [d|] eqn:Hd;
    [|by rewrite tas2562_stop_feedback_dangling in Hrun by congruence].
  exists a, d. do 2 (split; [done|]).
  destruct (decide (devices ∈ speaker_devices)) as [Hsp|Hns].
  2:{ rewrite (tas2562_stop_feedback_other _ a d) in Hrun by done.
      injection Hrun as [= <- <- <-]. left. by eauto 10. }
  destruct (pcm tas2562) as [p|] eqn:Hpcm.
  2:{ rewrite (tas2562_stop_feedback_closed _ a d) in Hrun by done.
      injection Hrun as [= <- <- <-]. left. by eauto 10. }
  destruct (find_usecase USECASE_AUDIO_SPKR_CALIB_TX (usecase_list d) w)
    as [[r w0]|] eqn:Hfind;
    [|by rewrite (tas2562_stop_feedback_lost _ a d _ p) in Hrun].
  pose proof (find_usecase_inv _ _ _ _ _ Hfind) as (-> & _ & _).
  destruct (tas2562_stop_feedback_walk tas2562 a d devices p r w)
    as (off & tail & us' & ads' & e & Heq & Hoff & Hclean); try done.
  rewrite Heq in Hrun. injection Hrun as [= <- <- <-].
  right. split; [done|]. by exists p, off, tail.
Qed.

(** ** Counting in the log *)

Lemma started_streams_app (l1 l2 : list call) :
  started_streams (l1 ++ l2) = started_streams l1 + started_streams l2.
Proof.
  unfold started_streams.
  induction l1 as [|c l1 IH]; cbn [app foldr]; [done|]. rewrite IH. lia.
Qed.

Lemma started_streams_cons (c : call) (l : list call) :
  started_streams (c :: l) = stream_ref c + started_streams l.
Proof. done. Qed.

Lemma snd_device_refs_cons (a : addr) s (c : call) (l : list call) :
  snd_device_refs a s (c :: l) = snd_device_ref a s c + snd_device_refs a s l.
Proof. done. Qed.

Lemma audio_route_refs_cons (a uc : addr) (c : call) (l : list call) :
  audio_route_refs a uc (c :: l) = audio_route_ref a uc c + audio_route_refs a uc l.
Proof. done. Qed.

Lemma mixer_calls_quiet (log : list call) :
  Forall (λ c, mixer_call c = true) log →
  started_streams log = 0
  ∧ (∀ (a : addr) s, snd_device_refs a s log = 0)
  ∧ (∀ a uc : addr, audio_route_refs a uc log = 0).
Proof.
  induction 1 as [|c log Hc _ (IH1 & IH2 & IH3)]; [done|].
  split; [|split]; intros;
    rewrite ?started_streams_cons, ?snd_device_refs_cons, ?audio_route_refs_cons,
      ?IH1, ?IH2, ?IH3;
    by destruct c.
Qed.

Lemma set_enum_attempt_mixer (m : addr) name value log :
  set_enum_attempt m name value log → Forall (λ c, mixer_call c = true) log.
Proof. intros [|ctl ret]; by repeat constructor. Qed.

Lemma set_value_attempt_mixer (m : addr) name value log :
  set_value_attempt m name value log → Forall (λ c, mixer_call c = true) log.
Proof. intros [|ctl ret]; by repeat constructor. Qed.

Lemma mixer_call_in (c : call) (log : list call) :
  Forall (λ c, mixer_call c = true) log → c ∈ log → mixer_call c = true.
Proof. intros Hall Hin. by apply (proj1 (Forall_forall _ _) Hall). Qed.

(** The capture part ends with a negative status and no session, or with
    status 0 and a session. *)
Lemma capture_run_status (a : addr) d uc cap rc session :
  capture_run a d uc cap rc session →
  rc < 0 ∧ session = None ∨ rc = 0 ∧ is_Some session.
Proof.
  intros [ | | | |pcm_id p ret]; [left; unfold ENODEV, EIO; split; (lia || done)..|].
  right. by eauto.
Qed.

Lemma capture_run_streams (a : addr) d uc cap rc session :
  capture_run a d uc cap rc session →
  started_streams cap = match session with Some _ => 1 | None => 0 end.
Proof.
  intros [pcm_id off _ Hoff|pcm_id off _ Hoff|pcm_id p off _ Hoff
         |pcm_id p ret off _ _ Hoff|pcm_id p ret _ _];
    [| | | |done];
    apply set_enum_attempt_mixer, mixer_calls_quiet in Hoff as (Hoff & _);
    unfold rollback_calls;
    rewrite !started_streams_cons, started_streams_app, Hoff; done.
Qed.

(** ** Status, failure and definedness of [tas2562_set_feedback] *)

(** [tas2562_set_feedback] never returns a positive status, and a call that
    returns a negative status has changed neither the session handle, nor
    the profile, nor the usecase records and audio devices in memory.  This
    holds for every argument, null handles included, and for every answer
    of the platform. *)
Theorem set_feedback_failure_keeps_state device (adev' : option addr) devices
    enable w rc device' w' :
  tas2562_set_feedback device adev' devices enable w = Some ((rc, device'), w') →
  rc ≤ 0
  ∧ (rc < 0 →
     pcm <$> device' = pcm <$> device
     ∧ profile <$> device' = profile <$> device
     ∧ usecases w' = usecases w
     ∧ adevs w' = adevs w).
Proof.
  destruct adev' as [a|], device as [t|];
    try (intros [= <- <- <-]; unfold EINVAL; split; [lia|done]).
  rewrite tas2562_set_feedback_unfold. destruct enable.
  - destruct (tas2562_start_feedback _ _ _) as [[[rc0 t0] w0]|] eqn:Hrun; [|done].
    intros [= <- <- <-].
    apply tas2562_start_feedback_inv in Hrun
      as (a0 & d & _ & _ & [(-> & Hus & Hads & _ & Hrc)|(_ & _ & _ & Hran)]).
    + split; [|done].
      destruct Hrc as [[_ ->]|[(_ & _ & ->)|(_ & _ & _ & ->)]];
        unfold EINVAL, ENOMEM; lia.
    + destruct Hran as (name & s3 & s4 & s5 & cap & session & _ & -> & Hus
                        & Hads & _ & _ & _ & _ & Hcap).
      apply capture_run_status in Hcap as [[Hneg ->]|[-> _]]; [|split; [done|lia] ].
      split; [lia|done].
  - destruct (tas2562_stop_feedback _ _ _) as [[[rc0 t0] w0]|] eqn:Hrun; [|done].
    intros [= <- <- <-].
    apply tas2562_stop_feedback_inv in Hrun
      as (a0 & d & _ & _ & [(-> & Hus & Hads & _ & Hrc)|(_ & Hran)]).
    + split; [|done].
      destruct Hrc as [[_ ->]|(_ & _ & ->)]; unfold EINVAL; lia.
    + destruct Hran as (p & off & tail & _ & -> & _). split; [done|lia].
Qed.

(** Memory safety of [tas2562_set_feedback].  With a null device or a null
    audio device the call returns -EINVAL and touches nothing.  With an
    audio-device pointer that points to an audio device whose usecase list
    holds live records only, and a device whose profile is one of the three
    named ones, the call is defined: it dereferences no dangling pointer and
    reads the table of profile names within its bounds.  With an
    audio-device pointer that points to no audio device, the call is
    undefined, whatever the routing mask. *)
Theorem set_feedback_defined device (adev' : option addr) devices enable w :
  (device = None ∨ adev' = None →
   tas2562_set_feedback device adev' devices enable w
   = Some ((- EINVAL, device), w))
  ∧ (∀ tas2562 (a : addr) d,
       device = Some tas2562 → adev' = Some a →
       adevs w !! a = Some d →
       usecase_list_live (usecases w) d →
       profile tas2562 ≠ PROFILE_NONE →
       is_Some (tas2562_set_feedback device adev' devices enable w))
  ∧ (∀ tas2562 (a : addr),
       device = Some tas2562 → adev' = Some a →
       adevs w !! a = None →
       tas2562_set_feedback device adev' devices enable w = None).
Proof.
  split; [|split].
  - intros [-> | ->]; [by destruct adev'|by destruct device].
  - intros t a d -> -> Hd Hlive (name & Hname & _)%profile_name_valid.
    rewrite tas2562_set_feedback_unfold.
    destruct (decide (devices ∈ speaker_devices)) as [Hsp|Hns].
    2:{ destruct enable.
        - by rewrite (tas2562_start_feedback_other _ a d).
        - by rewrite (tas2562_stop_feedback_other _ a d). }
    destruct enable, (pcm t) as [p|] eqn:Hpcm.
    + by rewrite (tas2562_start_feedback_busy _ a d _ p).
    + destruct (ext_calloc (ext w)).1 eqn:Hok.
      * destruct (tas2562_start_feedback_run (set_adev (Some a) t)
                    a d devices name w)
          as (s3 & s4 & s5 & cap & rc & session & e & -> & _); done.
      * by rewrite (tas2562_start_feedback_no_memory _ a d).
    + destruct (tas2562_stop_feedback_run (set_adev (Some a) t) a d devices p w)
        as (off & tail & us' & ads' & e & -> & _); done.
    + by rewrite (tas2562_stop_feedback_closed _ a d).
  - intros t a -> -> Hd. rewrite tas2562_set_feedback_unfold.
    destruct enable.
    + rewrite tas2562_start_feedback_dangling; [done|].
      cbn [adev set_adev]. by intros ? [= <-].
    + rewrite tas2562_stop_feedback_dangling; [done|].
      cbn [adev set_adev]. by intros ? [= <-].
Qed.

(** ** The capture stream *)

Ltac split_log H :=
  unfold setup_calls, rollback_calls in H;
  repeat first
    [ apply elem_of_app in H as [H|H]
    | apply elem_of_cons in H as [H|H]
    | apply elem_of_nil in H; destruct H ].

Ltac not_mixer H :=
  match goal with
  | Hm : Forall (λ c, mixer_call c = true) ?l |- _ =>
      match type of H with
      | _ ∈ l => apply (mixer_call_in _ _ Hm) in H; discriminate H
      end
  end.

(** The calls of the capture part that concern a stream: a stream that is
    reported not ready is not closed; a stream whose start is refused is
    closed; a stream whose start is accepted becomes the session. *)
Lemma capture_run_stream (a : addr) d uc cap rc session :
  capture_run a d uc cap rc session →
  (∀ p, Call_pcm_is_ready p false ∈ cap →
     rc = - EIO ∧ session = None ∧ ∀ q, Call_pcm_close q ∉ cap)
  ∧ (∀ p ret, Call_pcm_start p ret ∈ cap → ret < 0 →
       rc = ret ∧ session = None ∧ Call_pcm_close p ∈ cap)
  ∧ (∀ p ret, Call_pcm_start p ret ∈ cap → 0 ≤ ret →
       rc = 0 ∧ session = Some p ∧ ∀ q, Call_pcm_close q ∉ cap).
Proof.
  intros [pcm_id off Hid Hoff|pcm_id off Hid Hoff|pcm_id p0 off Hid Hoff
         |pcm_id p0 ret0 off Hid Hret Hoff|pcm_id p0 ret0 Hid Hret];
    try apply set_enum_attempt_mixer in Hoff;
    (split; [|split]).
  all: intros; repeat match goal with
         | H : _ ∈ _ |- _ => split_log H; try not_mixer H; try discriminate H
         end.
  all: simplify_eq; try lia.
  all: repeat split; try done.
  all: try (intros q Hq; split_log Hq; try not_mixer Hq; discriminate Hq).
  all: rewrite !elem_of_cons; auto 10.
Qed.

Lemma enable_log_capture (a uc : addr) (m : addr) name s3 s4 s5 cap (c : call) :
  set_value_attempt m TAS2562_SET_SPKID_LEFT 0 s3 →
  set_enum_attempt m TAS2562_ALGO_PROFILE name s4 →
  set_enum_attempt m TAS2562_SMARTPA_ENABLE "ENABLE" s5 →
  mixer_call c = false →
  stream_ref c ≠ 0 ∨ (∃ p r, c = Call_pcm_is_ready p r) →
  c ∈ setup_calls a uc ++ s3 ++ s4 ++ s5 ++ cap ↔ c ∈ cap.
Proof.
  intros H3%set_value_attempt_mixer H4%set_enum_attempt_mixer
    H5%set_enum_attempt_mixer Hc Hkind.
  split; [|intros Hin; rewrite !elem_of_app; auto].
  intros Hin. split_log Hin; try done;
    try (apply (mixer_call_in _ _ H3) in Hin; congruence);
    try (apply (mixer_call_in _ _ H4) in Hin; congruence);
    try (apply (mixer_call_in _ _ H5) in Hin; congruence);
    subst c; destruct Hkind as [Hk|(p & r & Hk)]; done.
Qed.

(** What becomes of the capture stream on an enable call.  A stream that
    [pcm_open] returns and [pcm_is_ready] reports not ready is not closed:
    the call returns -EIO, stores no session, and no [pcm_close] is in its
    log.  A stream whose [pcm_start] returns a negative status is closed, and
    that status is returned.  A stream whose [pcm_start] returns zero or a
    positive status becomes the session, and the call returns 0, not the
    status of [pcm_start]. *)
Theorem enable_stream_fate tas2562 (a : addr) devices w rc t' w' log :
  tas2562_set_feedback (Some tas2562) (Some a) devices true w
  = Some ((rc, Some t'), w') →
  trace w' = trace w ++ log →
  (∀ p, Call_pcm_is_ready p false ∈ log →
     rc = - EIO ∧ pcm t' = None ∧ ∀ q, Call_pcm_close q ∉ log)
  ∧ (∀ p ret, Call_pcm_start p ret ∈ log → ret < 0 →
       rc = ret ∧ pcm t' = None ∧ Call_pcm_close p ∈ log)
  ∧ (∀ p ret, Call_pcm_start p ret ∈ log → 0 ≤ ret →
       rc = 0 ∧ pcm t' = Some p ∧ ∀ q, Call_pcm_close q ∉ log).
Proof.
  rewrite tas2562_set_feedback_unfold.
  destruct (tas2562_start_feedback _ _ _) as [[[rc0 t0] w0]|] eqn:Hrun; [|done].
  intros [= <- <- <-] Hlog.
  apply tas2562_start_feedback_inv in Hrun
    as (a0 & d & _ & _ & [(_ & _ & _ & Htr & _)|(_ & Hpcm & _ & Hran)]).
  { rewrite Htr in Hlog. rewrite <- (app_nil_r (trace w)) in Hlog at 1.
    apply app_inv_head in Hlog as <-.
    repeat split; intros; by match goal with H : _ ∈ [] |- _ =>
                                apply elem_of_nil in H end. }
  destruct Hran as (name & s3 & s4 & s5 & cap & session & _ & -> & _ & _
                    & Htr & H3 & H4 & H5 & Hcap).
  rewrite Htr in Hlog. apply app_inv_head in Hlog as <-.
  assert (Hpcm' : pcm (match session with
                       | Some p => set_pcm (Some p) (set_adev (Some a) tas2562)
                       | None => set_adev (Some a) tas2562
                       end) = session).
  { by destruct session. }
  rewrite Hpcm'. clear Hpcm'.
  pose proof (λ c, enable_log_capture a0 (fresh (dom (usecases w))) _ _ _ _ _
                     cap c H3 H4 H5) as Hcapin.
  assert (Hclose : ∀ q, Call_pcm_close q
                        ∈ setup_calls a0 (fresh (dom (usecases w)))
                          ++ s3 ++ s4 ++ s5 ++ cap
                        ↔ Call_pcm_close q ∈ cap).
  { intros q. apply Hcapin; [done|by left]. }
  destruct (capture_run_stream _ _ _ _ _ _ Hcap) as (Hnr & Hneg & Hpos).
  split; [|split].
  - intros p Hin. rewrite Hcapin in Hin; [|done|by eauto].
    destruct (Hnr p Hin) as (-> & -> & Hno).
    do 2 (split; [done|]). intros q. rewrite Hclose. apply Hno.
  - intros p ret Hin Hret.
    rewrite Hcapin in Hin; [|done|by left].
    destruct (Hneg p ret Hin Hret) as (-> & -> & Hcl).
    do 2 (split; [done|]). by apply Hclose.
  - intros p ret Hin Hret.
    rewrite Hcapin in Hin; [|done|by left].
    destruct (Hpos p ret Hin Hret) as (-> & -> & Hno).
    do 2 (split; [done|]). intros q. rewrite Hclose. apply Hno.
Qed.

(** ** The capture stream when the capture part fails *)

(** The enable path on a platform that opens a stream and reports it not
    ready: the run, call by call. *)
Lemma tas2562_start_feedback_not_ready tas2562 (a : addr) d devices name w :
  adev tas2562 = Some a →
  adevs w !! a = Some d →
  devices ∈ speaker_devices →
  pcm tas2562 = None →
  profile_name (profile tas2562) = Some name →
  (ext_calloc (ext w)).1 = true →
  (∀ uc_id device_type e,
     0 ≤ (ext_platform_get_pcm_device_id uc_id device_type e).1) →
  (∀ card device flags config e,
     is_Some (ext_pcm_open card device flags config e).1) →
  (∀ p e, (ext_pcm_is_ready p e).1 = false) →
  ∃ s3 s4 s5 pcm_id p off e,
    tas2562_start_feedback tas2562 devices w
    = Some ((- EIO, tas2562),
            World (usecases w) (adevs w)
              (trace w ++ setup_calls a (fresh (dom (usecases w)))
                 ++ s3 ++ s4 ++ s5
                 ++ Call_platform_get_pcm_device_id USECASE_AUDIO_SPKR_CALIB_TX
                      PCM_CAPTURE pcm_id
                 :: Call_pcm_open (snd_card d) pcm_id PCM_IN tas2562_pcm_config
                      (Some p)
                 :: Call_pcm_is_ready p false
                 :: rollback_calls a (fresh (dom (usecases w))) off) e)
    ∧ set_value_attempt (mixer d) TAS2562_SET_SPKID_LEFT 0 s3
    ∧ set_enum_attempt (mixer d) TAS2562_ALGO_PROFILE name s4
    ∧ set_enum_attempt (mixer d) TAS2562_SMARTPA_ENABLE "ENABLE" s5
    ∧ set_enum_attempt (mixer d) TAS2562_SMARTPA_ENABLE "DISABLE" off.
Proof.
  intros Ha Hd Hsp Hpcm Hname Hok Hid Hopen Hready.
  unfold tas2562_start_feedback. rewrite Ha.
  run by (by apply load_adev_run).
  rewrite (is_speaker_true _ Hsp), Hpcm. cbn [negb].
  run by (unfold calloc_usecase; rewrite Hok; reflexivity).
  run by (eapply store_usecase_run; cbn [usecases]; apply lookup_insert_eq).
  rewrite insert_insert_eq.
  run by (by apply list_add_head_run).
  run by reflexivity.
  run by (eapply enable_audio_route_run; cbn [usecases]; apply lookup_insert_eq).
  run_mixer_value. rewrite Hname. run_mixer_enum. run_mixer_enum.
  run by (eapply load_usecase_run; cbn [usecases]; apply lookup_insert_eq).
  run by reflexivity.
  cbn [id]. fold feedback_usecase.
  rewrite (proj2 (Z.ltb_ge _ _) (Hid _ _ _)).
  run by (apply load_adev_run; cbn [adevs]; apply lookup_insert_eq).
  cbn [snd_card].
  run by reflexivity.
  match goal with
  | |- context [ext_pcm_open ?c ?dv ?f ?cfg ?e0] =>
      destruct (Hopen c dv f cfg e0) as [p Hp]; rewrite Hp
  end.
  run by reflexivity.
  rewrite Hready. cbn [negb].
  run_rollback.
  rewrite rollback_usecases, (rollback_adevs _ _ _ _ _ Hd).
  rewrite <- !app_assoc.
  eexists s, s0, s1, _, p, off, _. split; [reflexivity|done].
Qed.

(** The enable path on a platform that opens a ready stream and refuses to
    start it: the run, call by call. *)
Lemma tas2562_start_feedback_not_started tas2562 (a : addr) d devices name w :
  adev tas2562 = Some a →
  adevs w !! a = Some d →
  devices ∈ speaker_devices →
  pcm tas2562 = None →
  profile_name (profile tas2562) = Some name →
  (ext_calloc (ext w)).1 = true →
  (∀ uc_id device_type e,
     0 ≤ (ext_platform_get_pcm_device_id uc_id device_type e).1) →
  (∀ card device flags config e,
     is_Some (ext_pcm_open card device flags config e).1) →
  (∀ p e, (ext_pcm_is_ready p e).1 = true) →
  (∀ p e, (ext_pcm_start p e).1 < 0) →
  ∃ s3 s4 s5 pcm_id p rc off e,
    tas2562_start_feedback tas2562 devices w
    = Some ((rc, tas2562),
            World (usecases w) (adevs w)
              (trace w ++ setup_calls a (fresh (dom (usecases w)))
                 ++ s3 ++ s4 ++ s5
                 ++ Call_platform_get_pcm_device_id USECASE_AUDIO_SPKR_CALIB_TX
                      PCM_CAPTURE pcm_id
                 :: Call_pcm_open (snd_card d) pcm_id PCM_IN tas2562_pcm_config
                      (Some p)
                 :: Call_pcm_is_ready p true
                 :: Call_pcm_start p rc
                 :: Call_pcm_close p
                 :: rollback_calls a (fresh (dom (usecases w))) off) e)
    ∧ rc < 0
    ∧ set_value_attempt (mixer d) TAS2562_SET_SPKID_LEFT 0 s3
    ∧ set_enum_attempt (mixer d) TAS2562_ALGO_PROFILE name s4
    ∧ set_enum_attempt (mixer d) TAS2562_SMARTPA_ENABLE "ENABLE" s5
    ∧ set_enum_attempt (mixer d) TAS2562_SMARTPA_ENABLE "DISABLE" off.
Proof.
  intros Ha Hd Hsp Hpcm Hname Hok Hid Hopen Hready Hstart.
  unfold tas2562_start_feedback. rewrite Ha.
  run by (by apply load_adev_run).
  rewrite (is_speaker_true _ Hsp), Hpcm. cbn [negb].
  run by (unfold calloc_usecase; rewrite Hok; reflexivity).
  run by (eapply store_usecase_run; cbn [usecases]; apply lookup_insert_eq).
  rewrite insert_insert_eq.
  run by (by apply list_add_head_run).
  run by reflexivity.
  run by (eapply enable_audio_route_run; cbn [usecases]; apply lookup_insert_eq).
  run_mixer_value. rewrite Hname. run_mixer_enum. run_mixer_enum.
  run by (eapply load_usecase_run; cbn [usecases]; apply lookup_insert_eq).
  run by reflexivity.
  cbn [id]. fold feedback_usecase.
  rewrite (proj2 (Z.ltb_ge _ _) (Hid _ _ _)).
  run by (apply load_adev_run; cbn [adevs]; apply lookup_insert_eq).
  cbn [snd_card].
  run by reflexivity.
  match goal with
  | |- context [ext_pcm_open ?c ?dv ?f ?cfg ?e0] =>
      destruct (Hopen c dv f cfg e0) as [p Hp]; rewrite Hp
  end.
  run by reflexivity.
  rewrite Hready. cbn [negb].
  run by reflexivity.
  rewrite (proj2 (Z.ltb_lt _ _) (Hstart _ _)).
  unfold err_pcm_start.
  run by reflexivity.
  run_rollback.
  rewrite rollback_usecases, (rollback_adevs _ _ _ _ _ Hd).
  rewrite <- !app_assoc.
  eexists s, s0, s1, _, p, _, off, _.
  split; [reflexivity|]. split; [apply Hstart|done].
Qed.

(** C1. An enable call on a speaker device whose capture part fails undoes
    the registration and the routing that it set up, and returns the status
    of the failure: the last calls of the log are the attempt to set the
    smart-PA control to "DISABLE", the revert of the audio route, the
    disabling of the feedback routing device and the removal of the record
    from the usecase list; the record is freed, the records and the usecase
    list are those of before the call, and the session handle is null.  The
    capture stream is not part of what is undone in every case.  On a
    platform that opens a stream and reports it not ready, the call returns
    -EIO and never closes the stream that [pcm_open] returned: its log has
    no [pcm_close].  On a platform that refuses to start the stream, the
    sibling path, the stream is closed before the same calls.  (The
    audio-device pointer is valid, no session is open, the profile is one of
    the three names, and memory and a PCM device id are available.) *)
Theorem start_failure_leaves_stream_open tas2562 (a : addr) d devices w :
  adevs w !! a = Some d →
  devices ∈ speaker_devices →
  pcm tas2562 = None →
  profile tas2562 ≠ PROFILE_NONE →
  (ext_calloc (ext w)).1 = true →
  (∀ uc_id device_type e,
     0 ≤ (ext_platform_get_pcm_device_id uc_id device_type e).1) →
  (∀ card device flags config e,
     is_Some (ext_pcm_open card device flags config e).1) →
  ((∀ p e, (ext_pcm_is_ready p e).1 = false) →
   ∃ t' w' mix pcm_id p off log,
     tas2562_set_feedback (Some tas2562) (Some a) devices true w
     = Some ((- EIO, Some t'), w')
     ∧ trace w' = trace w ++ log
     ∧ log = setup_calls a (fresh (dom (usecases w))) ++ mix
               ++ Call_platform_get_pcm_device_id USECASE_AUDIO_SPKR_CALIB_TX
                    PCM_CAPTURE pcm_id
               :: Call_pcm_open (snd_card d) pcm_id PCM_IN tas2562_pcm_config
                    (Some p)
               :: Call_pcm_is_ready p false
               :: rollback_calls a (fresh (dom (usecases w))) off
     ∧ Forall (λ c, mixer_call c = true) mix
     ∧ set_enum_attempt (mixer d) TAS2562_SMARTPA_ENABLE "DISABLE" off
     ∧ pcm t' = None
     ∧ usecases w' = usecases w
     ∧ adevs w' = adevs w
     ∧ ∀ q, Call_pcm_close q ∉ log)
  ∧ ((∀ p e, (ext_pcm_is_ready p e).1 = true) →
     (∀ p e, (ext_pcm_start p e).1 < 0) →
     ∃ rc t' w' mix pcm_id p off log,
       tas2562_set_feedback (Some tas2562) (Some a) devices true w
       = Some ((rc, Some t'), w')
       ∧ rc < 0
       ∧ trace w' = trace w ++ log
       ∧ log = setup_calls a (fresh (dom (usecases w))) ++ mix
                 ++ Call_platform_get_pcm_device_id USECASE_AUDIO_SPKR_CALIB_TX
                      PCM_CAPTURE pcm_id
                 :: Call_pcm_open (snd_card d) pcm_id PCM_IN tas2562_pcm_config
                      (Some p)
                 :: Call_pcm_is_ready p true
                 :: Call_pcm_start p rc
                 :: Call_pcm_close p
                 :: rollback_calls a (fresh (dom (usecases w))) off
       ∧ Forall (λ c, mixer_call c = true) mix
       ∧ set_enum_attempt (mixer d) TAS2562_SMARTPA_ENABLE "DISABLE" off
       ∧ pcm t' = None
       ∧ usecases w' = usecases w
       ∧ adevs w' = adevs w).
Proof.
  intros Hd Hsp Hpcm (name & Hname & _)%profile_name_valid Hok Hid Hopen.
  split.
  - intros Hready.
    destruct (tas2562_start_feedback_not_ready (set_adev (Some a) tas2562)
                a d devices name w)
      as (s3 & s4 & s5 & pcm_id & p & off & e & Hrun & H3 & H4 & H5 & Hoff);
      try done.
    rewrite tas2562_set_feedback_unfold, Hrun.
    eexists _, _, (s3 ++ s4 ++ s5), pcm_id, p, off, _.
    split; [reflexivity|]. cbn [trace usecases adevs].
    split; [reflexivity|]. rewrite <- !app_assoc. split; [reflexivity|].
    apply set_value_attempt_mixer in H3. apply set_enum_attempt_mixer in H4, H5.
    split; [by rewrite !Forall_app|]. do 4 (split; [done|]).
    apply set_enum_attempt_mixer in Hoff.
    intros q Hq. split_log Hq; try discriminate Hq;
      by (apply (mixer_call_in _ _ H3) in Hq
          || apply (mixer_call_in _ _ H4) in Hq
          || apply (mixer_call_in _ _ H5) in Hq
          || apply (mixer_call_in _ _ Hoff) in Hq).
  - intros Hready Hstart.
    destruct (tas2562_start_feedback_not_started (set_adev (Some a) tas2562)
                a d devices name w)
      as (s3 & s4 & s5 & pcm_id & p & rc & off & e & Hrun & Hrc & H3 & H4 & H5
          & Hoff); try done.
    rewrite tas2562_set_feedback_unfold, Hrun.
    eexists rc, _, _, (s3 ++ s4 ++ s5), pcm_id, p, off, _.
    split; [reflexivity|]. split; [done|]. cbn [trace usecases adevs].
    split; [reflexivity|]. rewrite <- !app_assoc. split; [reflexivity|].
    apply set_value_attempt_mixer in H3. apply set_enum_attempt_mixer in H4, H5.
    split; [by rewrite !Forall_app|]. done.
Qed.

(** ** Enable, then disable *)

Lemma find_usecase_first uc_id (nodes : list addr) uc w :
  first_usecase (usecases w) uc_id nodes = Some uc →
  find_usecase uc_id nodes w = Some (Some uc, w).
Proof.
  induction nodes as [|node nodes IH]; [done|].
  cbn [first_usecase find_usecase]. unfold mbind, M_bind, load_usecase.
  destruct (usecases w !! node) as [u|]; [|done].
  case_bool_decide; [by intros [= ->]|done].
Qed.

(** The first record with a given id splits the list: no node before it
    points to a record with that id, and removing it keeps the nodes before
    and after it, in their order. *)
Lemma first_usecase_split us uc_id (nodes : list addr) uc :
  first_usecase us uc_id nodes = Some uc →
  ∃ pre post,
    nodes = pre ++ uc :: post
    ∧ (∀ n u, n ∈ pre → us !! n = Some u → id u ≠ uc_id)
    ∧ remove_node uc nodes = pre ++ post.
Proof.
  induction nodes as [|node nodes IH]; [done|].
  cbn [first_usecase]. destruct (us !! node) as [u|] eqn:Hu; [|done].
  case_bool_decide as Hid.
  - intros [= ->]. exists [], nodes. split; [done|]. split.
    + by intros n u' ?%elem_of_nil.
    + apply remove_node_head.
  - intros Hfirst.
    destruct (first_usecase_found _ _ _ _ Hfirst) as (_ & u' & Hu' & Hid').
    destruct (IH Hfirst) as (pre & post & -> & Hpre & Hrm).
    exists (node :: pre), post. split; [done|]. split.
    + intros n u0 [->|Hin]%elem_of_cons; [congruence|by eapply Hpre].
    + cbn [remove_node app]. rewrite decide_False by congruence.
      by rewrite Hrm.
Qed.

Lemma snd_device_ref_inverse (a : addr) s s' :
  snd_device_ref a s' (Call_enable_snd_device a s)
  + snd_device_ref a s' (Call_disable_snd_device a s) = 0.
Proof. cbn. destruct (bool_decide _); lia. Qed.

Lemma audio_route_ref_inverse (a uc uc' : addr) u u' :
  audio_route_ref a uc' (Call_enable_audio_route a uc u)
  + audio_route_ref a uc' (Call_disable_audio_route a uc u') = 0.
Proof. cbn. destruct (bool_decide _); lia. Qed.

(** Round trip.  After an enable call that returns 0 on a speaker device, a
    disable call on a speaker device with the handle and the world it left
    returns 0 and puts everything back: the device record is the one of
    before the enable call (with its audio-device pointer bound), the
    usecase records and the audio devices in memory are those of before, the
    record removed is the one the enable call registered, and over the two
    calls every enable of a routing device, every applied route and every
    started stream is matched by its inverse. *)
Theorem enable_then_disable_restores tas2562 (a : addr) d devices devices'
    w t1 w1 :
  adevs w !! a = Some d →
  devices ∈ speaker_devices →
  devices' ∈ speaker_devices →
  pcm tas2562 = None →
  tas2562_set_feedback (Some tas2562) (Some a) devices true w
  = Some ((0, Some t1), w1) →
  ∃ p w2 log,
    pcm t1 = Some p
    ∧ tas2562_set_feedback (Some t1) (Some a) devices' false w1
      = Some ((0, Some (set_adev (Some a) tas2562)), w2)
    ∧ usecases w2 = usecases w
    ∧ adevs w2 = adevs w
    ∧ trace w2 = trace w ++ log
    ∧ Call_list_add_head a (fresh (dom (usecases w))) ∈ log
    ∧ Call_list_remove (fresh (dom (usecases w))) ∈ log
    ∧ Call_pcm_close p ∈ log
    ∧ (∀ s, snd_device_refs a s log = 0)
    ∧ (∀ uc, audio_route_refs a uc log = 0)
    ∧ started_streams log = 0.
Proof.
  intros Hd Hsp Hsp' Hpcm. rewrite tas2562_set_feedback_unfold.
  destruct (tas2562_start_feedback _ _ _) as [[[rc0 t0] w0]|] eqn:Hrun; [|done].
  intros [= -> -> ->].
  apply tas2562_start_feedback_inv in Hrun
    as (a0 & d0 & [= <-] & Hd0 & Hways).
  assert (d0 = d) as -> by congruence. clear Hd0.
  destruct Hways as [(_ & _ & _ & _ & Hrc)|(_ & _ & _ & Hran)].
  { exfalso. destruct Hrc as [[? _]|[(_ & _ & Hrc)|(_ & _ & _ & Hrc)]];
      [done|discriminate Hrc..]. }
  destruct Hran as (name & s3 & s4 & s5 & cap & session & _ & -> & Hus & Hads
                    & Htr & H3 & H4 & H5 & Hcap).
  set (uc := fresh (dom (usecases w))) in *.
  pose proof (capture_run_streams _ _ _ _ _ _ Hcap) as Hstreams.
  assert (∃ p, session = Some p) as [p ->].
  { apply capture_run_status in Hcap as [[? _]|[_ [p ->] ] ]; [lia|by eauto]. }
  cbn [session_usecases session_adevs] in Hus, Hads.
  set (t1 := set_pcm (Some p) (set_adev (Some a) tas2562)).
  set (d1 := {| mixer := mixer d; snd_card := snd_card d;
                usecase_list := uc :: usecase_list d |}) in *.
  assert (Hd1 : adevs w1 !! a = Some d1).
  { rewrite Hads. apply lookup_insert_eq. }
  assert (Huc : usecases w1 !! uc = Some feedback_usecase).
  { rewrite Hus. apply lookup_insert_eq. }
  assert (Hfirst : first_usecase (usecases w1) USECASE_AUDIO_SPKR_CALIB_TX
                     (usecase_list d1) = Some uc).
  { cbn [first_usecase usecase_list d1]. rewrite Huc.
    by rewrite bool_decide_eq_true_2. }
  destruct (tas2562_stop_feedback_walk (set_adev (Some a) t1) a d1 devices' p
              (Some uc) w1)
    as (off & tail & us' & ads' & e & Hstop & Hoff & Hclean); try done.
  { by apply find_usecase_first. }
  exists p, (World us' ads'
               (trace w1 ++ Call_pcm_close p :: off
                  ++ Call_disable_snd_device a SND_DEVICE_IN_CAPTURE_VI_FEEDBACK
                  :: tail) e).
  eexists. split; [done|]. split.
  { rewrite tas2562_set_feedback_unfold, Hstop. do 3 f_equal.
    subst t1. destruct tas2562 as [pr ad pc]. cbn in *. by subst pc. }
  cbn [usecases adevs trace].
  destruct Hclean as [Hnone|uc' u Hfound Hu]; [congruence|].
  assert (uc' = uc) as -> by congruence.
  assert (u = feedback_usecase) as -> by congruence.
  split; [by rewrite Hus; apply rollback_usecases|].
  split; [by rewrite Hads; apply (rollback_adevs _ _ _ _ _ Hd)|].
  rewrite Htr, <- !app_assoc. split; [reflexivity|].
  apply set_value_attempt_mixer, mixer_calls_quiet in H3 as (Ht3 & Hs3 & Hr3).
  apply set_enum_attempt_mixer, mixer_calls_quiet in H4 as (Ht4 & Hs4 & Hr4).
  apply set_enum_attempt_mixer, mixer_calls_quiet in H5 as (Ht5 & Hs5 & Hr5).
  apply set_enum_attempt_mixer, mixer_calls_quiet in Hoff as (Hto & Hso & Hro).
  inversion Hcap as [ | | | |pcm_id p' ret Hid Hret Hc]; subst.
  unfold setup_calls.
  split; [rewrite !elem_of_app, !elem_of_cons; auto|].
  split; [rewrite !elem_of_app, !elem_of_cons, !elem_of_app, !elem_of_cons;
          auto 20|].
  split; [rewrite !elem_of_app, !elem_of_cons; auto 20|].
  split; [|split]; intros;
    rewrite ?snd_device_refs_app, ?audio_route_refs_app, ?started_streams_app,
      ?snd_device_refs_cons, ?audio_route_refs_cons, ?started_streams_cons,
      ?snd_device_refs_app, ?audio_route_refs_app, ?started_streams_app,
      ?snd_device_refs_cons, ?audio_route_refs_cons, ?started_streams_cons,
      ?Ht3, ?Ht4, ?Ht5, ?Hto, ?Hs3, ?Hs4, ?Hs5, ?Hso, ?Hr3, ?Hr4, ?Hr5, ?Hro.
  - pose proof (snd_device_ref_inverse a SND_DEVICE_IN_CAPTURE_VI_FEEDBACK s).
    cbn -[Z.add] in *. lia.
  - pose proof (audio_route_ref_inverse a uc uc0 feedback_usecase feedback_usecase).
    cbn -[Z.add] in *. lia.
  - cbn. lia.
Qed.

(** ** What a call leaves alone *)

(** With a session open, a disable call on a speaker device removes the
    first record of the usecase list that carries the feedback usecase id,
    and only that one: the route logged as reverted is the route of that
    record, no node before it points to a feedback record, the nodes before
    and after it stay on the list in their order, and every other record in
    memory, a second feedback record included, is kept as it is. *)
Theorem disable_removes_first_record tas2562 (a : addr) d devices p uc w :
  adevs w !! a = Some d →
  devices ∈ speaker_devices →
  pcm tas2562 = Some p →
  first_usecase (usecases w) USECASE_AUDIO_SPKR_CALIB_TX (usecase_list d)
  = Some uc →
  ∃ t' w' u off pre post d',
    tas2562_set_feedback (Some tas2562) (Some a) devices false w
    = Some ((0, Some t'), w')
    ∧ pcm t' = None
    ∧ usecases w !! uc = Some u
    ∧ id u = USECASE_AUDIO_SPKR_CALIB_TX
    ∧ trace w'
      = trace w ++ Call_pcm_close p :: off
          ++ [ Call_disable_snd_device a SND_DEVICE_IN_CAPTURE_VI_FEEDBACK;
               Call_get_usecase_from_list a USECASE_AUDIO_SPKR_CALIB_TX (Some uc);
               Call_disable_audio_route a uc u;
               Call_list_remove uc ]
    ∧ set_enum_attempt (mixer d) TAS2562_SMARTPA_ENABLE "DISABLE" off
    ∧ usecase_list d = pre ++ uc :: post
    ∧ (∀ n u0, n ∈ pre → usecases w !! n = Some u0 →
         id u0 ≠ USECASE_AUDIO_SPKR_CALIB_TX)
    ∧ adevs w' !! a = Some d'
    ∧ usecase_list d' = pre ++ post
    ∧ usecases w' !! uc = None
    ∧ (∀ n, n ≠ uc → usecases w' !! n = usecases w !! n).
Proof.
  intros Hd Hsp Hpcm Hfirst.
  destruct (tas2562_stop_feedback_walk (set_adev (Some a) tas2562) a d devices p
              (Some uc) w)
    as (off & tail & us' & ads' & e & Hstop & Hoff & Hclean); try done.
  { by apply find_usecase_first. }
  destruct Hclean as [Hnone|uc' u Hfound Hu]; [congruence|].
  assert (uc' = uc) as -> by congruence.
  destruct (first_usecase_found _ _ _ _ Hfirst) as (_ & u' & Hu' & Hid).
  assert (u' = u) as -> by congruence.
  destruct (first_usecase_split _ _ _ _ Hfirst) as (pre & post & Hlist & Hpre & Hrm).
  eexists _, _, u, off, pre, post, _.
  split; [by rewrite tas2562_set_feedback_unfold, Hstop|].
  cbn [usecases adevs trace].
  do 7 (split; [done|]).
  split; [apply lookup_insert_eq|]. split; [done|].
  split; [apply lookup_delete_eq|]. intros n Hn. by apply lookup_delete_ne.
Qed.

(** Frame.  Whatever its arguments and whatever the platform answers, a
    call of [tas2562_set_feedback] leaves every audio device other than the
    one passed as it is, keeps the mixer and the sound card of the one
    passed, and neither frees nor modifies a usecase record that does not
    carry the feedback usecase id. *)
Theorem set_feedback_frame device (adev' : option addr) devices enable
    w rc device' w' :
  tas2562_set_feedback device adev' devices enable w = Some ((rc, device'), w') →
  (∀ a' : addr, adev' ≠ Some a' → adevs w' !! a' = adevs w !! a')
  ∧ (∀ (a' : addr) d, adevs w !! a' = Some d →
       ∃ d', adevs w' !! a' = Some d'
             ∧ mixer d' = mixer d ∧ snd_card d' = snd_card d)
  ∧ (∀ (n : addr) u, usecases w !! n = Some u →
       id u ≠ USECASE_AUDIO_SPKR_CALIB_TX → usecases w' !! n = Some u).
Proof.
  set (frame := λ (us' : gmap addr audio_usecase) (ads' : gmap addr audio_device),
    (∀ a' : addr, adev' ≠ Some a' → ads' !! a' = adevs w !! a')
    ∧ (∀ (a' : addr) d, adevs w !! a' = Some d →
         ∃ d', ads' !! a' = Some d'
               ∧ mixer d' = mixer d ∧ snd_card d' = snd_card d)
    ∧ (∀ (n : addr) u, usecases w !! n = Some u →
         id u ≠ USECASE_AUDIO_SPKR_CALIB_TX → us' !! n = Some u)).
  intros Hrun. change (frame (usecases w') (adevs w')).
  assert (Hsame : frame (usecases w) (adevs w)).
  { unfold frame. by eauto 10. }
  assert (Hlist : ∀ (a : addr) d l us',
    adev' = Some a → adevs w !! a = Some d →
    (∀ (n : addr) u, usecases w !! n = Some u →
       id u ≠ USECASE_AUDIO_SPKR_CALIB_TX → us' !! n = Some u) →
    frame us' (<[a := {| mixer := mixer d; snd_card := snd_card d;
                        usecase_list := l |}]> (adevs w))).
  { intros a d l us' -> Hd Hus'. split; [|split; [|done] ].
    - intros a' Hne. apply lookup_insert_ne. congruence.
    - intros a' d0 Hd0. destruct (decide (a = a')) as [<-|Hne].
      + rewrite lookup_insert_eq. assert (d0 = d) as -> by congruence.
        by eauto.
      + rewrite lookup_insert_ne by done. by eauto. }
  clearbody frame. revert Hrun.
  destruct adev' as [a|], device as [t|];
    try (by intros [= <- <- <-]).
  rewrite tas2562_set_feedback_unfold. destruct enable.
  - destruct (tas2562_start_feedback _ _ _) as [[[rc0 t0] w0]|] eqn:Hrun; [|done].
    intros [= <- <- <-].
    apply tas2562_start_feedback_inv in Hrun
      as (a0 & d & [= <-] & Hd & [(_ & -> & -> & _)|(_ & _ & _ & Hran)]);
      [done|].
    destruct Hran as (name & s3 & s4 & s5 & cap & [p|] & _ & _ & -> & -> & _);
      [|done].
    cbn [session_usecases session_adevs].
    apply Hlist; [done..|]. intros n u Hu _.
    rewrite lookup_insert_ne; [done|]. intros <-.
    by rewrite fresh_usecase_unused in Hu.
  - destruct (tas2562_stop_feedback _ _ _) as [[[rc0 t0] w0]|] eqn:Hrun; [|done].
    intros [= <- <- <-].
    apply tas2562_stop_feedback_inv in Hrun
      as (a0 & d & [= <-] & Hd & [(_ & -> & -> & _)|(_ & Hran)]);
      [done|].
    destruct Hran as (p & off & tail & _ & _ & _ & _ & _ & Hclean).
    destruct Hclean as [Hnone|uc u Hfirst Hu]; [done|].
    apply Hlist; [done..|]. intros n u0 Hu0 Hid.
    rewrite lookup_delete_ne; [done|]. intros <-.
    apply first_usecase_found in Hfirst as (_ & u1 & Hu1 & Hid1). congruence.
Qed.

(** ** Started streams and the session *)

Lemma set_mode_session_count device (mode : Z) r :
  tas2562_set_mode device mode = Some r →
  session_count r.2 = session_count device.
Proof.
  destruct device as [t|]; [|by intros [= <-] ].
  rewrite tas2562_set_mode_unfold.
  destruct (profile_name _); [|done]. by intros [= <-].
Qed.

Lemma set_feedback_streams device (adev' : option addr) devices enable
    w rc device' w' :
  tas2562_set_feedback device adev' devices enable w = Some ((rc, device'), w') →
  ∃ log, trace w' = trace w ++ log
         ∧ started_streams log = session_count device' - session_count device.
Proof.
  assert (Hquiet : ∀ t : option tas2562_amp_t, trace w' = trace w →
    session_count t = session_count device →
    ∃ log, trace w' = trace w ++ log
           ∧ started_streams log = session_count t - session_count device).
  { intros t -> ->. exists []. split; [by rewrite app_nil_r|cbn; lia]. }
  destruct adev' as [a|], device as [t|];
    try (intros [= <- <- <-]; by apply Hquiet).
  rewrite tas2562_set_feedback_unfold. destruct enable.
  - destruct (tas2562_start_feedback _ _ _) as [[[rc0 t0] w0]|] eqn:Hrun; [|done].
    intros [= <- <- <-].
    apply tas2562_start_feedback_inv in Hrun
      as (a0 & d & _ & _ & [(-> & _ & _ & Htr & _)|(_ & Hpcm & _ & Hran)]);
      [by apply Hquiet|].
    destruct Hran as (name & s3 & s4 & s5 & cap & session & _ & -> & _ & _
                      & Htr & H3 & H4 & H5 & Hcap).
    eexists. split; [exact Htr|].
    apply set_value_attempt_mixer, mixer_calls_quiet in H3 as (Ht3 & _).
    apply set_enum_attempt_mixer, mixer_calls_quiet in H4 as (Ht4 & _).
    apply set_enum_attempt_mixer, mixer_calls_quiet in H5 as (Ht5 & _).
    rewrite !started_streams_app, Ht3, Ht4, Ht5.
    rewrite (capture_run_streams _ _ _ _ _ _ Hcap).
    cbn [set_adev pcm] in Hpcm. unfold setup_calls.
    destruct session; cbn; rewrite Hpcm; done.
  - destruct (tas2562_stop_feedback _ _ _) as [[[rc0 t0] w0]|] eqn:Hrun; [|done].
    intros [= <- <- <-].
    apply tas2562_stop_feedback_inv in Hrun
      as (a0 & d & _ & _ & [(-> & _ & _ & Htr & _)|(_ & Hran)]);
      [by apply Hquiet|].
    destruct Hran as (p & off & tail & Hpcm & _ & -> & Htr & Hoff & Hclean).
    eexists. split; [exact Htr|].
    apply set_enum_attempt_mixer, mixer_calls_quiet in Hoff as (Hto & _).
    rewrite started_streams_cons, started_streams_app, started_streams_cons, Hto.
    cbn [set_adev pcm] in Hpcm.
    destruct Hclean; cbn; rewrite Hpcm; done.
Qed.

Lemma run_ops_streams ops device w device' w' :
  run_ops ops device w = Some (device', w') →
  ∃ log, trace w' = trace w ++ log
         ∧ started_streams log = session_count device' - session_count device.
Proof.
  revert device w. induction ops as [|o ops IH]; intros device w.
  { intros [= <- <-]. exists []. split; [by rewrite app_nil_r|cbn; lia]. }
  cbn [run_ops]. intros (dev1 & w1 & Hop & Hrest)%bind_inv.
  apply IH in Hrest as (log2 & Htr2 & Hn2).
  assert (∃ log1, trace w1 = trace w ++ log1
                  ∧ started_streams log1
                    = session_count dev1 - session_count device)
    as (log1 & Htr1 & Hn1).
  { destruct o as [mode|adev' devices enable]; cbn [run_op] in Hop.
    - destruct (tas2562_set_mode device mode) as [r|] eqn:Hmode; [|done].
      injection Hop as [= <- <-]. exists [].
      split; [by rewrite app_nil_r|].
      rewrite (set_mode_session_count _ _ _ Hmode). cbn. lia.
    - apply bind_inv in Hop as ([rc dev] & w2 & Hrun & [= <- <-]).
      by apply set_feedback_streams in Hrun. }
  exists (log1 ++ log2). rewrite Htr2, Htr1, app_assoc. split; [done|].
  rewrite started_streams_app. lia.
Qed.

(** At most one session.  After any sequence of calls on a device that
    [tas2562_module_open] returned, the calls of [pcm_start] made since the
    open exceed the calls of [pcm_close] by one when the device holds a
    session and by none when it does not: every stream that was started is
    closed again, except the one stored as the session. *)
Theorem started_streams_match_session name ops w rc device w1 device' w2 :
  tas2562_module_open name w = Some ((rc, device), w1) →
  run_ops ops device w1 = Some (device', w2) →
  ∃ log,
    trace w2 = trace w ++ log
    ∧ started_streams log = session_count device'
    ∧ (session_count device' = 0 ∨ session_count device' = 1).
Proof.
  intros Hopen (log & Htr & Hn)%run_ops_streams.
  assert (trace w1 = trace w ∧ session_count device = 0) as [Hw1 Hdev].
  { unfold tas2562_module_open in Hopen.
    destruct (negb (bool_decide _)); [by injection Hopen as [= <- <- <-]|].
    destruct (negb _); by injection Hopen as [= <- <- <-]. }
  exists log. rewrite Htr, Hw1. split; [done|]. split; [lia|].
  destruct device' as [ [pr ad [p|] ]|]; cbn; auto.
Qed.

(** Status and session on the enable path.  An enable call for a speaker
    device that returns 0 leaves a session open, and one that opens a
    session returns 0: the status tells whether a session exists. *)
Theorem enable_status_tells_session tas2562 (a : addr) devices w rc t' w' :
  devices ∈ speaker_devices →
  tas2562_set_feedback (Some tas2562) (Some a) devices true w
  = Some ((rc, Some t'), w') →
  (rc = 0 → is_Some (pcm t'))
  ∧ (pcm tas2562 = None → is_Some (pcm t') → rc = 0)
  ∧ (is_Some (pcm tas2562) → rc = - EINVAL ∧ pcm t' = pcm tas2562).
Proof.
  intros Hsp. rewrite tas2562_set_feedback_unfold.
  destruct (tas2562_start_feedback _ _ _) as [[[rc0 t0] w0]|] eqn:Hrun; [|done].
  intros [= <- <- <-].
  apply tas2562_start_feedback_inv in Hrun
    as (a0 & d & _ & _ & [(-> & _ & _ & _ & Hrc)|(_ & Hpcm & _ & Hran)]).
  - cbn [pcm set_adev] in *.
    destruct Hrc as [[? _]|[(_ & Hbusy & ->)|(_ & Hnone & _ & ->)]]; [done|..].
    + split; [done|]. split; [|done]. intros Hn. rewrite Hn in Hbusy.
      by destruct Hbusy.
    + split; [done|]. split; [|by rewrite Hnone; intros []].
      intros _ Hs. rewrite Hnone in Hs. by destruct Hs.
  - destruct Hran as (name & s3 & s4 & s5 & cap & session & _ & -> & _ & _
                      & _ & _ & _ & _ & Hcap).
    cbn [pcm set_adev] in Hpcm.
    apply capture_run_status in Hcap as [[Hneg ->]|[-> [p ->] ] ];
      cbn [pcm set_pcm set_adev]; rewrite ?Hpcm.
    + split; [lia|]. split; [by intros _ []|by intros []].
    + split; [by eauto|]. split; [done|by intros []].
Qed.

(** ** Modes *)

(** The last recognised mode wins.  On a device whose profile is one of the
    three named ones, two calls of [tas2562_set_mode] in a row are both
    defined; the first one leaves no trace when the mode of the second is
    one of the four case labels, and the second one changes nothing when its
    mode is none of them; on a null handle both return -EINVAL. *)
Theorem set_mode_last_wins device (mode1 mode2 : Z) :
  profile_valid device →
  ∃ once twice,
    tas2562_set_mode device mode1 = Some once
    ∧ tas2562_set_mode once.2 mode2 = Some twice
    ∧ (mode2 ∈ profile_modes → tas2562_set_mode device mode2 = Some twice)
    ∧ (mode2 ∉ profile_modes → twice = once)
    ∧ (device = None → once = (- EINVAL, None) ∧ twice = (- EINVAL, None)).
Proof.
  destruct device as [t|].
  2:{ intros _. by eexists (_, None), _. }
  intros Hp%profile_valid_named.
  pose proof (switched_profile_named mode1 _ Hp) as Hp1.
  eexists _, _. split; [by apply tas2562_set_mode_run|].
  cbn [snd]. split; [by apply tas2562_set_mode_run|].
  rewrite tas2562_set_mode_run by done.
  destruct t as [pr ad pc]. cbn [set_profile profile adev pcm] in *.
  unfold profile_modes. rewrite !not_elem_of_cons, !elem_of_cons, elem_of_nil.
  unfold switched_profile. cbn [set_profile profile adev pcm].
  split; [|split; [|done] ].
  - intros Hin.
    repeat (case_bool_decide; cbn [orb]);
      try done; destruct Hin as [?|[?|[?|[?|[]]]]]; congruence.
  - intros (Hn & Hr & Hc & Hm & _).
    by rewrite !(bool_decide_eq_false_2 (mode2 = _)) by done.
Qed.

(** The profile sent to the mixer is the one of the last recognised mode.
    On an enable call that follows [tas2562_set_mode], the name offered to
    the profile control is MUSIC after NORMAL, RING after RINGTONE, VOICE
    after IN_CALL or IN_COMMUNICATION, and the name of the profile of before
    after any other mode, and it is the first enumerated value that the call
    sets. *)
Theorem enable_uses_latest_mode tas2562 (a : addr) d devices (mode : Z) w :
  NoDup profile_modes →
  adevs w !! a = Some d →
  devices ∈ speaker_devices →
  pcm tas2562 = None →
  profile tas2562 ≠ PROFILE_NONE →
  (ext_calloc (ext w)).1 = true →
  ∃ t1 rc t' w' before s4 after name,
    tas2562_set_mode (Some tas2562) mode = Some (0, Some t1)
    ∧ tas2562_set_feedback (Some t1) (Some a) devices true w
      = Some ((rc, Some t'), w')
    ∧ trace w' = trace w ++ before ++ s4 ++ after
    ∧ set_enum_attempt (mixer d) TAS2562_ALGO_PROFILE name s4
    ∧ Forall (λ c, ∀ ctl value ret,
                c ≠ Call_mixer_ctl_set_enum_by_string ctl value ret) before
    ∧ (mode = AUDIO_MODE_NORMAL → name = "MUSIC")
    ∧ (mode = AUDIO_MODE_RINGTONE → name = "RING")
    ∧ (mode = AUDIO_MODE_IN_CALL ∨ mode = AUDIO_MODE_IN_COMMUNICATION →
       name = "VOICE")
    ∧ (mode ∉ profile_modes → profile_name (profile tas2562) = Some name).
Proof.
  unfold profile_modes. rewrite !NoDup_cons, !not_elem_of_cons.
  intros ((Hnr & Hnc & Hnm & _) & (Hrc & Hrm & _) & _) Hd Hsp Hpcm Hprof Hok.
  pose proof (tas2562_set_mode_run tas2562 mode Hprof) as Hmode.
  set (t1 := set_profile (switched_profile mode (profile tas2562)) tas2562) in *.
  assert (pcm t1 = None ∧ profile t1 ≠ PROFILE_NONE
          ∧ (mode = AUDIO_MODE_NORMAL → profile t1 = PROFILE_MUSIC)
          ∧ (mode = AUDIO_MODE_RINGTONE → profile t1 = PROFILE_RING)
          ∧ (mode = AUDIO_MODE_IN_CALL ∨ mode = AUDIO_MODE_IN_COMMUNICATION →
             profile t1 = PROFILE_VOICE)
          ∧ (mode ∉ profile_modes → profile t1 = profile tas2562))
    as (Hpcm1 & Hprof1 & Hm1 & Hm2 & Hm3 & Hm4).
  { subst t1. cbn [set_profile pcm profile]. split; [done|].
    split; [by apply switched_profile_named|].
    unfold profile_modes. rewrite !not_elem_of_cons. unfold switched_profile.
    repeat case_bool_decide; cbn [orb];
      repeat split; try done; try congruence; try tauto.
    all: intros [?|?]; congruence. }
  destruct (profile_name_valid _ Hprof1) as (name & Hname & Hval).
  destruct (tas2562_start_feedback_run (set_adev (Some a) t1) a d devices name w)
    as (s3 & s4 & s5 & cap & rc & session & e & Hrun & H3 & H4 & H5 & Hcap);
    try done.
  eexists t1, rc, _, _, (setup_calls a (fresh (dom (usecases w))) ++ s3), s4,
    (s5 ++ cap), name.
  split; [done|].
  split; [by rewrite tas2562_set_feedback_unfold, Hrun|].
  cbn [trace]. split; [by rewrite <- !app_assoc|]. split; [done|].
  split.
  { apply Forall_app. split; [by repeat constructor|].
    destruct H3; by repeat constructor. }
  rewrite Hval. repeat split.
  - intros Hm. by rewrite (Hm1 Hm).
  - intros Hm. by rewrite (Hm2 Hm).
  - intros Hm. by rewrite (Hm3 Hm).
  - intros Hm. rewrite <- (Hm4 Hm). by rewrite Hname, Hval.
Qed.

(** ** The mixer helpers and the open call *)

(** The two mixer helpers look the control up by name and, when it exists,
    set it once ([tas2562_mixer_set_value] at index 0) and return the status
    of that call as it is, negative or not; when it does not exist they
    return -EINVAL and set nothing.  They touch no memory. *)
Theorem mixer_helpers_status (m : addr) (name value : string) (v : Z) w :
  (∃ r w' log,
     tas2562_mixer_set_enum_by_string m name value w = Some (r, w')
     ∧ usecases w' = usecases w ∧ adevs w' = adevs w
     ∧ trace w' = trace w ++ log
     ∧ (log = [Call_mixer_get_ctl_by_name m name None] ∧ r = - EINVAL
        ∨ ∃ ctl, log = [ Call_mixer_get_ctl_by_name m name (Some ctl);
                         Call_mixer_ctl_set_enum_by_string ctl value r ]))
  ∧ (∃ r w' log,
       tas2562_mixer_set_value m name v w = Some (r, w')
       ∧ usecases w' = usecases w ∧ adevs w' = adevs w
       ∧ trace w' = trace w ++ log
       ∧ (log = [Call_mixer_get_ctl_by_name m name None] ∧ r = - EINVAL
          ∨ ∃ ctl, log = [ Call_mixer_get_ctl_by_name m name (Some ctl);
                           Call_mixer_ctl_set_value ctl 0 v r ])).
Proof.
  split.
  - unfold tas2562_mixer_set_enum_by_string, mixer_get_ctl_by_name,
      mixer_ctl_set_enum_by_string, external, mbind, M_bind, mret, M_ret.
    destruct (ext_mixer_get_ctl_by_name m name (ext w)) as [[ctl|] e]; cbn.
    + destruct (ext_mixer_ctl_set_enum_by_string ctl value e) as [ret e'].
      cbn. eexists ret, _, _. split; [by destruct (ret <? 0)|].
      cbn. rewrite <- app_assoc. by eauto 10.
    + eexists _, _, _. split; [done|]. cbn. by eauto 10.
  - unfold tas2562_mixer_set_value, mixer_get_ctl_by_name,
      mixer_ctl_set_value, external, mbind, M_bind, mret, M_ret.
    destruct (ext_mixer_get_ctl_by_name m name (ext w)) as [[ctl|] e]; cbn.
    + destruct (ext_mixer_ctl_set_value ctl 0 v e) as [ret e'].
      cbn. eexists ret, _, _. split; [by destruct (ret <? 0)|].
      cbn. rewrite <- app_assoc. by eauto 10.
    + eexists _, _, _. split; [done|]. cbn. by eauto 10.
Qed.

(** [tas2562_module_open] returns a handle exactly when it returns 0.  A
    name other than the amplifier interface name gives -ENODEV before any
    allocation; the interface name gives -ENOMEM when the allocation fails.
    No call is made and no record is touched.  The device that a successful
    open returns holds no session and no audio device, so that a disable
    call on it for a speaker device returns -EINVAL and changes nothing. *)
Theorem module_open_outcomes (name : string) w :
  ∃ rc device w',
    tas2562_module_open name w = Some ((rc, device), w')
    ∧ usecases w' = usecases w ∧ adevs w' = adevs w ∧ trace w' = trace w
    ∧ (rc = 0 ↔ is_Some device)
    ∧ (name ≠ AMPLIFIER_HARDWARE_INTERFACE →
       rc = - ENODEV ∧ device = None ∧ w' = w)
    ∧ (name = AMPLIFIER_HARDWARE_INTERFACE →
       ext w' = (ext_calloc (ext w)).2
       ∧ ((ext_calloc (ext w)).1 = false → rc = - ENOMEM ∧ device = None)
       ∧ ((ext_calloc (ext w)).1 = true → rc = 0))
    ∧ (∀ tas2562, device = Some tas2562 →
         adev tas2562 = None ∧ pcm tas2562 = None
         ∧ ∀ (a : addr) d devices,
             adevs w' !! a = Some d → devices ∈ speaker_devices →
             tas2562_set_feedback device (Some a) devices false w'
             = Some ((- EINVAL, Some (set_adev (Some a) tas2562)), w')).
Proof.
  unfold tas2562_module_open. case_bool_decide as Hname; cbn [negb].
  2:{ eexists _, _, _. split; [reflexivity|]. do 3 (split; [done|]).
      split; [split; [done|by intros []]|]. by repeat split. }
  destruct (ext_calloc (ext w)) as [ok e] eqn:Hcalloc. cbn [fst snd].
  destruct ok; cbn [negb]; eexists _, _, _; (split; [reflexivity|]);
    cbn [usecases adevs trace ext]; do 3 (split; [done|]).
  - split; [by eauto|]. split; [done|]. split; [by repeat split|].
    intros t [= <-]. do 2 (split; [done|]). intros a d devices Hd Hsp.
    by apply (set_feedback_disable_closed _ a d).
  - split; [split; [done|by intros []]|]. split; [done|].
    split; [by repeat split|]. done.
Qed.

(** The audio-device pointer is bound before anything is checked.  Every
    call of [tas2562_set_feedback] with two non-null handles leaves the
    device pointing to the audio device passed, whatever it returns: also a
    call for a device that is no speaker, and a call that fails.  The
    profile is never changed. *)
Theorem set_feedback_binds_adev tas2562 (a : addr) devices enable w rc device' w' :
  tas2562_set_feedback (Some tas2562) (Some a) devices enable w
  = Some ((rc, device'), w') →
  ∃ t', device' = Some t'
        ∧ adev t' = Some a
        ∧ profile t' = profile tas2562.
Proof.
  rewrite tas2562_set_feedback_unfold. destruct enable.
  - destruct (tas2562_start_feedback _ _ _) as [[[rc0 t0] w0]|] eqn:Hrun; [|done].
    intros [= <- <- <-]. exists t0. split; [done|].
    apply tas2562_start_feedback_inv in Hrun
      as (a0 & d & _ & _ & [(-> & _)|(_ & _ & _ & Hran)]); [done|].
    destruct Hran as (name & s3 & s4 & s5 & cap & session & _ & -> & _).
    by destruct session.
  - destruct (tas2562_stop_feedback _ _ _) as [[[rc0 t0] w0]|] eqn:Hrun; [|done].
    intros [= <- <- <-]. exists t0. split; [done|].
    apply tas2562_stop_feedback_inv in Hrun
      as (a0 & d & _ & _ & [(-> & _)|(_ & Hran)]); [done|].
    by destruct Hran as (p & off & tail & _ & _ & -> & _).
Qed.

End Amplifier.

(** ** The mixer does not decide the result *)

Section Blind.
Context {E1 E2 : Type} `{hal_headers}.
Context (P1 : audio_platform E1) (P2 : audio_platform E2) (R : E1 → E2 → Prop).
Hypothesis Hblind : mixer_blind R P1 P2.

Lemma same_ret {A} (x : A) (w1 : world E1) (w2 : world E2) :
  world_rel R w1 w2 →
  same_outcome R (mret (M:=M E1) x w1) (mret (M:=M E2) x w2).
Proof. by intros Hw. Qed.

Lemma same_bind {A B} (m1 : M E1 A) (m2 : M E2 A)
    (f1 : A → M E1 B) (f2 : A → M E2 B) w1 w2 :
  same_outcome R (m1 w1) (m2 w2) →
  (∀ x w1' w2', world_rel R w1' w2' → same_outcome R (f1 x w1') (f2 x w2')) →
  same_outcome R ((m1 ≫= f1) w1) ((m2 ≫= f2) w2).
Proof.
  unfold mbind, M_bind, same_outcome at 1.
  destruct (m1 w1) as [[x1 w1']|], (m2 w2) as [[x2 w2']|]; try done.
  intros [-> Hw] Hf. by apply Hf.
Qed.

(** A step whose result is dropped on both sides. *)
Lemma blind_bind {A1 A2 B} (m1 : M E1 A1) (m2 : M E2 A2)
    (k1 : M E1 B) (k2 : M E2 B) w1 w2 :
  (∃ x1 w1' x2 w2',
     m1 w1 = Some (x1, w1') ∧ m2 w2 = Some (x2, w2') ∧ world_rel R w1' w2') →
  (∀ w1' w2', world_rel R w1' w2' → same_outcome R (k1 w1') (k2 w2')) →
  same_outcome R ((m1 ≫= λ _, k1) w1) ((m2 ≫= λ _, k2) w2).
Proof.
  intros (x1 & w1' & x2 & w2' & Hm1 & Hm2 & Hw) Hk.
  rewrite (bind_run _ _ _ _ _ Hm1), (bind_run _ _ _ _ _ Hm2). by apply Hk.
Qed.

Lemma same_load_adev (a : addr) w1 w2 :
  world_rel R w1 w2 → same_outcome R (load_adev a w1) (load_adev a w2).
Proof.
  intros (Hu & Ha & He). unfold load_adev. rewrite Ha.
  by destruct (adevs w2 !! a).
Qed.

Lemma same_load_usecase (uc : addr) w1 w2 :
  world_rel R w1 w2 → same_outcome R (load_usecase uc w1) (load_usecase uc w2).
Proof.
  intros (Hu & Ha & He). unfold load_usecase. rewrite Hu.
  by destruct (usecases w2 !! uc).
Qed.

Lemma same_store_usecase (uc : addr) u w1 w2 :
  world_rel R w1 w2 →
  same_outcome R (store_usecase uc u w1) (store_usecase uc u w2).
Proof.
  intros (Hu & Ha & He). unfold store_usecase. rewrite Hu.
  destruct (usecases w2 !! uc); [|done]. by repeat split.
Qed.

Lemma same_free_usecase (uc : addr) w1 w2 :
  world_rel R w1 w2 → same_outcome R (free_usecase uc w1) (free_usecase uc w2).
Proof.
  intros (Hu & Ha & He). unfold free_usecase. rewrite Hu.
  destruct (usecases w2 !! uc); [|done]. by repeat split.
Qed.

Lemma same_list_add_head (a uc : addr) w1 w2 :
  world_rel R w1 w2 →
  same_outcome R (list_add_head a uc w1) (list_add_head a uc w2).
Proof.
  intros (Hu & Ha & He). unfold list_add_head. rewrite Ha.
  destruct (adevs w2 !! a); [|done]. by repeat split.
Qed.

Lemma same_list_remove (a uc : addr) w1 w2 :
  world_rel R w1 w2 →
  same_outcome R (list_remove a uc w1) (list_remove a uc w2).
Proof.
  intros (Hu & Ha & He). unfold list_remove. rewrite Ha.
  destruct (adevs w2 !! a); [|done]. by repeat split.
Qed.

Lemma same_external {A} (f1 : E1 → A * E1) (f2 : E2 → A * E2) ev w1 w2 :
  same_answer R f1 f2 → world_rel R w1 w2 →
  same_outcome R (external f1 ev w1) (external f2 ev w2).
Proof.
  intros Hf (Hu & Ha & He). destruct (Hf _ _ He) as [Hx He'].
  unfold external, same_outcome, world_rel. by cbn.
Qed.

Lemma same_external_ (f1 : E1 → E1) (f2 : E2 → E2) ev w1 w2 :
  same_effect R f1 f2 → world_rel R w1 w2 →
  same_outcome R (external_ f1 ev w1) (external_ f2 ev w2).
Proof.
  intros Hf (Hu & Ha & He). specialize (Hf _ _ He).
  unfold external_, same_outcome, world_rel. by cbn.
Qed.

Lemma same_calloc_usecase w1 w2 :
  world_rel R w1 w2 →
  same_outcome R (@calloc_usecase E1 P1 w1) (@calloc_usecase E2 P2 w2).
Proof.
  intros (Hu & Ha & He).
  destruct (blind_calloc _ _ _ Hblind _ _ He) as [Hx He'].
  unfold calloc_usecase, same_outcome, world_rel. rewrite Hx, Hu.
  by destruct (ext_calloc (ext w2)).1.
Qed.

Lemma same_audio_route (enable : bool) (a uc : addr) w1 w2 :
  world_rel R w1 w2 →
  same_outcome R
    ((if enable then @enable_audio_route E1 P1 a uc
      else @disable_audio_route E1 P1 a uc) w1)
    ((if enable then @enable_audio_route E2 P2 a uc
      else @disable_audio_route E2 P2 a uc) w2).
Proof.
  intros Hw. destruct enable.
  - apply same_bind; [by apply same_load_usecase|]. intros u w1' w2' Hw'.
    apply same_external_; [|done]. apply Hblind.
  - apply same_bind; [by apply same_load_usecase|]. intros u w1' w2' Hw'.
    apply same_external_; [|done]. apply Hblind.
Qed.

(** The mixer helpers run on both sides and keep the worlds related; their
    results need not agree. *)
Lemma mixer_set_enum_blind (m : addr) name value w1 w2 :
  world_rel R w1 w2 →
  ∃ x1 w1' x2 w2',
    @tas2562_mixer_set_enum_by_string E1 P1 m name value w1 = Some (x1, w1')
    ∧ @tas2562_mixer_set_enum_by_string E2 P2 m name value w2 = Some (x2, w2')
    ∧ world_rel R w1' w2'.
Proof.
  intros (Hu & Ha & He).
  unfold tas2562_mixer_set_enum_by_string, mixer_get_ctl_by_name,
    mixer_ctl_set_enum_by_string, external, mbind, M_bind, mret, M_ret.
  cbn [usecases adevs trace ext].
  pose proof (blind_get_ctl _ _ _ Hblind m name m name _ _ He) as [Hl _].
  pose proof (blind_get_ctl _ _ _ Hblind m name m name _ _ Hl) as [_ Hg].
  destruct (@ext_mixer_get_ctl_by_name E1 P1 m name (ext w1)) as [[c1|] e1],
    (@ext_mixer_get_ctl_by_name E2 P2 m name (ext w2)) as [[c2|] e2];
    cbn [fst snd] in *.
  - pose proof (blind_set_enum _ _ _ Hblind c1 value c2 value _ _ Hg) as [Hl' _].
    pose proof (blind_set_enum _ _ _ Hblind c1 value c2 value _ _ Hl') as [_ Hs].
    destruct (_ <? 0), (_ <? 0); by eexists _, _, _, _.
  - pose proof (blind_set_enum _ _ _ Hblind c1 value c1 value _ _ Hg) as [Hl' _].
    destruct (_ <? 0); by eexists _, _, _, _.
  - pose proof (blind_set_enum _ _ _ Hblind c2 value c2 value _ _ Hg) as [_ Hr'].
    destruct (_ <? 0); by eexists _, _, _, _.
  - by eexists _, _, _, _.
Qed.

Lemma mixer_set_value_blind (m : addr) name value w1 w2 :
  world_rel R w1 w2 →
  ∃ x1 w1' x2 w2',
    @tas2562_mixer_set_value E1 P1 m name value w1 = Some (x1, w1')
    ∧ @tas2562_mixer_set_value E2 P2 m name value w2 = Some (x2, w2')
    ∧ world_rel R w1' w2'.
Proof.
  intros (Hu & Ha & He).
  unfold tas2562_mixer_set_value, mixer_get_ctl_by_name,
    mixer_ctl_set_value, external, mbind, M_bind, mret, M_ret.
  cbn [usecases adevs trace ext].
  pose proof (blind_get_ctl _ _ _ Hblind m name m name _ _ He) as [Hl _].
  pose proof (blind_get_ctl _ _ _ Hblind m name m name _ _ Hl) as [_ Hg].
  destruct (@ext_mixer_get_ctl_by_name E1 P1 m name (ext w1)) as [[c1|] e1],
    (@ext_mixer_get_ctl_by_name E2 P2 m name (ext w2)) as [[c2|] e2];
    cbn [fst snd] in *.
  - pose proof (blind_set_value _ _ _ Hblind c1 0 value c2 0 value _ _ Hg)
      as [Hl' _].
    pose proof (blind_set_value _ _ _ Hblind c1 0 value c2 0 value _ _ Hl')
      as [_ Hs].
    destruct (_ <? 0), (_ <? 0); by eexists _, _, _, _.
  - pose proof (blind_set_value _ _ _ Hblind c1 0 value c1 0 value _ _ Hg)
      as [Hl' _].
    destruct (_ <? 0); by eexists _, _, _, _.
  - pose proof (blind_set_value _ _ _ Hblind c2 0 value c2 0 value _ _ Hg)
      as [_ Hr'].
    destruct (_ <? 0); by eexists _, _, _, _.
  - by eexists _, _, _, _.
Qed.

Ltac blind_prim :=
  first
    [ by apply same_ret
    | by apply same_load_adev
    | by apply same_load_usecase
    | by apply same_store_usecase
    | by apply same_free_usecase
    | by apply same_list_add_head
    | by apply same_list_remove
    | by apply same_calloc_usecase
    | by apply (same_audio_route true)
    | by apply (same_audio_route false)
    | apply same_external; [apply Hblind|done]
    | apply same_external_; [apply Hblind|done] ].

Ltac blind_step :=
  lazymatch goal with
  | |- same_outcome _ (mret _ _) (mret _ _) => by apply same_ret
  | |- same_outcome _ (undefined _) (undefined _) => exact I
  | |- same_outcome _ ((tas2562_mixer_set_value _ _ _ ≫= _) _) _ =>
      apply blind_bind; [by apply mixer_set_value_blind|intros ? ? ?]
  | |- same_outcome _ ((tas2562_mixer_set_enum_by_string _ _ _ ≫= _) _) _ =>
      apply blind_bind; [by apply mixer_set_enum_blind|intros ? ? ?]
  | |- same_outcome _ ((_ ≫= _) _) ((_ ≫= _) _) =>
      apply same_bind; [blind_prim|intros ? ? ? ?]
  | |- same_outcome _ (match ?x with _ => _ end _) _ => destruct x
  | |- same_outcome _ _ _ => blind_prim
  end.

Lemma err_no_pcm_blind tas2562 (a m uc : addr) rc w1 w2 :
  world_rel R w1 w2 →
  same_outcome R (@err_no_pcm E1 _ P1 tas2562 a m uc rc w1)
                 (@err_no_pcm E2 _ P2 tas2562 a m uc rc w2).
Proof. intros Hw. unfold err_no_pcm. repeat blind_step. Qed.

Lemma tas2562_start_feedback_blind tas2562 devices w1 w2 :
  world_rel R w1 w2 →
  same_outcome R (@tas2562_start_feedback E1 _ P1 tas2562 devices w1)
                 (@tas2562_start_feedback E2 _ P2 tas2562 devices w2).
Proof.
  intros Hw. unfold tas2562_start_feedback, err_pcm_start.
  repeat first [by apply err_no_pcm_blind | blind_step].
Qed.

Lemma tas2562_set_feedback_blind device (adev' : option addr) devices w1 w2 :
  world_rel R w1 w2 →
  same_outcome R (@tas2562_set_feedback E1 _ P1 device adev' devices true w1)
                 (@tas2562_set_feedback E2 _ P2 device adev' devices true w2).
Proof.
  intros Hw. unfold tas2562_set_feedback.
  destruct adev' as [a|], device as [t|]; try by apply same_ret.
  apply same_bind; [by apply tas2562_start_feedback_blind|].
  intros [rc t'] w1' w2' Hw'. by apply same_ret.
Qed.

End Blind.

(** C10. The mixer steps of the enable path do not decide its result.  On
    two platforms that answer alike outside the mixer, and arbitrarily
    inside it, an enable call with the same arguments on the same memory
    returns the same status and leaves the same device record and the same
    memory (or is undefined on both).  And when memory, the PCM device id
    and the capture stream are available, the call returns 0 with the
    session open, whatever the mixer answers, be every mixer control
    missing. *)
Theorem enable_result_ignores_mixer `{hal_headers} :
  (∀ (E1 E2 : Type) (P1 : audio_platform E1) (P2 : audio_platform E2)
     (R : E1 → E2 → Prop),
     mixer_blind R P1 P2 →
     ∀ device adev' devices (w1 : world E1) (w2 : world E2),
       world_rel R w1 w2 →
       same_outcome R
         (@tas2562_set_feedback E1 _ P1 device adev' devices true w1)
         (@tas2562_set_feedback E2 _ P2 device adev' devices true w2))
  ∧ (∀ (E : Type) (P : audio_platform E) tas2562 (a : addr) d devices
       (w : world E),
       adevs w !! a = Some d →
       devices ∈ speaker_devices →
       pcm tas2562 = None →
       profile tas2562 ≠ PROFILE_NONE →
       (ext_calloc (ext w)).1 = true →
       (∀ uc_id device_type e,
          0 ≤ (ext_platform_get_pcm_device_id uc_id device_type e).1) →
       (∀ card device flags config e,
          is_Some (ext_pcm_open card device flags config e).1) →
       (∀ p e, (ext_pcm_is_ready p e).1 = true) →
       (∀ p e, 0 ≤ (ext_pcm_start p e).1) →
       ∃ p t' w',
         tas2562_set_feedback (Some tas2562) (Some a) devices true w
         = Some ((0, Some t'), w')
         ∧ pcm t' = Some p).
Proof.
  split.
  - intros E1 E2 P1 P2 R Hblind device adev' devices w1 w2 Hw.
    by apply tas2562_set_feedback_blind.
  - intros E P tas2562 a d devices w Hd Hsp Hpcm
      (name & Hname & _)%profile_name_valid Hok Hid Hopen Hready Hstart.
    destruct (tas2562_start_feedback_succeeds (set_adev (Some a) tas2562)
                a d devices name w) as (p & w' & Hrun); try done.
    rewrite tas2562_set_feedback_unfold, Hrun. by eexists p, _, _.
Qed.

(** ** Runs on the scripted platform *)

Lemma sample_speaker : 2 ∈ @speaker_devices sample_headers.
Proof. apply (bool_decide_unpack _). vm_compute. exact I. Qed.

(** A stream that is not ready: the enable call returns -EIO after the
    rollback, and the log shows every call.  Stream 5, which [pcm_open]
    returned, is not closed. *)
Example enable_not_ready_run :
  @tas2562_set_feedback unit sample_headers (scripted script_not_ready)
    (Some sample_amp) (Some 1%positive) 2 true sample_world
  = Some ((- EIO, Some (set_adev (Some 1%positive) sample_amp)),
          World ∅ {[ 1%positive := sample_device ]}
            [ Call_list_add_head 1 1;
              Call_enable_snd_device 1 100;
              Call_enable_audio_route 1 1 (@feedback_usecase sample_headers);
              Call_mixer_get_ctl_by_name 7 "TAS2562_SET_SPKID_LEFT" (Some 9%positive);
              Call_mixer_ctl_set_value 9 0 0 0;
              Call_mixer_get_ctl_by_name 7 "TAS2562_ALGO_PROFILE" (Some 9%positive);
              Call_mixer_ctl_set_enum_by_string 9 "MUSIC" 0;
              Call_mixer_get_ctl_by_name 7 "TAS2562_SMARTPA_ENABLE" (Some 9%positive);
              Call_mixer_ctl_set_enum_by_string 9 "ENABLE" 0;
              Call_platform_get_pcm_device_id 40 1 35;
              Call_pcm_open 0 35 268435456 (@tas2562_pcm_config sample_headers)
                (Some 5%positive);
              Call_pcm_is_ready 5 false;
              Call_mixer_get_ctl_by_name 7 "TAS2562_SMARTPA_ENABLE" (Some 9%positive);
              Call_mixer_ctl_set_enum_by_string 9 "DISABLE" 0;
              Call_disable_audio_route 1 1 (@feedback_usecase sample_headers);
              Call_disable_snd_device 1 100;
              Call_list_remove 1 ] tt).
Proof. vm_compute. reflexivity. Qed.

(** The enable call when everything succeeds: the log shows the steps in
    their order, the new record (at address 4) is at the head of the
    usecase list, and the session is stream 5. *)
Example enable_ok_run :
  @tas2562_set_feedback unit sample_headers (scripted script_ok)
    (Some sample_amp) (Some 1%positive) 2 true busy_world
  = Some ((0, Some {| profile := PROFILE_MUSIC; adev := Some 1%positive;
                      pcm := Some 5%positive |}),
          World (<[ 4%positive := @feedback_usecase sample_headers ]>
                   (usecases busy_world))
            {[ 1%positive := {| mixer := 7%positive; snd_card := 0;
                                usecase_list := [4%positive; 3%positive] |} ]}
            [ Call_list_add_head 1 4;
              Call_enable_snd_device 1 100;
              Call_enable_audio_route 1 4 (@feedback_usecase sample_headers);
              Call_mixer_get_ctl_by_name 7 "TAS2562_SET_SPKID_LEFT" (Some 9%positive);
              Call_mixer_ctl_set_value 9 0 0 0;
              Call_mixer_get_ctl_by_name 7 "TAS2562_ALGO_PROFILE" (Some 9%positive);
              Call_mixer_ctl_set_enum_by_string 9 "MUSIC" 0;
              Call_mixer_get_ctl_by_name 7 "TAS2562_SMARTPA_ENABLE" (Some 9%positive);
              Call_mixer_ctl_set_enum_by_string 9 "ENABLE" 0;
              Call_platform_get_pcm_device_id 40 1 35;
              Call_pcm_open 0 35 268435456 (@tas2562_pcm_config sample_headers)
                (Some 5%positive);
              Call_pcm_is_ready 5 true;
              Call_pcm_start 5 0 ] tt).
Proof. vm_compute. reflexivity. Qed.

(** Disable with a session open and no feedback record on the list: the
    call returns 0 and the record of the other usecase stays. *)
Example disable_without_record_run :
  @tas2562_set_feedback unit sample_headers (scripted script_ok)
    (Some sample_amp_open) (Some 1%positive) 2 false busy_world
  = Some ((0, Some {| profile := PROFILE_VOICE; adev := Some 1%positive;
                      pcm := None |}),
          World (usecases busy_world) (adevs busy_world)
            [ Call_pcm_close 5;
              Call_mixer_get_ctl_by_name 7 "TAS2562_SMARTPA_ENABLE" (Some 9%positive);
              Call_mixer_ctl_set_enum_by_string 9 "DISABLE" 0;
              Call_disable_snd_device 1 100;
              Call_get_usecase_from_list 1 40 None ] tt).
Proof. vm_compute. reflexivity. Qed.

(** Enable, then disable: the session is opened on stream 5 and closed
    again, and memory is as at the start. *)
Example enable_then_disable_run :
  ∃ t1 w1 t2 w2,
    @tas2562_set_feedback unit sample_headers (scripted script_ok)
      (Some sample_amp) (Some 1%positive) 2 true sample_world
    = Some ((0, Some t1), w1)
    ∧ pcm t1 = Some 5%positive
    ∧ usecase_list <$> adevs w1 !! 1%positive = Some [1%positive]
    ∧ @tas2562_set_feedback unit sample_headers (scripted script_ok)
        (Some t1) (Some 1%positive) 2 false w1
      = Some ((0, Some t2), w2)
    ∧ pcm t2 = None
    ∧ usecases w2 = usecases sample_world
    ∧ adevs w2 = adevs sample_world.
Proof. do 4 eexists. vm_compute. repeat split; reflexivity. Qed.

Lemma set_feedback_non_speaker_witness :
  ∃ t',
    @tas2562_set_feedback unit sample_headers (scripted script_ok)
      (Some sample_amp) (Some 1%positive) 5 true sample_world
    = Some ((0, Some t'), sample_world)
    ∧ t' = set_adev (Some 1%positive) sample_amp
    ∧ pcm t' = pcm sample_amp ∧ profile t' = profile sample_amp
    ∧ (adev sample_amp = Some 1%positive → t' = sample_amp).
Proof.
  apply (@set_feedback_non_speaker unit sample_headers (scripted script_ok)
           sample_amp 1%positive sample_device 5 true sample_world).
  - reflexivity.
  - apply (bool_decide_unpack _). vm_compute. exact I.
Defined.

Lemma set_feedback_enable_twice_witness :
  ∃ t',
    @tas2562_set_feedback unit sample_headers (scripted script_ok)
      (Some sample_amp_open) (Some 1%positive) 2 true sample_world
    = Some ((- EINVAL, Some t'), sample_world)
    ∧ t' = set_adev (Some 1%positive) sample_amp_open
    ∧ pcm t' = Some 5%positive ∧ profile t' = profile sample_amp_open
    ∧ (adev sample_amp_open = Some 1%positive → t' = sample_amp_open).
Proof.
  apply (@set_feedback_enable_twice unit sample_headers (scripted script_ok)
           sample_amp_open 1%positive sample_device 2 5%positive sample_world).
  - reflexivity.
  - apply (bool_decide_unpack _). vm_compute. exact I.
  - reflexivity.
Defined.

Lemma set_feedback_disable_twice_witness :
  (pcm sample_amp = None →
   ∃ t',
     @tas2562_set_feedback unit sample_headers (scripted script_ok)
       (Some sample_amp) (Some 1%positive) 2 false sample_world
     = Some ((- EINVAL, Some t'), sample_world)
     ∧ t' = set_adev (Some 1%positive) sample_amp
     ∧ pcm t' = None ∧ profile t' = profile sample_amp
     ∧ (adev sample_amp = Some 1%positive → t' = sample_amp))
  ∧ (@usecase_list_live (usecases sample_world) sample_device →
     ∃ rc t1 w1,
       @tas2562_set_feedback unit sample_headers (scripted script_ok)
         (Some sample_amp) (Some 1%positive) 2 false sample_world
       = Some ((rc, Some t1), w1)
       ∧ @tas2562_set_feedback unit sample_headers (scripted script_ok)
           (Some t1) (Some 1%positive) 2 false w1
         = Some ((- EINVAL, Some t1), w1)).
Proof.
  apply (@set_feedback_disable_twice unit sample_headers (scripted script_ok)
           sample_amp 1%positive sample_device 2 sample_world).
  - reflexivity.
  - apply (bool_decide_unpack _). vm_compute. exact I.
Defined.

Lemma set_feedback_disable_lenient_witness :
  ∃ t' w' off tail,
    @tas2562_set_feedback unit sample_headers (scripted script_ok)
      (Some sample_amp_open) (Some 1%positive) 2 false busy_world
    = Some ((0, Some t'), w')
    ∧ pcm t' = None
    ∧ trace w'
      = trace busy_world ++ Call_pcm_close 5 :: off
          ++ Call_disable_snd_device 1
               (@SND_DEVICE_IN_CAPTURE_VI_FEEDBACK sample_headers) :: tail
    ∧ set_enum_attempt (mixer busy_device) TAS2562_SMARTPA_ENABLE "DISABLE" off
    ∧ (@usecase_absent (usecases busy_world) busy_device
         (@USECASE_AUDIO_SPKR_CALIB_TX sample_headers) →
       tail = [Call_get_usecase_from_list 1
                 (@USECASE_AUDIO_SPKR_CALIB_TX sample_headers) None]
       ∧ usecases w' = usecases busy_world
       ∧ adevs w' = adevs busy_world).
Proof.
  apply (@set_feedback_disable_lenient unit sample_headers (scripted script_ok)
           sample_amp_open 1%positive busy_device 2 5%positive busy_world).
  - reflexivity.
  - repeat constructor. vm_compute. eauto.
  - apply (bool_decide_unpack _). vm_compute. exact I.
  - reflexivity.
Defined.

Lemma set_mode_mapping_witness :
  ∃ t',
    @tas2562_set_mode sample_headers (Some sample_amp) 1 = Some (0, Some t')
    ∧ adev t' = adev sample_amp
    ∧ pcm t' = pcm sample_amp
    ∧ (1 = @AUDIO_MODE_NORMAL sample_headers → profile t' = PROFILE_MUSIC)
    ∧ (1 = @AUDIO_MODE_RINGTONE sample_headers → profile t' = PROFILE_RING)
    ∧ (1 = @AUDIO_MODE_IN_CALL sample_headers
       ∨ 1 = @AUDIO_MODE_IN_COMMUNICATION sample_headers →
       profile t' = PROFILE_VOICE)
    ∧ (1 ∉ @profile_modes sample_headers → profile t' = profile sample_amp).
Proof.
  apply (@set_mode_mapping sample_headers sample_amp 1).
  - apply (bool_decide_unpack _). vm_compute. exact I.
  - discriminate.
Defined.

(** Open, ring, enable feedback, take a call, an unknown mode: the profile
    ends as VOICE. *)
Lemma profile_always_valid_witness :
  profile_valid
    (Some {| profile := PROFILE_VOICE; adev := Some 1%positive;
             pcm := Some 5%positive |}).
Proof.
  eapply (proj2 (proj2 (proj2 (proj2
            (@profile_always_valid unit sample_headers (scripted script_ok)))))
            "amplifier_hw_if"
            [ Op_set_mode 1; Op_set_feedback (Some 1%positive) 2 true;
              Op_set_mode 2; Op_set_mode 77 ]
            sample_world).
  - vm_compute. reflexivity.
  - vm_compute. reflexivity.
Defined.


Lemma enable_steps_in_order_witness :
  ((@ext_calloc unit (scripted script_ok) (ext sample_world)).1 = true →
   ∃ rc t' w',
     @tas2562_set_feedback unit sample_headers (scripted script_ok)
       (Some sample_amp) (Some 1%positive) 2 true sample_world
     = Some ((rc, Some t'), w')
     ∧ @enable_steps unit sample_headers sample_amp 1 sample_device
         sample_world rc t' w')
  ∧ ((@ext_calloc unit (scripted script_ok) (ext sample_world)).1 = false →
     ∃ t' w',
       @tas2562_set_feedback unit sample_headers (scripted script_ok)
         (Some sample_amp) (Some 1%positive) 2 true sample_world
       = Some ((- ENOMEM, Some t'), w')
       ∧ pcm t' = None
       ∧ trace w' = trace sample_world
       ∧ usecases w' = usecases sample_world
       ∧ adevs w' = adevs sample_world)
  ∧ @tas2562_pcm_config sample_headers
    = {| channels := 2; rate := 48000; period_size := 256; period_count := 4;
         format := 3; start_threshold := 0;
         stop_threshold := 2147483647; avail_min := 40 |}.
Proof.
  apply (@enable_steps_in_order unit sample_headers (scripted script_ok)
           sample_amp 1%positive sample_device 2 sample_world).
  - reflexivity.
  - apply (bool_decide_unpack _). vm_compute. exact I.
  - reflexivity.
  - discriminate.
Defined.

(** C3 as stated fails when the usecase record cannot be allocated: the
    call is an enable call on a speaker device with no session open, it
    returns -ENOMEM, and none of the steps is performed. *)
Lemma enable_steps_need_memory :
  adevs sample_world !! 1%positive = Some sample_device
  ∧ 2 ∈ @speaker_devices sample_headers
  ∧ pcm sample_amp = None
  ∧ @tas2562_set_feedback unit sample_headers (scripted script_no_memory)
      (Some sample_amp) (Some 1%positive) 2 true sample_world
    = Some ((- ENOMEM, Some (set_adev (Some 1%positive) sample_amp)),
            sample_world)
  ∧ ¬ ∃ rc t' w',
        @tas2562_set_feedback unit sample_headers (scripted script_no_memory)
          (Some sample_amp) (Some 1%positive) 2 true sample_world
        = Some ((rc, Some t'), w')
        ∧ @enable_steps unit sample_headers sample_amp 1 sample_device
            sample_world rc t' w'.
Proof.
  split; [reflexivity|]. split; [apply sample_speaker|].
  split; [reflexivity|].
  assert (Hrun :
    @tas2562_set_feedback unit sample_headers (scripted script_no_memory)
      (Some sample_amp) (Some 1%positive) 2 true sample_world
    = Some ((- ENOMEM, Some (set_adev (Some 1%positive) sample_amp)),
            sample_world)) by (vm_compute; reflexivity).
  split; [exact Hrun|].
  intros (rc & t' & w' & Hrun' & Hsteps). rewrite Hrun in Hrun'.
  injection Hrun' as [= <- <- <-].
  destruct Hsteps as (uc & name & s3 & s4 & s5 & cap & session & _ & _ & Htrace & _).
  cbn in Htrace. discriminate Htrace.
Qed.

(** With no mixer control at all the enable call still opens the session. *)
Example enable_no_ctl_run :
  @tas2562_set_feedback unit sample_headers (scripted script_no_ctl)
    (Some sample_amp) (Some 1%positive) 2 true sample_world
  = Some ((0, Some {| profile := PROFILE_MUSIC; adev := Some 1%positive;
                      pcm := Some 5%positive |}),
          World {[ 1%positive := @feedback_usecase sample_headers ]}
            {[ 1%positive := {| mixer := 7%positive; snd_card := 0;
                                usecase_list := [1%positive] |} ]}
            [ Call_list_add_head 1 1;
              Call_enable_snd_device 1 100;
              Call_enable_audio_route 1 1 (@feedback_usecase sample_headers);
              Call_mixer_get_ctl_by_name 7 "TAS2562_SET_SPKID_LEFT" None;
              Call_mixer_get_ctl_by_name 7 "TAS2562_ALGO_PROFILE" None;
              Call_mixer_get_ctl_by_name 7 "TAS2562_SMARTPA_ENABLE" None;
              Call_platform_get_pcm_device_id 40 1 35;
              Call_pcm_open 0 35 268435456 (@tas2562_pcm_config sample_headers)
                (Some 5%positive);
              Call_pcm_is_ready 5 true;
              Call_pcm_start 5 0 ] tt).
Proof. vm_compute. reflexivity. Qed.

Lemma enable_result_ignores_mixer_witness :
  same_outcome (λ _ _ : unit, True)
    (@tas2562_set_feedback unit sample_headers (scripted script_ok)
       (Some sample_amp) (Some 1%positive) 2 true sample_world)
    (@tas2562_set_feedback unit sample_headers (scripted script_no_ctl)
       (Some sample_amp) (Some 1%positive) 2 true sample_world).
Proof.
  apply (proj1 (@enable_result_ignores_mixer sample_headers)
           unit unit (scripted script_ok) (scripted script_no_ctl)
           (λ _ _, True)).
  - by split.
  - by split.
Defined.

(** ** Sample runs of the further properties *)

(** A stream that refuses to start is closed, and the status of
    [pcm_start] is returned. *)
Example enable_no_start_run :
  ∃ w',
    @tas2562_set_feedback unit sample_headers (scripted script_no_start)
      (Some sample_amp) (Some 1%positive) 2 true sample_world
    = Some ((-32, Some (set_adev (Some 1%positive) sample_amp)), w')
    ∧ usecases w' = ∅
    ∧ Call_pcm_close 5 ∈ trace w'.
Proof.
  eexists. split; [vm_compute; reflexivity|]. split; [reflexivity|].
  apply (bool_decide_unpack _). vm_compute. exact I.
Qed.

(** A positive status of [pcm_start] opens the session, and 0 is
    returned. *)
Example enable_start_positive_run :
  ∃ w',
    @tas2562_set_feedback unit sample_headers (scripted script_start_positive)
      (Some sample_amp) (Some 1%positive) 2 true sample_world
    = Some ((0, Some {| profile := PROFILE_MUSIC; adev := Some 1%positive;
                        pcm := Some 5%positive |}), w')
    ∧ Call_pcm_start 5 3 ∈ trace w'.
Proof.
  eexists. split; [vm_compute; reflexivity|].
  apply (bool_decide_unpack _). vm_compute. exact I.
Qed.

(** The failing input of C1 and the sibling path: in [sample_world], with a
    stream that is not ready the call returns -EIO and stream 5 is never
    closed; with a stream that refuses to start, stream 5 is closed. *)
Lemma start_failure_leaves_stream_open_witness :
  (∃ t' w' mix pcm_id p off log,
     @tas2562_set_feedback unit sample_headers (scripted script_not_ready)
       (Some sample_amp) (Some 1%positive) 2 true sample_world
     = Some ((- EIO, Some t'), w')
     ∧ trace w' = trace sample_world ++ log
     ∧ log = @setup_calls sample_headers 1 (fresh (dom (usecases sample_world)))
               ++ mix
               ++ Call_platform_get_pcm_device_id
                    (@USECASE_AUDIO_SPKR_CALIB_TX sample_headers)
                    (@PCM_CAPTURE sample_headers) pcm_id
               :: Call_pcm_open (snd_card sample_device) pcm_id
                    (@PCM_IN sample_headers) (@tas2562_pcm_config sample_headers)
                    (Some p)
               :: Call_pcm_is_ready p false
               :: @rollback_calls sample_headers 1
                    (fresh (dom (usecases sample_world))) off
     ∧ Forall (λ c, mixer_call c = true) mix
     ∧ set_enum_attempt (mixer sample_device) TAS2562_SMARTPA_ENABLE "DISABLE" off
     ∧ pcm t' = None
     ∧ usecases w' = usecases sample_world
     ∧ adevs w' = adevs sample_world
     ∧ ∀ q, Call_pcm_close q ∉ log)
  ∧ (∃ rc t' w' mix pcm_id p off log,
       @tas2562_set_feedback unit sample_headers (scripted script_no_start)
         (Some sample_amp) (Some 1%positive) 2 true sample_world
       = Some ((rc, Some t'), w')
       ∧ rc < 0
       ∧ trace w' = trace sample_world ++ log
       ∧ log = @setup_calls sample_headers 1 (fresh (dom (usecases sample_world)))
                 ++ mix
                 ++ Call_platform_get_pcm_device_id
                      (@USECASE_AUDIO_SPKR_CALIB_TX sample_headers)
                      (@PCM_CAPTURE sample_headers) pcm_id
                 :: Call_pcm_open (snd_card sample_device) pcm_id
                      (@PCM_IN sample_headers) (@tas2562_pcm_config sample_headers)
                      (Some p)
                 :: Call_pcm_is_ready p true
                 :: Call_pcm_start p rc
                 :: Call_pcm_close p
                 :: @rollback_calls sample_headers 1
                      (fresh (dom (usecases sample_world))) off
       ∧ Forall (λ c, mixer_call c = true) mix
       ∧ set_enum_attempt (mixer sample_device) TAS2562_SMARTPA_ENABLE "DISABLE" off
       ∧ pcm t' = None
       ∧ usecases w' = usecases sample_world
       ∧ adevs w' = adevs sample_world).
Proof.
  split.
  - apply (@start_failure_leaves_stream_open unit sample_headers
             (scripted script_not_ready) sample_amp 1%positive sample_device 2
             sample_world).
    + reflexivity.
    + apply (bool_decide_unpack _). vm_compute. exact I.
    + reflexivity.
    + discriminate.
    + reflexivity.
    + intros. vm_compute. discriminate.
    + intros. eexists. reflexivity.
    + intros. reflexivity.
  - apply (@start_failure_leaves_stream_open unit sample_headers
             (scripted script_no_start) sample_amp 1%positive sample_device 2
             sample_world).
    + reflexivity.
    + apply (bool_decide_unpack _). vm_compute. exact I.
    + reflexivity.
    + discriminate.
    + reflexivity.
    + intros. vm_compute. discriminate.
    + intros. eexists. reflexivity.
    + intros. reflexivity.
    + intros. reflexivity.
Defined.

Lemma set_feedback_failure_keeps_state_witness :
  - EIO ≤ 0
  ∧ (- EIO < 0 →
     pcm <$> Some (set_adev (Some 1%positive) sample_amp) = pcm <$> Some sample_amp
     ∧ profile <$> Some (set_adev (Some 1%positive) sample_amp)
       = profile <$> Some sample_amp
     ∧ usecases not_ready_world = usecases sample_world
     ∧ adevs not_ready_world = adevs sample_world).
Proof.
  apply (@set_feedback_failure_keeps_state unit sample_headers
           (scripted script_not_ready) (Some sample_amp) (Some 1%positive) 2 true
           sample_world).
  vm_compute. reflexivity.
Defined.

Lemma set_feedback_defined_witness :
  is_Some (@tas2562_set_feedback unit sample_headers (scripted script_ok)
             (Some sample_amp_open) (Some 1%positive) 2 false busy_world).
Proof.
  apply (proj1 (proj2 (@set_feedback_defined unit sample_headers
                         (scripted script_ok) (Some sample_amp_open)
                         (Some 1%positive) 2 false busy_world))
           sample_amp_open 1%positive busy_device).
  - reflexivity.
  - reflexivity.
  - reflexivity.
  - repeat constructor. vm_compute. eauto.
  - discriminate.
Defined.

(** On the sample run with a stream that is not ready, stream 5 is not
    closed. *)
Lemma enable_stream_fate_witness :
  - EIO = - EIO
  ∧ pcm (set_adev (Some 1%positive) sample_amp) = None
  ∧ ∀ q, Call_pcm_close q ∉ trace not_ready_world.
Proof.
  apply (proj1 (@enable_stream_fate unit sample_headers
                  (scripted script_not_ready) sample_amp 1%positive 2
                  sample_world (- EIO) (set_adev (Some 1%positive) sample_amp)
                  not_ready_world (trace not_ready_world)
                  ltac:(vm_compute; reflexivity) ltac:(reflexivity))
           5%positive).
  apply (bool_decide_unpack _). vm_compute. exact I.
Defined.

Lemma enable_status_tells_session_witness :
  (0 = 0 → is_Some (pcm sample_amp_started))
  ∧ (pcm sample_amp = None → is_Some (pcm sample_amp_started) → 0 = 0)
  ∧ (is_Some (pcm sample_amp) →
     0 = - EINVAL ∧ pcm sample_amp_started = pcm sample_amp).
Proof.
  apply (@enable_status_tells_session unit sample_headers (scripted script_ok)
           sample_amp 1%positive 2 busy_world 0 sample_amp_started session_world).
  - apply (bool_decide_unpack _). vm_compute. exact I.
  - vm_compute. reflexivity.
Defined.

(** Feedback switched on and off again in [busy_world]: record 3 and the
    usecase list are as before. *)
Lemma enable_then_disable_restores_witness :
  ∃ p w2 log,
    pcm sample_amp_started = Some p
    ∧ @tas2562_set_feedback unit sample_headers (scripted script_ok)
        (Some sample_amp_started) (Some 1%positive) 2 false session_world
      = Some ((0, Some (set_adev (Some 1%positive) sample_amp)), w2)
    ∧ usecases w2 = usecases busy_world
    ∧ adevs w2 = adevs busy_world
    ∧ trace w2 = trace busy_world ++ log
    ∧ Call_list_add_head 1 (fresh (dom (usecases busy_world))) ∈ log
    ∧ Call_list_remove (fresh (dom (usecases busy_world))) ∈ log
    ∧ Call_pcm_close p ∈ log
    ∧ (∀ s, snd_device_refs 1 s log = 0)
    ∧ (∀ uc, audio_route_refs 1 uc log = 0)
    ∧ started_streams log = 0.
Proof.
  apply (@enable_then_disable_restores unit sample_headers (scripted script_ok)
           sample_amp 1%positive busy_device 2 2 busy_world sample_amp_started
           session_world).
  - reflexivity.
  - apply (bool_decide_unpack _). vm_compute. exact I.
  - apply (bool_decide_unpack _). vm_compute. exact I.
  - reflexivity.
  - vm_compute. reflexivity.
Defined.

(** In the world with a session, the disable call removes record 4, the
    head of the list, and keeps record 3. *)
Lemma disable_removes_first_record_witness :
  ∃ t' w' u off pre post d',
    @tas2562_set_feedback unit sample_headers (scripted script_ok)
      (Some sample_amp_started) (Some 1%positive) 2 false session_world
    = Some ((0, Some t'), w')
    ∧ pcm t' = None
    ∧ usecases session_world !! 4%positive = Some u
    ∧ id u = @USECASE_AUDIO_SPKR_CALIB_TX sample_headers
    ∧ trace w'
      = trace session_world ++ Call_pcm_close 5 :: off
          ++ [ Call_disable_snd_device 1
                 (@SND_DEVICE_IN_CAPTURE_VI_FEEDBACK sample_headers);
               Call_get_usecase_from_list 1
                 (@USECASE_AUDIO_SPKR_CALIB_TX sample_headers) (Some 4%positive);
               Call_disable_audio_route 1 4 u;
               Call_list_remove 4 ]
    ∧ set_enum_attempt (mixer session_device) TAS2562_SMARTPA_ENABLE "DISABLE" off
    ∧ usecase_list session_device = pre ++ 4%positive :: post
    ∧ (∀ n u0, n ∈ pre → usecases session_world !! n = Some u0 →
         id u0 ≠ @USECASE_AUDIO_SPKR_CALIB_TX sample_headers)
    ∧ adevs w' !! 1%positive = Some d'
    ∧ usecase_list d' = pre ++ post
    ∧ usecases w' !! 4%positive = None
    ∧ (∀ n, n ≠ 4%positive → usecases w' !! n = usecases session_world !! n).
Proof.
  apply (@disable_removes_first_record unit sample_headers (scripted script_ok)
           sample_amp_started 1%positive session_device 2 5%positive 4%positive
           session_world).
  - vm_compute. reflexivity.
  - apply (bool_decide_unpack _). vm_compute. exact I.
  - reflexivity.
  - vm_compute. reflexivity.
Defined.

(** The successful enable call in [busy_world] keeps record 3 and the mixer
    and sound card of the audio device. *)
Lemma set_feedback_frame_witness :
  (∀ a' : addr, Some 1%positive ≠ Some a' →
     adevs session_world !! a' = adevs busy_world !! a')
  ∧ (∀ (a' : addr) d, adevs busy_world !! a' = Some d →
       ∃ d', adevs session_world !! a' = Some d'
             ∧ mixer d' = mixer d ∧ snd_card d' = snd_card d)
  ∧ (∀ (n : addr) u, usecases busy_world !! n = Some u →
       id u ≠ @USECASE_AUDIO_SPKR_CALIB_TX sample_headers →
       usecases session_world !! n = Some u).
Proof.
  apply (@set_feedback_frame unit sample_headers (scripted script_ok)
           (Some sample_amp) (Some 1%positive) 2 true busy_world 0
           (Some sample_amp_started) session_world).
  vm_compute. reflexivity.
Defined.

(** After [sample_ops] the device holds a session, and one more stream has
    been started than closed. *)
Lemma started_streams_match_session_witness :
  ∃ log,
    trace sample_ops_world = trace sample_world ++ log
    ∧ started_streams log
      = session_count (Some {| profile := PROFILE_VOICE; adev := Some 1%positive;
                               pcm := Some 5%positive |})
    ∧ (session_count (Some {| profile := PROFILE_VOICE; adev := Some 1%positive;
                              pcm := Some 5%positive |}) = 0
       ∨ session_count (Some {| profile := PROFILE_VOICE; adev := Some 1%positive;
                                pcm := Some 5%positive |}) = 1).
Proof.
  apply (@started_streams_match_session unit sample_headers (scripted script_ok)
           "amplifier_hw_if" sample_ops sample_world 0 (Some sample_amp)
           sample_world).
  - vm_compute. reflexivity.
  - vm_compute. reflexivity.
Defined.

(** On an amplifier in VOICE: NORMAL then RINGTONE leaves RING, as RINGTONE
    alone does. *)
Lemma set_mode_last_wins_witness :
  ∃ once twice,
    @tas2562_set_mode sample_headers (Some sample_amp_open) 0 = Some once
    ∧ @tas2562_set_mode sample_headers once.2 1 = Some twice
    ∧ (1 ∈ @profile_modes sample_headers →
       @tas2562_set_mode sample_headers (Some sample_amp_open) 1 = Some twice)
    ∧ (1 ∉ @profile_modes sample_headers → twice = once)
    ∧ (Some sample_amp_open = None →
       once = (- EINVAL, None) ∧ twice = (- EINVAL, None)).
Proof.
  apply (@set_mode_last_wins sample_headers (Some sample_amp_open) 0 1).
  apply (bool_decide_unpack _). vm_compute. exact I.
Defined.

(** After the ringtone mode the enable call offers RING to the profile
    control. *)
Lemma enable_uses_latest_mode_witness :
  ∃ t1 rc t' w' before s4 after name,
    @tas2562_set_mode sample_headers (Some sample_amp) 1 = Some (0, Some t1)
    ∧ @tas2562_set_feedback unit sample_headers (scripted script_ok)
        (Some t1) (Some 1%positive) 2 true sample_world
      = Some ((rc, Some t'), w')
    ∧ trace w' = trace sample_world ++ before ++ s4 ++ after
    ∧ set_enum_attempt (mixer sample_device) TAS2562_ALGO_PROFILE name s4
    ∧ Forall (λ c, ∀ ctl value ret,
                c ≠ Call_mixer_ctl_set_enum_by_string ctl value ret) before
    ∧ (1 = @AUDIO_MODE_NORMAL sample_headers → name = "MUSIC")
    ∧ (1 = @AUDIO_MODE_RINGTONE sample_headers → name = "RING")
    ∧ (1 = @AUDIO_MODE_IN_CALL sample_headers
       ∨ 1 = @AUDIO_MODE_IN_COMMUNICATION sample_headers → name = "VOICE")
    ∧ (1 ∉ @profile_modes sample_headers →
       profile_name (profile sample_amp) = Some name).
Proof.
  apply (@enable_uses_latest_mode unit sample_headers (scripted script_ok)
           sample_amp 1%positive sample_device 2 1 sample_world).
  - apply (bool_decide_unpack _). vm_compute. exact I.
  - reflexivity.
  - apply (bool_decide_unpack _). vm_compute. exact I.
  - reflexivity.
  - discriminate.
  - reflexivity.
Defined.

(** Opening with another name in [sample_world]. *)
Lemma module_open_outcomes_witness :
  @tas2562_module_open unit sample_headers (scripted script_ok) "audio_hw_if"
    sample_world
  = Some ((- ENODEV, None), sample_world).
Proof.
  destruct (@module_open_outcomes unit sample_headers (scripted script_ok)
              "audio_hw_if" sample_world)
    as (rc & device & w' & Hopen & _ & _ & _ & _ & Hname & _).
  destruct Hname as (-> & -> & ->); [discriminate|]. exact Hopen.
Defined.

(** The enable call that fails on a stream that is not ready has bound the
    audio device all the same. *)
Lemma set_feedback_binds_adev_witness :
  ∃ t', Some (set_adev (Some 1%positive) sample_amp) = Some t'
        ∧ adev t' = Some 1%positive
        ∧ profile t' = profile sample_amp.
Proof.
  apply (@set_feedback_binds_adev unit sample_headers (scripted script_not_ready)
           sample_amp 1%positive 2 true sample_world (- EIO)
           (Some (set_adev (Some 1%positive) sample_amp)) not_ready_world).
  vm_compute. reflexivity.
Defined.

End Tas2562Facts.

